(** * Cloud pipeline orchestrator: storage layout, process runner, stages

    A shallow embedding of [paperspace/pipeline_cloud.py] (class
    [CloudPipeline]) and [paperspace/utils/cloud_storage.py] (class
    [CloudStorage]).

    - Python [str] values are [string]; exit codes and modification times
      are [Z]; counters and durations in seconds are [nat].
    - A directory is the list of its entries in listing order (the order
      [Path.glob] yields them).
    - The orchestrator is sequential code with side effects (log events,
      files, child processes, sleeps) and exceptions; it is embedded in a
      state-and-exception monad [M] over a [World].
    - Everything the orchestrator cannot decide itself (what a child process
      prints, when it exits, what it writes, what the clock says) is read
      from an oracle [Env]. *)

From Stdlib Require Import ZArith List String Ascii Bool Arith Lia.
Import ListNotations.

Set Warnings "-abstract-large-number".

Local Open Scope list_scope.
Local Open Scope string_scope.

(* ===================================================================== *)
(** ** Python string helpers *)
(* ===================================================================== *)

Module Py.

(** [sub in s] *)
Fixpoint contains (sub s : string) : bool :=
  if String.prefix sub s then true
  else match s with
       | EmptyString => false
       | String _ rest => contains sub rest
       end.

(** [s.startswith(p)] *)
Definition startswith (p s : string) : bool := String.prefix p s.

Fixpoint rev_string (s : string) (acc : string) : string :=
  match s with
  | EmptyString => acc
  | String c rest => rev_string rest (String c acc)
  end.

Definition reverse (s : string) : string := rev_string s EmptyString.

(** [s.endswith(p)] *)
Definition endswith (p s : string) : bool :=
  String.prefix (reverse p) (reverse s).

(** ASCII characters for which [str.isspace] holds. *)
Definition is_space (c : ascii) : bool :=
  let n := nat_of_ascii c in
  (((9 <=? n) && (n <=? 13)) || ((28 <=? n) && (n <=? 32)))%nat.

Fixpoint lstrip_with (p : ascii -> bool) (s : string) : string :=
  match s with
  | EmptyString => EmptyString
  | String c rest => if p c then lstrip_with p rest else s
  end.

Definition rstrip_with (p : ascii -> bool) (s : string) : string :=
  reverse (lstrip_with p (reverse s)).

(** [s.rstrip()] *)
Definition rstrip (s : string) : string := rstrip_with is_space s.

(** [sep.join(ls)] *)
Definition join (sep : string) (ls : list string) : string :=
  String.concat sep ls.

Definition is_empty (s : string) : bool :=
  match s with EmptyString => true | _ => false end.

Definition digit (n : nat) : ascii := ascii_of_nat (48 + n).

Fixpoint digits (fuel n : nat) (acc : string) : string :=
  match fuel with
  | O => acc
  | S fuel' =>
      let acc' := String (digit (n mod 10)) acc in
      if (n <? 10)%nat then acc' else digits fuel' (n / 10) acc'
  end.

(** [str(n)] for a non-negative [int] *)
Definition str_nat (n : nat) : string := digits (S n) n EmptyString.

(** [str(z)] for an [int] *)
Definition str_int (z : Z) : string :=
  if (z <? 0)%Z then "-" ++ str_nat (Z.to_nat (- z)) else str_nat (Z.to_nat z).

(** [len(s)] *)
Definition len (s : string) : Z := Z.of_nat (String.length s).

Definition is_alnum (c : ascii) : bool :=
  let n := nat_of_ascii c in
  (((48 <=? n) && (n <=? 57)) || ((65 <=? n) && (n <=? 90))
   || ((97 <=? n) && (n <=? 122)))%nat.

Fixpoint take_while (p : ascii -> bool) (s : string) : string :=
  match s with
  | EmptyString => EmptyString
  | String c rest => if p c then String c (take_while p rest) else EmptyString
  end.

Fixpoint drop (n : nat) (s : string) : string :=
  match n, s with
  | O, _ => s
  | S n', String _ rest => drop n' rest
  | S _, EmptyString => EmptyString
  end.

End Py.

(* ===================================================================== *)
(** ** Exceptions and outcomes *)
(* ===================================================================== *)

(** The exceptions the orchestrator distinguishes:
    [subprocess.TimeoutExpired] has a handler of its own; every other
    subclass of [Exception] is handled through its description [str(e)]. *)
Inductive exn : Type :=
| TimeoutExpired
| Exception (msg : string).

Definition str_exn (e : exn) : string :=
  match e with
  | TimeoutExpired => "Command timed out"
  | Exception msg => msg
  end.

(** What a call can do: return a value, raise, or block for ever (a
    blocking read on a pipe nobody closes). *)
Inductive outcome (A : Type) : Type :=
| Ret (a : A)
| Raise (e : exn)
| Hang.

Arguments Ret {A} a.
Arguments Raise {A} e.
Arguments Hang {A}.

(* ===================================================================== *)
(** ** Files and directories *)
(* ===================================================================== *)

(** A directory entry: its name, its modification time ([st_mtime]) and
    what it holds.  Entries are regular files. *)
Record file (A : Type) : Type := File {
  name : string;
  mtime : Z;
  content : A
}.

Arguments File {A} name mtime content.
Arguments name {A} f.
Arguments mtime {A} f.
Arguments content {A} f.

(** Entries in listing order. *)
Definition directory (A : Type) : Type := list (file A).

(** What [json.load] finds in a file: a document that does not parse,
    or an object whose members are strings (the only shape
    [save_vector_store_id] writes). *)
Inductive json_doc : Type :=
| Malformed
| Dict (items : list (string * string)).

Module Fs.

(** A glob pattern with one star, [prefix*suffix], matched against an
    entry name.  Every pattern of the program has this shape: the company
    slug spliced into a pattern holds only [a-z0-9_]. *)
Definition fnmatch (pre suf nm : string) : bool :=
  Py.startswith pre nm && Py.endswith suf nm
  && (String.length pre + String.length suf <=? String.length nm)%nat.

(** [list(dir.glob(pre + "*" + suf))] *)
Definition glob {A} (pre suf : string) (d : directory A) : directory A :=
  filter (fun f => fnmatch pre suf (name f)) d.

(** [l.sort(key=lambda x: x.stat().st_mtime, reverse=True)]: a stable
    sort, newest first; entries with equal keys keep their order. *)
(** [f] stood before every entry of [l] in the unsorted list, so it goes
    before the first entry that is not strictly newer. *)
Fixpoint insert_newest_first {A} (f : file A) (l : directory A) : directory A :=
  match l with
  | [] => [f]
  | g :: rest =>
      if (mtime g <=? mtime f)%Z then f :: l
      else g :: insert_newest_first f rest
  end.

Fixpoint sort_newest_first {A} (l : directory A) : directory A :=
  match l with
  | [] => []
  | f :: rest => insert_newest_first f (sort_newest_first rest)
  end.

Definition lookup {A} (nm : string) (d : directory A) : option (file A) :=
  find (fun f => String.eqb (name f) nm) d.

(** [path.exists()] *)
Definition exists_ {A} (nm : string) (d : directory A) : bool :=
  match lookup nm d with Some _ => true | None => false end.

(** [open(path, 'w')] followed by a write: an existing entry is truncated
    and rewritten in place; a new entry is added to the listing. *)
Fixpoint write {A} (nm : string) (mt : Z) (c : A) (d : directory A) : directory A :=
  match d with
  | [] => [File nm mt c]
  | f :: rest =>
      if String.eqb (name f) nm then File nm mt c :: rest
      else f :: write nm mt c rest
  end.

(** [path.unlink()] *)
Definition unlink {A} (nm : string) (d : directory A) : directory A :=
  filter (fun f => negb (String.eqb (name f) nm)) d.

(** Universal newlines, as text-mode reading applies them: [\r\n] and a
    lone [\r] both become [\n]. *)
Fixpoint universal_newlines (s : string) : string :=
  match s with
  | EmptyString => EmptyString
  | String c rest =>
      if Ascii.eqb c "013"%char then
        match rest with
        | String c' rest' =>
            if Ascii.eqb c' "010"%char then String "010"%char (universal_newlines rest')
            else String "010"%char (universal_newlines rest)
        | EmptyString => String "010"%char EmptyString
        end
      else String c (universal_newlines rest)
  end.

(** The text [read_text(encoding='utf-8')] returns for an entry. *)
Definition text_of (f : file string) : string := universal_newlines (content f).

(** [path.read_text(encoding='utf-8')] *)
Definition read_text (nm : string) (d : directory string) : outcome string :=
  match lookup nm d with
  | Some f => Ret (text_of f)
  | None => Raise (Exception ("[Errno 2] No such file or directory: " ++ nm))
  end.

End Fs.

(* ===================================================================== *)
(** ** Clock readings *)
(* ===================================================================== *)

(** The fields of a [datetime] / [struct_time] value. *)
Record datetime : Type := DateTime {
  year : nat; month : nat; day : nat;
  hour : nat; minute : nat; second : nat
}.

Module Clock.

Definition valid (d : datetime) : Prop :=
  (year d < 100 * 100 /\ month d < 100 /\ day d < 100
   /\ hour d < 100 /\ minute d < 100 /\ second d < 100)%nat.

Definition validb (d : datetime) : bool :=
  ((year d <? 100 * 100) && (month d <? 100) && (day d <? 100)
   && (hour d <? 100) && (minute d <? 100) && (second d <? 100))%nat.

Definition pad2 (n : nat) : string :=
  String (Py.digit (n / 10)) (String (Py.digit (n mod 10)) EmptyString).

Definition pad4 (n : nat) : string :=
  String (Py.digit (n / 1000))
    (String (Py.digit ((n / 100) mod 10)) (pad2 (n mod 100))).

(** [d.strftime("%Y%m%d" + sep + "%H%M%S")] *)
Definition strftime (sep : string) (d : datetime) : string :=
  pad4 (year d) ++ pad2 (month d) ++ pad2 (day d) ++ sep
  ++ pad2 (hour d) ++ pad2 (minute d) ++ pad2 (second d).

End Clock.

(* ===================================================================== *)
(** ** Child processes *)
(* ===================================================================== *)

(** How the merged stdout/stderr pipe of a child ends: [readline] returns
    [''] some seconds after the launch, blocks for ever, or raises. *)
Inductive stream_end : Type :=
| Eof (at_second : nat)
| Blocks
| ReadFails (msg : string).

(** A launched child: the lines [readline] yields in order, how the pipe
    ends, and when (seconds after the launch) it exits by itself and with
    which code; [None] when it never does. *)
Record child : Type := Child {
  lines : list string;
  ending : stream_end;
  exits : option (nat * Z)
}.

(** [subprocess.Popen(...)] either raises or starts a child. *)
Inductive launch : Type :=
| LaunchFails (msg : string)
| Launched (c : child).

(* ===================================================================== *)
(** ** The world the orchestrator acts on *)
(* ===================================================================== *)

(** The company-scoped tree of [CloudStorage.setup_directories]. *)
Record Disk : Type := {
  data_dir : directory string;
  vector_ids_dir : directory json_doc;
  part_a_dir : directory string;
  part_b_dir : directory string;
  final_dir : directory string
}.

Definition set_data_dir (d : directory string) (k : Disk) : Disk :=
  {| data_dir := d; vector_ids_dir := vector_ids_dir k;
     part_a_dir := part_a_dir k; part_b_dir := part_b_dir k;
     final_dir := final_dir k |}.

Definition set_vector_ids_dir (d : directory json_doc) (k : Disk) : Disk :=
  {| data_dir := data_dir k; vector_ids_dir := d;
     part_a_dir := part_a_dir k; part_b_dir := part_b_dir k;
     final_dir := final_dir k |}.

Definition set_final_dir (d : directory string) (k : Disk) : Disk :=
  {| data_dir := data_dir k; vector_ids_dir := vector_ids_dir k;
     part_a_dir := part_a_dir k; part_b_dir := part_b_dir k;
     final_dir := d |}.

(** Step numbers are 1, 2, ..., 6, 6.5, 6.7, 7, ...: held in tenths. *)
Definition step_number : Type := nat.

(** Observable effects, in the order they happen. *)
Inductive event : Type :=
| Info (msg : string)
| Warning (msg : string)
| Error (msg : string)
| Success (msg : string)
| Step (tenths : step_number) (total : nat) (msg : string)
| Metric (mname : string) (value : Z) (unit : string)
| Print (line : string)
| Popen (cmd : string)
| Kill
| Sleep (seconds : nat)
| SetEnv (key value : string).

Record World : Type := {
  disk : Disk;
  trace : list event;
  calls : nat;
  ticks : nat
}.

(** What [pandas] does with one CSV file of the data directory. *)
Inductive conversion : Type :=
| Converted (json : string)
| ConversionFails (msg : string)
| UnlinkFails (json : string) (msg : string).

(** [int(os.environ.get("MCP_PORT", "8001"))] *)
Inductive parsed_int : Type :=
| IntValue (z : Z)
| ValueError (msg : string).

(** What the Drive client does once credentials are loaded. *)
Inductive drive_response : Type :=
| DriveRaises (msg : string)
| DriveResponse (progress : list Z) (file_id : option string) (file_name : string).

(** Everything outside the orchestrator's control. *)
Record Env : Type := {
  exec : nat -> string -> option string -> Disk -> launch * Disk;
  utcnow : nat -> datetime;
  localtime : nat -> datetime;
  time_time : nat -> Z;
  fs_time : nat -> Z;
  csv_to_json : file string -> conversion;
  mcp_port : parsed_int;
  mcp_popen : option string;
  google_api_import_error : option string;
  gdrive_credentials_path : string;
  gdrive_credentials_exist : bool;
  drive : drive_response
}.

(* ===================================================================== *)
(** ** The state-and-exception monad *)
(* ===================================================================== *)

Definition M (A : Type) : Type := World -> outcome A * World.

Definition ret {A} (a : A) : M A := fun w => (Ret a, w).

Definition bind {A B} (m : M A) (f : A -> M B) : M B :=
  fun w =>
    match m w with
    | (Ret a, w') => f a w'
    | (Raise e, w') => (Raise e, w')
    | (Hang, w') => (Hang, w')
    end.

Definition raise {A} (e : exn) : M A := fun w => (Raise e, w).

Definition hang {A} : M A := fun w => (Hang, w).

(** [try: body except ...: handler] *)
Definition try_except {A} (body : M A) (handler : exn -> M A) : M A :=
  fun w =>
    match body w with
    | (Raise e, w') => handler e w'
    | r => r
    end.

Declare Scope monad_scope.
Delimit Scope monad_scope with monad.
Notation "x <- m ;; k" := (bind m (fun x => k))
  (at level 61, m at next level, right associativity) : monad_scope.
Notation "' p <- m ;; k" := (bind m (fun p => k))
  (at level 61, p pattern, m at next level, right associativity) : monad_scope.
Notation "m ;; k" := (bind m (fun _ => k))
  (at level 61, right associativity) : monad_scope.
Local Open Scope monad_scope.

Definition emit (ev : event) : M unit :=
  fun w => (Ret tt, {| disk := disk w; trace := (trace w ++ [ev])%list;
                       calls := calls w; ticks := ticks w |}).

Definition get_disk : M Disk := fun w => (Ret (disk w), w).

Definition put_disk (k : Disk) : M unit :=
  fun w => (Ret tt, {| disk := k; trace := trace w;
                       calls := calls w; ticks := ticks w |}).

(** Reads the clock: the tick names the reading, and moves on. *)
Definition tick : M nat :=
  fun w => (Ret (ticks w), {| disk := disk w; trace := trace w;
                              calls := calls w; ticks := S (ticks w) |}).

Definition when (b : bool) (m : M unit) : M unit := if b then m else ret tt.

(* ===================================================================== *)
(** ** ProcessRunner: [CloudPipeline.run_command] *)
(* ===================================================================== *)

Section ProcessRunner.

Variable env : Env.

(** [subprocess.Popen(cmd, shell=True, cwd=cwd, ...)]: the oracle says
    whether the launch raises, how the child behaves and what the disk
    holds once the caller looks at it again. *)
Definition popen (cmd : string) (cwd : option string) : M child :=
  fun w =>
    let '(l, k) := exec env (calls w) cmd cwd (disk w) in
    let w' := {| disk := k; trace := (trace w ++ [Popen cmd])%list;
                 calls := S (calls w); ticks := ticks w |} in
    match l with
    | LaunchFails msg => (Raise (Exception msg), w')
    | Launched c => (Ret c, w')
    end.

(** The body of [for line in iter(process.stdout.readline, '')]. *)
Fixpoint consume (raw : list string) : M (list string) :=
  match raw with
  | [] => ret []
  | line :: rest =>
      let line := Py.rstrip line in
      if negb (Py.is_empty line) then
        emit (Print line) ;;
        output_lines <- consume rest ;;
        ret (line :: output_lines)
      else consume rest
  end.

(** The whole read loop: it ends when [readline] returns ['']. *)
Definition read_output (c : child) : M (list string) :=
  output_lines <- consume (lines c) ;;
  match ending c with
  | Eof _ => ret output_lines
  | Blocks => hang
  | ReadFails msg => raise (Exception msg)
  end.

(** [process.wait(timeout=timeout)], called once the pipe has reported
    end of file: the child has exited already, or exits within [timeout]
    seconds from now, or [TimeoutExpired] is raised. *)
Definition wait (c : child) (timeout : nat) : M Z :=
  match ending c, exits c with
  | Eof eof_at, Some (exit_at, code) =>
      if (exit_at <=? eof_at + timeout)%nat then ret code else raise TimeoutExpired
  | _, _ => raise TimeoutExpired
  end.

Definition run_command (cmd : string) (cwd : option string) (timeout : nat)
  : M (Z * string) :=
  emit (Info ("Executing: " ++ cmd)) ;;
  try_except
    (process <- popen cmd cwd ;;
     output_lines <- read_output process ;;
     exit_code <- wait process timeout ;;
     let full_output := Py.join (String "010"%char EmptyString) output_lines in
     ret (exit_code, full_output))
    (fun e =>
       match e with
       | TimeoutExpired =>
           emit Kill ;;
           emit (Error ("Command timed out after " ++ Py.str_nat timeout ++ " seconds")) ;;
           ret (1%Z, "TIMEOUT")
       | Exception msg =>
           emit (Error ("Command failed: " ++ msg)) ;;
           ret (1%Z, msg)
       end).

End ProcessRunner.

(* ===================================================================== *)
(** ** StorageLayout: [CloudStorage] *)
(* ===================================================================== *)

Record CloudStorage : Type := {
  storage_company_name : string;
  company_slug : string;
  base_output : string
}.

Module Storage.

(** [re.sub(r"[^A-Za-z0-9]+", "_", name)]: every maximal run of other
    characters becomes one underscore.  [in_run] tells whether the previous
    character already belonged to such a run. *)
Fixpoint sub_non_alnum (in_run : bool) (s : string) : string :=
  match s with
  | EmptyString => EmptyString
  | String c rest =>
      if Py.is_alnum c then String c (sub_non_alnum false rest)
      else if in_run then sub_non_alnum true rest
      else String "_"%char (sub_non_alnum true rest)
  end.

Definition is_underscore (c : ascii) : bool := Ascii.eqb c "_"%char.

(** [s.strip("_")] *)
Definition strip_underscores (s : string) : string :=
  Py.rstrip_with is_underscore (Py.lstrip_with is_underscore s).

Definition lower_char (c : ascii) : ascii :=
  let n := nat_of_ascii c in
  if ((65 <=? n) && (n <=? 90))%nat then ascii_of_nat (n + 32) else c.

(** [s.lower()] on the ASCII text [sub_non_alnum] leaves *)
Fixpoint lower (s : string) : string :=
  match s with
  | EmptyString => EmptyString
  | String c rest => String (lower_char c) (lower rest)
  end.

Definition _slugify (name : string) : string :=
  lower (strip_underscores (sub_non_alnum false name)).

(** [CloudStorage(company_name)]; [is_cloud] is [Path("/outputs").exists()]. *)
Definition init (company_name : string) (is_cloud : bool) : CloudStorage :=
  {| storage_company_name := company_name;
     company_slug := _slugify company_name;
     base_output := if is_cloud then "/outputs" else "paperspace_outputs" |}.

(** [parent / child] rendered by [str] *)
Definition path_join (parent child : string) : string :=
  if Py.is_empty child then parent else parent ++ "/" ++ child.

Definition outputs_root (st : CloudStorage) : string :=
  path_join (base_output st) (company_slug st).

Definition data_dir_path (st : CloudStorage) : string :=
  path_join (outputs_root st) "data".

Definition part_b_dir_path (st : CloudStorage) : string :=
  path_join (outputs_root st) "part_b".

Definition final_dir_path (st : CloudStorage) : string :=
  path_join (outputs_root st) "final".

Section Operations.

Variable st : CloudStorage.

(** The four members [save_vector_store_id] dumps. *)
Definition vector_record (vector_store_id timestamp : string)
  : list (string * string) :=
  [ ("vector_store_id", vector_store_id);
    ("company_name", storage_company_name st);
    ("company_slug", company_slug st);
    ("timestamp", timestamp) ].

(** [save_vector_store_id]: [now] is [datetime.utcnow()], [mt] the
    modification time the filesystem stamps on the written file.  Returns
    the new listing and the name of [id_file]. *)
Definition save_vector_store_id (now : datetime) (mt : Z)
    (vector_store_id : string) (d : directory json_doc)
  : directory json_doc * string :=
  let timestamp := Clock.strftime "_" now in
  let id_file := "vector_" ++ timestamp ++ ".json" in
  (Fs.write id_file mt (Dict (vector_record vector_store_id timestamp)) d, id_file).

(** [data.get(key)] on the loaded object *)
Fixpoint dict_get (key : string) (items : list (string * string)) : option string :=
  match items with
  | [] => None
  | (k, v) :: rest => if String.eqb k key then Some v else dict_get key rest
  end.

(** [get_latest_vector_store_id]: [json.load] raises on a file that does
    not parse.  An empty [vector_files] returns [None] before any file is
    opened; the sort of an empty list is empty. *)
Definition get_latest_vector_store_id (d : directory json_doc)
  : outcome (option string) :=
  let vector_files := Fs.glob "vector_" ".json" d in
  match Fs.sort_newest_first vector_files with
  | [] => Ret None
  | newest :: _ =>
      match content newest with
      | Malformed => Raise (Exception "Expecting value: line 1 column 1 (char 0)")
      | Dict data => Ret (dict_get "vector_store_id" data)
      end
  end.

(** [get_latest_part_a_draft]: the pointer entry when it exists, else the
    newest timestamped draft, else nothing.  Returns an entry name. *)
Definition get_latest_part_a_draft (d : directory string) : option string :=
  let latest_link := "report_draft_latest_" ++ company_slug st ++ ".md" in
  if Fs.exists_ latest_link d then Some latest_link
  else
    let drafts := Fs.glob ("report_draft_" ++ company_slug st ++ "_") ".md" d in
    match Fs.sort_newest_first drafts with
    | [] => None
    | newest :: _ => Some (name newest)
    end.

(** [save_final_report]: writes the report and then the ready signal whose
    single line is the report's path.  Returns the new listing and the name
    of [final_file]. *)
Definition save_final_report (now : datetime) (mt : Z) (content : string)
    (d : directory string) : directory string * string :=
  let timestamp := Clock.strftime "_" now in
  let final_file := "FINAL_REPORT_" ++ company_slug st ++ "_" ++ timestamp ++ ".md" in
  let d1 := Fs.write final_file mt content d in
  let signal_file := "FINAL_REPORT_" ++ company_slug st ++ "_" ++ timestamp ++ ".ready" in
  let d2 := Fs.write signal_file mt
              (path_join (final_dir_path st) final_file ++ String "010"%char EmptyString) d1 in
  (d2, final_file).

(** [get_latest_final_report]: the name of the newest report. *)
Definition get_latest_final_report (d : directory string) : option string :=
  let reports := Fs.glob ("FINAL_REPORT_" ++ company_slug st ++ "_") ".md" d in
  match Fs.sort_newest_first reports with
  | [] => None
  | newest :: _ => Some (name newest)
  end.

End Operations.

End Storage.

(* ===================================================================== *)
(** ** StageSequencer: [CloudPipeline] *)
(* ===================================================================== *)

Record CloudPipeline : Type := {
  company_name : string;
  storage : CloudStorage
}.

Module Pipeline.

Definition dquote : string := String "034"%char EmptyString.

Definition newline : string := String "010"%char EmptyString.

(** [c * n] for a one-character string *)
Fixpoint repeat_char (c : ascii) (n : nat) : string :=
  match n with
  | O => EmptyString
  | S n' => String c (repeat_char c n')
  end.

(** [re.search(r'vs_[a-zA-Z0-9]+', s)]: the leftmost match, as long as
    it can be. *)
Fixpoint search_vector_id (s : string) : option string :=
  match s with
  | EmptyString => None
  | String _ rest =>
      let run := Py.take_while Py.is_alnum (Py.drop 3 s) in
      if Py.startswith "vs_" s && negb (Py.is_empty run) then Some ("vs_" ++ run)
      else search_vector_id rest
  end.

(** Truth value of an [Optional[str]] *)
Definition truthy (v : option string) : bool :=
  match v with
  | Some s => negb (Py.is_empty s)
  | None => false
  end.

(** [name.rfind('.')] *)
Fixpoint rfind_dot (s : string) (i : nat) (last : option nat) : option nat :=
  match s with
  | EmptyString => last
  | String c rest =>
      rfind_dot rest (S i) (if Ascii.eqb c "."%char then Some i else last)
  end.

(** [Path(name).with_suffix(suffix).name] *)
Definition with_suffix (suffix nm : string) : string :=
  match rfind_dot nm 0 None with
  | Some i =>
      if ((0 <? i) && (i <? String.length nm - 1))%nat
      then String.substring 0 i nm ++ suffix
      else nm ++ suffix
  | None => nm ++ suffix
  end.

(** How the retry loop of Part B is left. *)
Inductive loop_exit : Type :=
| Broke
| Exhausted
| Returned (b : bool).

Section Stages.

Variable env : Env.
Variable self : CloudPipeline.

Let st : CloudStorage := storage self.

Definition lift {A} (o : outcome A) : M A := fun w => (o, w).

(** One turn of the loop of [preprocess_company_folder]. *)
Definition convert_csv (csv_path : file string) : M unit :=
  let json_path := with_suffix ".json" (name csv_path) in
  emit (Info ("Converting CSV: " ++ name csv_path)) ;;
  try_except
    (match csv_to_json env csv_path with
     | ConversionFails msg => raise (Exception msg)
     | Converted json =>
         t <- tick ;;
         k <- get_disk ;;
         put_disk (set_data_dir
                     (Fs.unlink (name csv_path)
                        (Fs.write json_path (fs_time env t) json (data_dir k))) k) ;;
         emit (Success ("Converted " ++ name csv_path ++ " to JSON"))
     | UnlinkFails json msg =>
         t <- tick ;;
         k <- get_disk ;;
         put_disk (set_data_dir
                     (Fs.write json_path (fs_time env t) json (data_dir k)) k) ;;
         raise (Exception msg)
     end)
    (fun e =>
       emit (Error ("Failed to convert " ++ name csv_path ++ ": " ++ str_exn e))).

Fixpoint convert_all (csv_files : list (file string)) : M unit :=
  match csv_files with
  | [] => ret tt
  | csv_path :: rest => convert_csv csv_path ;; convert_all rest
  end.

Definition preprocess_company_folder : M bool :=
  emit (Step 10 10 "Preprocessing company data") ;;
  k <- get_disk ;;
  let csv_files := Fs.glob "" ".csv" (data_dir k) in
  convert_all csv_files ;;
  ret true.

Definition storage_save_vector_store_id (vector_store_id : string) : M string :=
  t <- tick ;;
  k <- get_disk ;;
  let '(d, id_file) :=
    Storage.save_vector_store_id st (utcnow env t) (fs_time env t)
      vector_store_id (vector_ids_dir k) in
  put_disk (set_vector_ids_dir d k) ;;
  ret id_file.

Definition upload_to_vector_store : M (option string) :=
  emit (Step 20 10 "Uploading to vector store") ;;
  let company_folder := Storage.data_dir_path st in
  '(exit_code, output) <-
    run_command env
      ("python3 helper_vectorstoreupload.py " ++ dquote ++ company_folder ++ dquote)
      None 3600 ;;
  if negb (exit_code =? 0)%Z then
    emit (Error "Vector store upload failed") ;;
    ret None
  else
    k <- get_disk ;;
    vector_store_id <- lift (Storage.get_latest_vector_store_id (vector_ids_dir k)) ;;
    vector_store_id <-
      (if negb (truthy vector_store_id) then
         match search_vector_id output with
         | Some found =>
             storage_save_vector_store_id found ;;
             ret (Some found)
         | None => ret vector_store_id
         end
       else ret vector_store_id) ;;
    if truthy vector_store_id then
      emit (Success ("Vector store created: "
                     ++ match vector_store_id with Some s => s | None => "" end)) ;;
      ret vector_store_id
    else
      emit (Error "Could not determine vector store ID") ;;
      ret None.

Definition start_mcp_server (vector_store_id : option string) : M bool :=
  emit (Step 30 10 "Starting MCP server") ;;
  port <- match mcp_port env with
          | IntValue z => ret z
          | ValueError msg => raise (Exception msg)
          end ;;
  let vector_arg :=
    match vector_store_id with
    | Some s => if truthy vector_store_id then " --vector-store-id " ++ s else ""
    | None => ""
    end in
  let cmd := "python3 minimal_mcp.py --port " ++ Py.str_int port ++ vector_arg ++ " &" in
  try_except
    (match mcp_popen env with
     | Some msg => raise (Exception msg)
     | None => emit (Popen cmd)
     end ;;
     emit (Sleep 5) ;;
     emit (Success ("MCP server started on port " ++ Py.str_int port)) ;;
     let mcp_url := "http://localhost:" ++ Py.str_int port ++ "/sse" in
     emit (SetEnv "VECTOR_STORE_MCP_URL" mcp_url) ;;
     emit (Info ("MCP URL: " ++ mcp_url)) ;;
     ret true)
    (fun e =>
       emit (Error ("Failed to start MCP server: " ++ str_exn e)) ;;
       ret false).

Definition run_quotes_extraction : M bool :=
  emit (Step 40 10 "Extracting and clustering quotes") ;;
  let collection_name := company_name self ++ "_quotes" in
  emit (SetEnv "QDRANT_COLLECTION" collection_name) ;;
  '(exit_code, output) <-
    run_command env
      ("python3 pre-prep/step1.py --force --company-name "
       ++ dquote ++ company_name self ++ dquote)
      None 3600 ;;
  if negb (exit_code =? 0)%Z then
    emit (Error "Quotes extraction failed") ;;
    ret false
  else
    emit (Success ("Quotes extracted. Collection: " ++ collection_name)) ;;
    ret true.

Definition run_part_a (vector_store_id : option string) (collection_name : string)
  : M bool :=
  emit (Step 50 10 "Running Part A analysis") ;;
  '(exit_code, output) <-
    run_command env "python3 part_a/minimal_dr_part_a.py" None 7200 ;;
  if negb (exit_code =? 0)%Z then
    emit (Error "Part A analysis failed") ;;
    ret false
  else
    k <- get_disk ;;
    let draft_path := Storage.get_latest_part_a_draft st (part_a_dir k) in
    match draft_path with
    | Some p =>
        if Fs.exists_ p (part_a_dir k) then
          content <- lift (Fs.read_text p (part_a_dir k)) ;;
          emit (Metric "part_a_length" (Py.len content) "chars") ;;
          emit (Success "Part A analysis complete") ;;
          ret true
        else
          emit (Error "Part A draft not found") ;;
          ret false
    | None =>
        emit (Error "Part A draft not found") ;;
        ret false
    end.

Definition max_retries : nat := 2.

(** The body of [for attempt in range(max_retries + 1)] of [run_part_b],
    over the attempts still to come. *)
Fixpoint part_b_attempts (attempts : list nat) : M loop_exit :=
  match attempts with
  | [] => ret Exhausted
  | attempt :: rest =>
      when (0 <? attempt)%nat
        (emit (Warning ("Retry " ++ Py.str_nat attempt ++ "/" ++ Py.str_nat max_retries)) ;;
         emit (Sleep 180)) ;;
      '(exit_code, output) <-
        run_command env "python3 part_b/minimal_dr_part_b.py" None 7200 ;;
      let server_error :=
        Py.contains "Error code: 500" output && Py.contains "server_error" output in
      if (exit_code =? 0)%Z then
        emit (Success "Part B minimal draft complete") ;;
        ret Broke
      else if server_error && (attempt <? max_retries)%nat then
        emit (Warning "OpenAI server error, retrying...") ;;
        part_b_attempts rest
      else if (attempt =? max_retries)%nat then
        emit (Error ("Part B failed after " ++ Py.str_nat (max_retries + 1) ++ " attempts")) ;;
        ret (Returned false)
      else part_b_attempts rest
  end.

(** What follows the retry loop in [run_part_b]. *)
Definition part_b_use_cases : M bool :=
  emit (Step 65 10 "Processing use cases") ;;
  '(exit_code, output) <-
    run_command env "python3 -u part_b/usecases_apicalls.py" None 3600 ;;
  if negb (exit_code =? 0)%Z then
    emit (Error "Use cases processing failed") ;;
    ret false
  else
    emit (Step 67 10 "Enhancing Part B report") ;;
    k <- get_disk ;;
    let candidates := Fs.glob "report_with_processed_use_cases_" ".md" (part_b_dir k) in
    match Fs.sort_newest_first candidates with
    | input_report :: _ =>
        t <- tick ;;
        let timestamp := Clock.strftime "-" (localtime env t) in
        let output_report :=
          Storage.path_join (Storage.part_b_dir_path st)
            ("report_" ++ company_slug st ++ "_" ++ timestamp ++ "_enhanced.md") in
        '(exit_code, output) <-
          run_command env
            ("python3 -u part_b/main2_refactored.py --input "
             ++ Storage.path_join (Storage.part_b_dir_path st) (name input_report)
             ++ " --output " ++ output_report)
            None 3600 ;;
        if negb (exit_code =? 0)%Z then
          emit (Error "Part B enhancement failed") ;;
          ret false
        else
          emit (Success "Part B analysis complete") ;;
          ret true
    | [] =>
        emit (Success "Part B analysis complete") ;;
        ret true
    end.

Definition run_part_b : M bool :=
  emit (Step 60 10 "Running Part B analysis") ;;
  left <- part_b_attempts (seq 0 (max_retries + 1)) ;;
  match left with
  | Returned b => ret b
  | Broke | Exhausted => part_b_use_cases
  end.

Definition run_consolidation : M bool :=
  emit (Step 70 10 "Running final consolidation") ;;
  '(exit_code, output) <-
    run_command env
      "python3 -u final_consolidation/main.py dual-model --content-model gpt-5 --style-model gpt-5-nano"
      None 7200 ;;
  if negb (exit_code =? 0)%Z then
    emit (Error "Consolidation failed") ;;
    ret false
  else
    emit (Success "Consolidation complete") ;;
    ret true.

Fixpoint report_progress (progress : list Z) : M unit :=
  match progress with
  | [] => ret tt
  | p :: rest => emit (Metric "upload_progress" p "%") ;; report_progress rest
  end.

Definition upload_final_report_to_gdrive (report_path : string) : M bool :=
  emit (Step 80 10 "Uploading final report to Google Drive") ;;
  try_except
    (match google_api_import_error env with
     | Some import_error =>
         emit (Warning ("Google API not available: " ++ import_error)) ;;
         ret false
     | None =>
         if negb (gdrive_credentials_exist env) then
           emit (Warning ("Credentials not found: " ++ gdrive_credentials_path env)) ;;
           ret false
         else
           match drive env with
           | DriveRaises msg => raise (Exception msg)
           | DriveResponse progress file_id file_name =>
               report_progress progress ;;
               if truthy file_id then
                 emit (Success ("Uploaded to Drive: " ++ file_name)) ;;
                 ret true
               else ret false
           end
     end)
    (fun e =>
       emit (Error ("Drive upload failed: " ++ str_exn e)) ;;
       ret false).

Definition storage_save_final_report (content : string) : M string :=
  t <- tick ;;
  k <- get_disk ;;
  let '(d, final_file) :=
    Storage.save_final_report st (utcnow env t) (fs_time env t) content (final_dir k) in
  put_disk (set_final_dir d k) ;;
  ret final_file.

(** The candidates of [finalize_report], in the order the three globs
    extend the list. *)
Definition final_candidates (d : directory string) : directory string :=
  (Fs.glob "final_dual_model_report_" ".md" d
   ++ Fs.glob "final_responses_patched_report_" ".md" d
   ++ Fs.glob "final_consolidated_report_" ".md" d)%list.

Definition finalize_report : M (option string) :=
  emit (Step 90 10 "Finalizing report") ;;
  k <- get_disk ;;
  match Fs.sort_newest_first (final_candidates (final_dir k)) with
  | [] =>
      emit (Error "No final report found") ;;
      ret None
  | latest_report :: _ =>
      let content := Fs.text_of latest_report in
      final_path <- storage_save_final_report content ;;
      emit (Metric "final_report_size" (Py.len content) "chars") ;;
      emit (Success ("Final report saved: " ++ final_path)) ;;
      upload_final_report_to_gdrive final_path ;;
      ret (Some final_path)
  end.

(** The [try] block of [run]. *)
Definition run_body : M bool :=
  emit (Info (repeat_char "="%char 60)) ;;
  emit (Info ("Starting pipeline for " ++ company_name self)) ;;
  emit (Info (repeat_char "="%char 60)) ;;
  t0 <- tick ;;
  let start_time := time_time env t0 in
  ok <- preprocess_company_folder ;;
  if negb ok then ret false else
  vector_store_id <- upload_to_vector_store ;;
  when (negb (truthy vector_store_id))
    (emit (Warning "Continuing without vector store ID")) ;;
  ok <- start_mcp_server vector_store_id ;;
  if negb ok then ret false else
  let collection_name := company_name self ++ "_quotes" in
  ok <- run_quotes_extraction ;;
  if negb ok then ret false else
  ok <- run_part_a vector_store_id collection_name ;;
  if negb ok then ret false else
  ok <- run_part_b ;;
  if negb ok then ret false else
  ok <- run_consolidation ;;
  if negb ok then ret false else
  final_report <- finalize_report ;;
  match final_report with
  | None => ret false
  | Some report =>
      t1 <- tick ;;
      let elapsed := (time_time env t1 - start_time)%Z in
      emit (Metric "pipeline_duration" elapsed "seconds") ;;
      emit (Success (repeat_char "="%char 60)) ;;
      emit (Success ("PIPELINE COMPLETE: " ++ company_name self)) ;;
      emit (Success ("Final report: " ++ Storage.path_join (Storage.final_dir_path st) report)) ;;
      emit (Success (repeat_char "="%char 60)) ;;
      ret true
  end.

(** [self.logger.error(message, exc_info=True)]: [CloudLogger.error] hands
    its keywords to [logging] as [extra=kwargs], and [Logger.makeRecord]
    refuses an [extra] that holds [exc_info].  [KeyError] is raised before
    any handler sees the record, so nothing is logged; the message of the
    exception is the [repr] of its argument. *)
Definition logger_error_exc_info (message : string) : M unit :=
  raise (Exception (dquote ++ "Attempt to overwrite 'exc_info' in LogRecord" ++ dquote)).

(** [run]: the [except Exception] block logs through
    [logger_error_exc_info], which raises, so [return False] is not
    reached on that path. *)
Definition run : M bool :=
  try_except run_body
    (fun e =>
       logger_error_exc_info ("Pipeline failed: " ++ str_exn e) ;;
       ret false).

(** [run] stage by stage: what is left of the [try] block from a given
    stage on.  [run_body_stages] below states that [run_body] is their
    composition. *)
Definition run_from_finalize (start_time : Z) : M bool :=
  final_report <- finalize_report ;;
  match final_report with
  | None => ret false
  | Some report =>
      t1 <- tick ;;
      let elapsed := (time_time env t1 - start_time)%Z in
      emit (Metric "pipeline_duration" elapsed "seconds") ;;
      emit (Success (repeat_char "="%char 60)) ;;
      emit (Success ("PIPELINE COMPLETE: " ++ company_name self)) ;;
      emit (Success ("Final report: " ++ Storage.path_join (Storage.final_dir_path st) report)) ;;
      emit (Success (repeat_char "="%char 60)) ;;
      ret true
  end.

Definition run_from_part_b (start_time : Z) : M bool :=
  ok <- run_part_b ;;
  if negb ok then ret false else
  ok <- run_consolidation ;;
  if negb ok then ret false else
  run_from_finalize start_time.

Definition run_from_part_a (start_time : Z) (vector_store_id : option string) : M bool :=
  ok <- run_part_a vector_store_id (company_name self ++ "_quotes") ;;
  if negb ok then ret false else
  run_from_part_b start_time.

Definition run_from_mcp (start_time : Z) (vector_store_id : option string) : M bool :=
  ok <- start_mcp_server vector_store_id ;;
  if negb ok then ret false else
  ok <- run_quotes_extraction ;;
  if negb ok then ret false else
  run_from_part_a start_time vector_store_id.

Definition run_from_upload (start_time : Z) : M bool :=
  vector_store_id <- upload_to_vector_store ;;
  when (negb (truthy vector_store_id))
    (emit (Warning "Continuing without vector store ID")) ;;
  run_from_mcp start_time vector_store_id.

(** The stages of [run_body] before Part A: [Some] of the start time and
    the vector-store id when Part A is reached, [None] when the run has
    returned [False] before. *)
Definition run_until_part_a : M (option (Z * option string)) :=
  emit (Info (repeat_char "="%char 60)) ;;
  emit (Info ("Starting pipeline for " ++ company_name self)) ;;
  emit (Info (repeat_char "="%char 60)) ;;
  t0 <- tick ;;
  let start_time := time_time env t0 in
  ok <- preprocess_company_folder ;;
  if negb ok then ret None else
  vector_store_id <- upload_to_vector_store ;;
  when (negb (truthy vector_store_id))
    (emit (Warning "Continuing without vector store ID")) ;;
  ok <- start_mcp_server vector_store_id ;;
  if negb ok then ret None else
  ok <- run_quotes_extraction ;;
  if negb ok then ret None else
  ret (Some (start_time, vector_store_id)).

(** Events of the stages after Part A: their step events (6, 6.5, 6.7, 7,
    8, 9) and the launches of their commands. *)
Definition later_stage_event (ev : event) : bool :=
  match ev with
  | Step tenths _ _ => (60 <=? tenths)%nat
  | Popen cmd =>
      Py.startswith "python3 part_b/" cmd
      || Py.startswith "python3 -u part_b/" cmd
      || Py.startswith "python3 -u final_consolidation/" cmd
  | _ => false
  end.

End Stages.

End Pipeline.

(* ===================================================================== *)
(** ** Vocabulary for the statements *)
(* ===================================================================== *)

(** The raw lines that survive [rstrip] and the emptiness test of the
    read loop. *)
Definition kept_lines (raw : list string) : list string :=
  filter (fun line => negb (Py.is_empty line)) (map Py.rstrip raw).

(** The text [run_command] returns for a child whose pipe reached end of
    file. *)
Definition output_of (c : child) : string :=
  Py.join (String "010"%char EmptyString) (kept_lines (lines c)).

(** [w'] is [w] after some more events, all of them satisfying [ok]. *)
Definition extends (ok : event -> bool) (w w' : World) : Prop :=
  exists evs, trace w' = (trace w ++ evs)%list /\ forallb ok evs = true.

(** Every run of [m] only adds events satisfying [ok]. *)
Definition emits_only {A} (ok : event -> bool) (m : M A) : Prop :=
  forall w, extends ok w (snd (m w)).

(** [m] returns or blocks, but does not raise. *)
Definition no_raise {A} (m : M A) : Prop :=
  forall w e, fst (m w) <> Raise e.

(** One call of [save_final_report]: the clock reading, the modification
    time the filesystem stamps on the files, and the content. *)
Record final_save : Type := FinalSave {
  saved_at : datetime;
  stamped : Z;
  body : string
}.

Section FinalSaves.

Variable st : CloudStorage.

Definition artifact_name (s : final_save) : string :=
  "FINAL_REPORT_" ++ company_slug st ++ "_" ++ Clock.strftime "_" (saved_at s) ++ ".md".

Definition ready_name (s : final_save) : string :=
  "FINAL_REPORT_" ++ company_slug st ++ "_" ++ Clock.strftime "_" (saved_at s) ++ ".ready".

Definition artifact_file (s : final_save) : file string :=
  File (artifact_name s) (stamped s) (body s).

Definition ready_file (s : final_save) : file string :=
  File (ready_name s) (stamped s)
    (Storage.path_join (Storage.final_dir_path st) (artifact_name s)
     ++ String "010"%char EmptyString).

(** The calls of [save_final_report] in [saves], one after the other. *)
Fixpoint save_all (saves : list final_save) (d : directory string) : directory string :=
  match saves with
  | [] => d
  | s :: rest =>
      save_all rest
        (fst (Storage.save_final_report st (saved_at s) (stamped s) (body s) d))
  end.

(** The entries a list of saves adds. *)
Definition written (saves : list final_save) : directory string :=
  flat_map (fun s => [artifact_file s; ready_file s]) saves.

End FinalSaves.

(** [w] after the events [evs]. *)
Definition record (evs : list event) (w : World) : World :=
  {| disk := disk w; trace := (trace w ++ evs)%list;
     calls := calls w; ticks := ticks w |}.

(** The transient-failure detector of [run_part_b]. *)
Definition server_error (output : string) : bool :=
  Py.contains "Error code: 500" output && Py.contains "server_error" output.

Definition part_b_command : string := "python3 part_b/minimal_dr_part_b.py".

(** The world in which attempt number [attempt] launches its command:
    every attempt but the first logs the retry and sleeps 180 seconds. *)
Definition before_attempt (attempt : nat) (w : World) : World :=
  if (0 <? attempt)%nat
  then record [Warning ("Retry " ++ Py.str_nat attempt ++ "/"
                        ++ Py.str_nat Pipeline.max_retries);
               Sleep 180] w
  else w.

Definition any_event (ev : event) : bool := true.

(** Events of the stages up to and including Part A. *)
Definition earlier_stage_event (ev : event) : bool :=
  negb (Pipeline.later_stage_event ev).

(** The artifact check of [run_part_a]: a latest draft is resolved and
    its path exists. *)
Definition part_a_draft_present (st : CloudStorage) (d : directory string) : bool :=
  match Storage.get_latest_part_a_draft st d with
  | Some p => Fs.exists_ p d
  | None => false
  end.

Definition part_a_command : string := "python3 part_a/minimal_dr_part_a.py".

Definition upload_command (st : CloudStorage) : string :=
  "python3 helper_vectorstoreupload.py "
  ++ Pipeline.dquote ++ Storage.data_dir_path st ++ Pipeline.dquote.

(** The events a call of [run_command] may add. *)
Definition process_event (cmd : string) (ev : event) : bool :=
  match ev with
  | Info _ | Error _ | Print _ | Kill => true
  | Popen c => String.eqb c cmd
  | _ => false
  end.

(* ===================================================================== *)
(** ** The claim of the specification on artifact selection *)
(* ===================================================================== *)

Module Spec.

(** Follows the specification's words on the Finalize stage: the
    first-priority naming convention is checked before the alternates, and
    the newest entry wins within the first convention that has any. *)
Definition select_by_convention_priority (d : directory string) : option (file string) :=
  match Fs.sort_newest_first (Fs.glob "final_dual_model_report_" ".md" d) with
  | newest :: _ => Some newest
  | [] =>
      match Fs.sort_newest_first (Fs.glob "final_responses_patched_report_" ".md" d) with
      | newest :: _ => Some newest
      | [] =>
          match Fs.sort_newest_first (Fs.glob "final_consolidated_report_" ".md" d) with
          | newest :: _ => Some newest
          | [] => None
          end
      end
  end.

End Spec.

(* ===================================================================== *)
(** ** Concrete runs *)
(* ===================================================================== *)

Module Scenario.

Definition empty_disk : Disk :=
  {| data_dir := []; vector_ids_dir := []; part_a_dir := [];
     part_b_dir := []; final_dir := [] |}.

Definition start (k : Disk) : World :=
  {| disk := k; trace := []; calls := 0; ticks := 0 |}.

(** A child that prints [out], closes its output after [secs] seconds and
    exits with [code] at the same moment. *)
Definition child_running (secs : nat) (code : Z) (out : list string) : launch :=
  Launched (Child out (Eof secs) (Some (secs, code))).

(** An oracle that plays a script: the [n]-th command behaves as the
    [n]-th entry says; commands past the script succeed silently. *)
Definition scripted (script : list (launch * (Disk -> Disk))) : Env :=
  {| exec := fun n _ _ k =>
       match nth_error script n with
       | Some (l, effect) => (l, effect k)
       | None => (child_running 1 0 [], k)
       end;
     utcnow := fun t => DateTime 2025 3 14 9 26 (t mod 60);
     localtime := fun t => DateTime 2025 3 14 9 26 (t mod 60);
     time_time := fun t => (1741944360 + Z.of_nat t)%Z;
     fs_time := fun t => (1741944360 + Z.of_nat t)%Z;
     csv_to_json := fun _ => Converted "[]";
     mcp_port := IntValue 8001;
     mcp_popen := None;
     google_api_import_error := None;
     gdrive_credentials_path := "google_drive_credentials.json";
     gdrive_credentials_exist := true;
     drive := DriveRaises "HttpError 403" |}.

Definition no_effect (k : Disk) : Disk := k.

(** A data directory with two CSV files and a note. *)
Definition csv_disk : Disk :=
  set_data_dir [ File "sales.csv" 1 "a,b"; File "notes.txt" 2 "hello";
                 File "broken.csv" 3 "\" ] empty_disk.

(** [pandas] fails on [broken.csv] and converts every other file. *)
Definition csv_env : Env :=
  {| exec := fun _ _ _ k => (child_running 1 0 [], k);
     utcnow := fun t => DateTime 2025 3 14 9 26 (t mod 60);
     localtime := fun t => DateTime 2025 3 14 9 26 (t mod 60);
     time_time := fun t => (1741944360 + Z.of_nat t)%Z;
     fs_time := fun t => (1741944360 + Z.of_nat t)%Z;
     csv_to_json := fun f =>
       if String.eqb (name f) "broken.csv"
       then ConversionFails "Error tokenizing data"
       else Converted "[]";
     mcp_port := IntValue 8001;
     mcp_popen := None;
     google_api_import_error := None;
     gdrive_credentials_path := "google_drive_credentials.json";
     gdrive_credentials_exist := true;
     drive := DriveRaises "HttpError 403" |}.

Definition acme : CloudPipeline :=
  {| company_name := "Acme Corp"; storage := Storage.init "Acme Corp" true |}.

(** [sleep 10; echo done] run with a timeout of 5 seconds. *)
Definition slow_env : Env :=
  scripted [ (child_running 10 0 ["done" ++ Pipeline.newline], no_effect) ].

(** A child that closes its output at once and goes on running. *)
Definition detached_env : Env :=
  scripted [ (Launched (Child [] (Eof 0) None), no_effect) ].

(** [sleep infinity]: prints nothing, never closes its output, never exits. *)
Definition stuck_env : Env :=
  scripted [ (Launched (Child [] Blocks None), no_effect) ].

(** Part B: a failure that is not a server error, then a success. *)
Definition part_b_flaky_env : Env :=
  scripted [ (child_running 3 1 ["ValueError: bad config" ++ Pipeline.newline], no_effect);
             (child_running 3 0 ["draft written" ++ Pipeline.newline], no_effect) ].

(** Part B: three failures carrying the server-error signature. *)
Definition server_error_line : string :=
  "Error code: 500 - {'error': {'type': 'server_error'}}" ++ Pipeline.newline.

Definition part_b_server_errors_env : Env :=
  scripted [ (child_running 3 1 [server_error_line], no_effect);
             (child_running 3 1 [server_error_line], no_effect);
             (child_running 3 1 [server_error_line], no_effect) ].

(** Two finished reports: the dual-model one is the older. *)
Definition dual_report : file string :=
  File "final_dual_model_report_20250314.md" 100 "dual".

Definition consolidated_report : file string :=
  File "final_consolidated_report_20250314.md" 200 "consolidated".

Definition two_reports_disk : Disk :=
  set_final_dir [dual_report; consolidated_report] empty_disk.

Definition write_draft (k : Disk) : Disk :=
  {| data_dir := data_dir k; vector_ids_dir := vector_ids_dir k;
     part_a_dir := Fs.write "report_draft_acme_corp_20250314_092600.md" 50 "draft" (part_a_dir k);
     part_b_dir := part_b_dir k; final_dir := final_dir k |}.

Definition write_dual_report (k : Disk) : Disk :=
  set_final_dir (Fs.write (name dual_report) (mtime dual_report) (content dual_report)
                   (final_dir k)) k.

(** A whole run in which the vector-store upload fails, the Drive upload
    raises, and every other stage succeeds. *)
Definition soft_failures_env : Env :=
  scripted [ (child_running 2 1 ["quota exceeded" ++ Pipeline.newline], no_effect);
             (child_running 2 0 [], no_effect);
             (child_running 2 0 [], write_draft);
             (child_running 2 0 [], no_effect);
             (child_running 2 0 [], no_effect);
             (child_running 2 0 [], write_dual_report) ].

(** A run that reaches Part A, whose command exits with code 1. *)
Definition part_a_fails_env : Env :=
  scripted [ (child_running 2 0 ["created vs_abc123" ++ Pipeline.newline], no_effect);
             (child_running 2 0 [], no_effect);
             (child_running 2 1 ["Traceback" ++ Pipeline.newline], no_effect) ].

(** Part A exits with code 0 but writes no draft. *)
Definition part_a_no_draft_env : Env :=
  scripted [ (child_running 2 0 [], no_effect) ].

(** A vector-ids directory with an older id and an older file that does
    not parse. *)
Definition old_vector_ids : directory json_doc :=
  [ File "vector_20250313_101500.json" 5 (Dict [("vector_store_id", "vs_old")]);
    File "vector_broken.json" 3 Malformed ].

Definition noon : datetime := DateTime 2025 3 14 12 0 0.

Definition noon_01 : datetime := DateTime 2025 3 14 12 0 1.

(** Two saves of the final report within the same clock second. *)
Definition first_report : file string :=
  File "FINAL_REPORT_acme_corp_20250314_120000.md" 10 "first".

Definition after_first_save : directory string :=
  fst (Storage.save_final_report (storage acme) noon 10 "first" []).

Definition after_second_save : directory string :=
  fst (Storage.save_final_report (storage acme) noon 20 "second" after_first_save).

(** Two saves one second apart, next to a report of the consolidation. *)
Definition save_v1 : final_save := FinalSave noon 10 "v1".

Definition save_v2 : final_save := FinalSave noon_01 20 "v2".

End Scenario.

(* ===================================================================== *)
(** ** Vocabulary for slugs *)
(* ===================================================================== *)

Fixpoint string_forall (p : ascii -> bool) (s : string) : bool :=
  match s with
  | EmptyString => true
  | String c rest => p c && string_forall p rest
  end.

(** Stripping on the right, by recursion on the string: a character is
    dropped when it satisfies [p] and everything after it is dropped. *)
Fixpoint rstrip_structural (p : ascii -> bool) (s : string) : string :=
  match s with
  | EmptyString => EmptyString
  | String c rest =>
      let rest' := rstrip_structural p rest in
      if Py.is_empty rest' && p c then EmptyString else String c rest'
  end.

Definition is_lower_or_digit (c : ascii) : bool :=
  let n := nat_of_ascii c in
  (((48 <=? n) && (n <=? 57)) || ((97 <=? n) && (n <=? 122)))%nat.

(** Runs of characters satisfying [ok], separated by single underscores:
    no underscore directly after an underscore, none at the start when
    [after_underscore] is set, and none at the end unless [may_end_open]. *)
Fixpoint underscore_separated (ok : ascii -> bool) (may_end_open : bool)
    (after_underscore : bool) (s : string) : bool :=
  match s with
  | EmptyString => may_end_open || negb after_underscore
  | String c rest =>
      if Storage.is_underscore c
      then negb after_underscore && underscore_separated ok may_end_open true rest
      else ok c && underscore_separated ok may_end_open false rest
  end.

(** A slug: empty, or words over [a-z0-9] joined by single underscores. *)
Definition is_slug (s : string) : bool :=
  Py.is_empty s || underscore_separated is_lower_or_digit false true s.

Definition is_slug_char (c : ascii) : bool :=
  is_lower_or_digit c || Storage.is_underscore c.

(* ===================================================================== *)
(** ** StorageLayout: Part A drafts *)
(* ===================================================================== *)

Module Drafts.

Section Operations.

Variable st : CloudStorage.

(** The pointer entry of the Part A directory. *)
Definition latest_link : string :=
  "report_draft_latest_" ++ company_slug st ++ ".md".



End Operations.

End Drafts.

(* ===================================================================== *)
(** ** Vocabulary for the vector-store stage *)
(* ===================================================================== *)

(** The world after [storage.save_vector_store_id(found)]: one clock
    reading, one file written. *)
Definition after_vector_save (env : Env) (st : CloudStorage) (found : string)
    (w : World) : World :=
  {| disk := set_vector_ids_dir
               (fst (Storage.save_vector_store_id st (utcnow env (ticks w))
                       (fs_time env (ticks w)) found (vector_ids_dir (disk w))))
               (disk w);
     trace := trace w;
     calls := calls w;
     ticks := S (ticks w) |}.

(* ===================================================================== *)
(** ** Vocabulary for counting events *)
(* ===================================================================== *)

(** How many events of a trace satisfy [p]. *)
Definition count_events (p : event -> bool) (evs : list event) : nat :=
  List.length (filter p evs).

(** A launch of the Part B command. *)
Definition part_b_launch (ev : event) : bool :=
  match ev with
  | Popen c => String.eqb c part_b_command
  | _ => false
  end.

Definition is_sleep (ev : event) : bool :=
  match ev with
  | Sleep _ => true
  | _ => false
  end.

(** The attempts of a list that are retries (every attempt but number 0). *)
Definition retries_among (attempts : list nat) : nat :=
  List.length (filter (fun attempt => (0 <? attempt)%nat) attempts).

(* ===================================================================== *)
(** ** Vocabulary for the progress of a run *)
(* ===================================================================== *)

(** The step numbers a trace announces, in tenths, in order. *)
Definition steps (evs : list event) : list nat :=
  flat_map (fun ev => match ev with
                      | Step tenths _ _ => [tenths]
                      | _ => []
                      end) evs.

Definition no_step (ev : event) : bool :=
  match ev with
  | Step _ _ _ => false
  | _ => true
  end.

(* ===================================================================== *)
(** ** The webhook server: helpers and the storage route *)
(* ===================================================================== *)

Module Webhook.

(** [s.replace("_", " ")] *)
Fixpoint replace_underscores (s : string) : string :=
  match s with
  | EmptyString => EmptyString
  | String c rest =>
      String (if Storage.is_underscore c then " "%char else c) (replace_underscores rest)
  end.

Definition is_alpha (c : ascii) : bool :=
  let n := nat_of_ascii c in
  (((65 <=? n) && (n <=? 90)) || ((97 <=? n) && (n <=? 122)))%nat.

Definition upper_char (c : ascii) : ascii :=
  let n := nat_of_ascii c in
  if ((97 <=? n) && (n <=? 122))%nat then ascii_of_nat (n - 32) else c.

(** [s.title()] on ASCII text: a letter is upper-cased unless the
    character before it is a letter, in which case it is lower-cased;
    [previous_is_cased] is the flag of the library's loop. *)
Fixpoint title_from (previous_is_cased : bool) (s : string) : string :=
  match s with
  | EmptyString => EmptyString
  | String c rest =>
      String (if previous_is_cased then Storage.lower_char c else upper_char c)
        (title_from (is_alpha c) rest)
  end.

Definition title (s : string) : string := title_from false s.

(** [get_storage_stats]: the company name the route makes up from the
    slug in the URL, and the storage it opens on it. *)
Definition approximate_company_name (company_slug : string) : string :=
  title (replace_underscores company_slug).

Definition storage_of_route (company_slug : string) (is_cloud : bool) : CloudStorage :=
  Storage.init (approximate_company_name company_slug) is_cloud.

(** The class [a-zA-Z0-9_-] of the id patterns. *)
Definition is_id_char (c : ascii) : bool :=
  Py.is_alnum c || Ascii.eqb c "_"%char || Ascii.eqb c "-"%char.

(** A match of [marker([a-zA-Z0-9_-]+)] that starts at the head of [s],
    for the first of [markers] that has one: the text of the group. *)
Fixpoint match_here (markers : list string) (s : string) : option string :=
  match markers with
  | [] => None
  | marker :: others =>
      let group := Py.take_while is_id_char (Py.drop (String.length marker) s) in
      if Py.startswith marker s && negb (Py.is_empty group) then Some group
      else match_here others s
  end.

(** [re.search(pattern, s)] and [m.group(1)] for a pattern that is a
    literal marker (or a choice of markers of which at most one can stand
    at a position, as [[?&]id=]) followed by [([a-zA-Z0-9_-]+)]: the
    leftmost match, its group as long as it can be. *)
Fixpoint search_group (markers : list string) (s : string) : option string :=
  match s with
  | EmptyString => None
  | String _ rest =>
      match match_here markers s with
      | Some group => Some group
      | None => search_group markers rest
      end
  end.

Definition extract_google_id (url : string) : string :=
  if Py.is_empty url then ""
  else
    match search_group ["/folders/"] url with
    | Some group => group
    | None =>
        match search_group ["/file/d/"] url with
        | Some group => group
        | None =>
            match search_group ["?id="; "&id="] url with
            | Some group => group
            | None => ""
            end
        end
    end.

End Webhook.

(* ===================================================================== *)
(** ** The download script: [scripts/download_gdrive.py] *)
(* ===================================================================== *)

Module DownloadGdrive.

Definition extract_google_id (url : string) : string :=
  if Py.is_empty url then ""
  else
    match Webhook.search_group ["/folders/"] url with
    | Some group => group
    | None =>
        match Webhook.search_group ["/file/d/"] url with
        | Some group => group
        | None => ""
        end
    end.

End DownloadGdrive.

(* ===================================================================== *)
(** ** Vocabulary for the start of a run *)
(* ===================================================================== *)

(** The opening lines of [run] and the reading of the start time. *)
Definition run_opening (self : CloudPipeline) : M nat :=
  emit (Info (Pipeline.repeat_char "="%char 60)) ;;
  emit (Info ("Starting pipeline for " ++ company_name self)) ;;
  emit (Info (Pipeline.repeat_char "="%char 60)) ;;
  tick.

(** The four markers before an id in a Google Drive link. *)
Definition google_id_markers : list string :=
  ["/folders/"; "/file/d/"; "?id="; "&id="].


(** The steps of a whole run, in tenths, in the order [run] goes through
    them: the Drive upload (8) is part of the finalization (9). *)
Definition run_steps : list nat := [10; 20; 30; 40; 50; 60; 65; 67; 70; 90; 80].

(** [m] announces the steps of [full] in order, as far as it gets, and
    returns [True] exactly when it has announced them all. *)
Definition announces (m : M bool) (full : list nat) : Prop :=
  forall w, exists l rest,
    steps (trace (snd (m w))) = (steps (trace w) ++ l)%list
    /\ full = (l ++ rest)%list
    /\ (fst (m w) = Ret true <-> rest = []).

(* ===================================================================== *)
(** * Properties *)
(* ===================================================================== *)

Local Open Scope monad_scope.

(** ** The monad *)

Lemma bind_ret {A B} (m : M A) (f : A -> M B) w a w' :
  m w = (Ret a, w') -> bind m f w = f a w'.
Proof. intros H. unfold bind. rewrite H. reflexivity. Qed.

Lemma bind_raise {A B} (m : M A) (f : A -> M B) w e w' :
  m w = (Raise e, w') -> bind m f w = (Raise e, w').
Proof. intros H. unfold bind. rewrite H. reflexivity. Qed.

Lemma bind_hang {A B} (m : M A) (f : A -> M B) w w' :
  m w = (Hang, w') -> bind m f w = (Hang, w').
Proof. intros H. unfold bind. rewrite H. reflexivity. Qed.

Lemma extends_refl ok w : extends ok w w.
Proof. exists []. split; [ now rewrite app_nil_r | reflexivity ]. Qed.

Lemma extends_trans ok w1 w2 w3 :
  extends ok w1 w2 -> extends ok w2 w3 -> extends ok w1 w3.
Proof.
  intros [e1 [H1 F1]] [e2 [H2 F2]]. exists (e1 ++ e2)%list. split.
  - rewrite H2, H1, app_assoc. reflexivity.
  - rewrite forallb_app, F1, F2. reflexivity.
Qed.

Lemma emits_only_ret {A} ok (a : A) : emits_only ok (ret a).
Proof. intros w. apply extends_refl. Qed.

Lemma emits_only_raise {A} ok e : emits_only ok (@raise A e).
Proof. intros w. apply extends_refl. Qed.

Lemma emits_only_hang {A} ok : emits_only ok (@hang A).
Proof. intros w. apply extends_refl. Qed.

Lemma emits_only_bind {A B} ok (m : M A) (f : A -> M B) :
  emits_only ok m -> (forall a, emits_only ok (f a)) -> emits_only ok (bind m f).
Proof.
  intros Hm Hf w. unfold bind. specialize (Hm w).
  destruct (m w) as [[a | e | ] w1]; cbn [snd] in *; auto.
  eapply extends_trans; [ exact Hm | apply Hf ].
Qed.

Lemma emits_only_try_except {A} ok (m : M A) (h : exn -> M A) :
  emits_only ok m -> (forall e, emits_only ok (h e)) -> emits_only ok (try_except m h).
Proof.
  intros Hm Hh w. unfold try_except. specialize (Hm w).
  destruct (m w) as [[a | e | ] w1]; cbn [snd] in *; auto.
  eapply extends_trans; [ exact Hm | apply Hh ].
Qed.

Lemma emits_only_emit ok ev : ok ev = true -> emits_only ok (emit ev).
Proof.
  intros H w. exists [ev]. split; [ reflexivity | cbn; now rewrite H ].
Qed.

Lemma emits_only_get_disk ok : emits_only ok get_disk.
Proof. intros w. apply extends_refl. Qed.

Lemma emits_only_put_disk ok k : emits_only ok (put_disk k).
Proof. intros w. exists []. cbn. now rewrite app_nil_r. Qed.

Lemma emits_only_tick ok : emits_only ok tick.
Proof. intros w. exists []. cbn. now rewrite app_nil_r. Qed.

Lemma emits_only_lift {A} ok (o : outcome A) : emits_only ok (Pipeline.lift o).
Proof. intros w. apply extends_refl. Qed.

Lemma emits_only_when ok b m : emits_only ok m -> emits_only ok (when b m).
Proof. intros H. destruct b; [ exact H | apply emits_only_ret ]. Qed.

Lemma no_raise_ret {A} (a : A) : no_raise (ret a).
Proof. intros w e. discriminate. Qed.

Lemma no_raise_hang {A} : no_raise (@hang A).
Proof. intros w e. discriminate. Qed.

Lemma no_raise_emit ev : no_raise (emit ev).
Proof. intros w e. discriminate. Qed.

Lemma no_raise_get_disk : no_raise get_disk.
Proof. intros w e. discriminate. Qed.

Lemma no_raise_put_disk k : no_raise (put_disk k).
Proof. intros w e. discriminate. Qed.

Lemma no_raise_tick : no_raise tick.
Proof. intros w e. discriminate. Qed.

Lemma no_raise_bind {A B} (m : M A) (f : A -> M B) :
  no_raise m -> (forall a, no_raise (f a)) -> no_raise (bind m f).
Proof.
  intros Hm Hf w e. unfold bind. specialize (Hm w).
  destruct (m w) as [[a | e' | ] w1]; cbn [fst] in *.
  - apply Hf.
  - exfalso. now apply (Hm e').
  - discriminate.
Qed.

Lemma no_raise_try_except {A} (m : M A) (h : exn -> M A) :
  (forall e, no_raise (h e)) -> no_raise (try_except m h).
Proof.
  intros Hh w e. unfold try_except.
  destruct (m w) as [[a | e' | ] w1]; cbn [fst]; try discriminate.
  apply Hh.
Qed.

Lemma no_raise_when b m : no_raise m -> no_raise (when b m).
Proof. intros H. destruct b; [ exact H | apply no_raise_ret ]. Qed.

Create HintDb emits.

#[local] Hint Resolve emits_only_ret emits_only_raise emits_only_hang
  emits_only_get_disk emits_only_put_disk emits_only_tick emits_only_lift : emits.
(** Breaks a monadic term into its parts; leaves the events to check. *)
Ltac emits_step :=
  lazymatch goal with
  | |- emits_only _ (bind _ _) => apply emits_only_bind; [ | intros ? ]
  | |- emits_only _ (try_except _ _) => apply emits_only_try_except; [ | intros ? ]
  | |- emits_only _ (when _ _) => apply emits_only_when
  | |- emits_only _ (emit _) => apply emits_only_emit
  | |- emits_only _ (if ?b then _ else _) => destruct b
  | |- emits_only _ (match ?x with _ => _ end) => destruct x
  | |- emits_only _ _ => solve [ auto with emits ]
  end.

(** ** ProcessRunner *)

Section ProcessRunnerFacts.

Variable env : Env.

Lemma consume_spec raw w :
  consume raw w
  = (Ret (kept_lines raw),
     {| disk := disk w; trace := (trace w ++ map Print (kept_lines raw))%list;
        calls := calls w; ticks := ticks w |}).
Proof.
  revert w. induction raw as [ | line rest IH ]; intros w.
  - cbn. rewrite app_nil_r. destruct w; reflexivity.
  - unfold kept_lines in *. cbn [consume map filter].
    destruct (negb (Py.is_empty (Py.rstrip line))).
    + unfold bind at 1. cbn [emit]. unfold bind at 1. rewrite IH. cbn.
      rewrite <- app_assoc. reflexivity.
    + apply IH.
Qed.

(** What [run_command] does, case by case on what the oracle launches. *)
Lemma run_command_cases cmd cwd timeout w :
  let '(l, k) := exec env (calls w) cmd cwd (disk w) in
  let after evs :=
    {| disk := k;
       trace := (trace w ++ Info ("Executing: " ++ cmd) :: Popen cmd :: evs)%list;
       calls := S (calls w); ticks := ticks w |} in
  let timed_out :=
    [Kill; Error ("Command timed out after " ++ Py.str_nat timeout ++ " seconds")] in
  run_command env cmd cwd timeout w =
  match l with
  | LaunchFails msg =>
      (Ret (1%Z, msg), after [Error ("Command failed: " ++ msg)])
  | Launched c =>
      let printed := map Print (kept_lines (lines c)) in
      match ending c with
      | Blocks => (Hang, after printed)
      | ReadFails msg =>
          (Ret (1%Z, msg), after (printed ++ [Error ("Command failed: " ++ msg)])%list)
      | Eof eof_at =>
          match exits c with
          | Some (exit_at, code) =>
              if (exit_at <=? eof_at + timeout)%nat
              then (Ret (code, output_of c), after printed)
              else (Ret (1%Z, "TIMEOUT"), after (printed ++ timed_out)%list)
          | None => (Ret (1%Z, "TIMEOUT"), after (printed ++ timed_out)%list)
          end
      end
  end.
Proof.
  destruct (exec env (calls w) cmd cwd (disk w)) as [l k] eqn:Hexec.
  unfold run_command, try_except, popen.
  unfold bind at 1. cbn [emit]. unfold bind at 1. cbn [calls disk trace ticks].
  rewrite Hexec.
  destruct l as [msg | c].
  - cbn. rewrite <- !app_assoc. reflexivity.
  - unfold read_output, wait, output_of, bind. rewrite consume_spec.
    destruct (ending c) as [eof_at | | msg]; cbn.
    + destruct (exits c) as [[exit_at code] | ]; cbn.
      * destruct (exit_at <=? eof_at + timeout)%nat; cbn;
          rewrite <- ?app_assoc; reflexivity.
      * rewrite <- ?app_assoc. reflexivity.
    + rewrite <- ?app_assoc. reflexivity.
    + rewrite <- ?app_assoc. reflexivity.
Qed.

Lemma run_command_no_raise cmd cwd timeout :
  no_raise (run_command env cmd cwd timeout).
Proof.
  intros w e. pose proof (run_command_cases cmd cwd timeout w) as H.
  destruct (exec env (calls w) cmd cwd (disk w)) as [l k].
  cbv zeta in H. rewrite H. clear H.
  destruct l as [msg | c]; [ discriminate | ].
  destruct (ending c); [ | discriminate | discriminate ].
  destruct (exits c) as [[x code] | ]; [ | discriminate ].
  destruct (x <=? at_second + timeout)%nat; discriminate.
Qed.

Lemma forallb_map_Print ok ls :
  (forall l, ok (Print l) = true) -> forallb ok (map Print ls) = true.
Proof. intros H. induction ls; cbn; [ reflexivity | now rewrite H, IHls ]. Qed.

Lemma run_command_emits ok cmd cwd timeout :
  (forall ev, process_event cmd ev = true -> ok ev = true) ->
  emits_only ok (run_command env cmd cwd timeout).
Proof.
  intros Hok w. pose proof (run_command_cases cmd cwd timeout w) as H.
  destruct (exec env (calls w) cmd cwd (disk w)) as [l k].
  cbv zeta in H. rewrite H. clear H.
  assert (Hinfo : forall m, ok (Info m) = true) by (intros; now apply Hok).
  assert (Herr : forall m, ok (Error m) = true) by (intros; now apply Hok).
  assert (Hprint : forall m, ok (Print m) = true) by (intros; now apply Hok).
  assert (Hkill : ok Kill = true) by now apply Hok.
  assert (Hpopen : ok (Popen cmd) = true)
    by (apply Hok; cbn; apply String.eqb_refl).
  unfold extends.
  destruct l as [msg | c].
  - eexists. split; [ reflexivity | ]. cbn. now rewrite Hinfo, Hpopen, Herr.
  - destruct (ending c).
    + destruct (exits c) as [[x code] | ];
        [ destruct (x <=? at_second + timeout)%nat | ];
        (eexists; split; [ reflexivity | ]); cbn [forallb snd];
        rewrite Hinfo, Hpopen, ?forallb_app, forallb_map_Print by assumption;
        cbn; now rewrite ?Hkill, ?Herr.
    + (eexists; split; [ reflexivity | ]); cbn [forallb snd].
      now rewrite Hinfo, Hpopen, forallb_map_Print by assumption.
    + (eexists; split; [ reflexivity | ]); cbn [forallb snd].
      rewrite Hinfo, Hpopen, forallb_app, forallb_map_Print by assumption.
      cbn. now rewrite Herr.
Qed.

End ProcessRunnerFacts.

Section ProcessRunnerClaims.

Variable env : Env.

(** A launch that raises is reported as exit code 1 with the description
    of the failure. *)
Lemma run_command_launch_failure cmd cwd timeout w msg k :
  exec env (calls w) cmd cwd (disk w) = (LaunchFails msg, k) ->
  fst (run_command env cmd cwd timeout w) = Ret (1%Z, msg).
Proof.
  intros H. pose proof (run_command_cases env cmd cwd timeout w) as R.
  rewrite H in R. cbv zeta in R. now rewrite R.
Qed.

(** Once the child's output has ended, a pair is returned. *)
Lemma run_command_returns_when_output_ends cmd cwd timeout w c k eof_at :
  exec env (calls w) cmd cwd (disk w) = (Launched c, k) ->
  ending c = Eof eof_at ->
  exists code out, fst (run_command env cmd cwd timeout w) = Ret (code, out).
Proof.
  intros H E. pose proof (run_command_cases env cmd cwd timeout w) as R.
  rewrite H in R. cbv zeta in R. rewrite R, E.
  destruct (exits c) as [[x code] | ]; [ destruct (x <=? eof_at + timeout)%nat | ];
    cbn [fst]; eauto.
Qed.

(** A child that is still running when the timeout elapses after the end
    of its output is killed and reported as [(1, "TIMEOUT")]. *)
Lemma run_command_kills_after_output_ends cmd cwd timeout w c k eof_at :
  exec env (calls w) cmd cwd (disk w) = (Launched c, k) ->
  ending c = Eof eof_at ->
  match exits c with
  | Some (exit_at, _) => (eof_at + timeout < exit_at)%nat
  | None => True
  end ->
  fst (run_command env cmd cwd timeout w) = Ret (1%Z, "TIMEOUT")
  /\ In Kill (trace (snd (run_command env cmd cwd timeout w))).
Proof.
  intros H E X. pose proof (run_command_cases env cmd cwd timeout w) as R.
  rewrite H in R. cbv zeta in R. rewrite R, E.
  destruct (exits c) as [[x code] | ].
  - destruct (Nat.leb_spec x (eof_at + timeout)); [ lia | ].
    split; [ reflexivity | ]. cbn. rewrite in_app_iff. right.
    cbn. right. right. rewrite in_app_iff. right. now left.
  - split; [ reflexivity | ]. cbn. rewrite in_app_iff. right.
    cbn. right. right. rewrite in_app_iff. right. now left.
Qed.

(** C3 (as the code has it): the timeout is only looked at once the read
    loop has seen the end of the child's output.  A child that closes its
    output [eof_at] seconds after the launch and exits no later than
    [timeout] seconds after that is never killed, however large [eof_at]
    is: its own exit code and its own output are returned, and the trace
    holds the launch and the printed lines only. *)
Theorem timeout_counts_from_end_of_output
    cmd cwd timeout w c k eof_at exit_at code :
  exec env (calls w) cmd cwd (disk w) = (Launched c, k) ->
  ending c = Eof eof_at ->
  exits c = Some (exit_at, code) ->
  (exit_at <= eof_at + timeout)%nat ->
  fst (run_command env cmd cwd timeout w) = Ret (code, output_of c)
  /\ trace (snd (run_command env cmd cwd timeout w))
     = (trace w ++ Info ("Executing: " ++ cmd) :: Popen cmd
          :: map Print (kept_lines (lines c)))%list.
Proof.
  intros H E X L. pose proof (run_command_cases env cmd cwd timeout w) as R.
  rewrite H in R. cbv zeta in R. rewrite R, E, X.
  destruct (Nat.leb_spec exit_at (eof_at + timeout)); [ | lia ].
  split; reflexivity.
Qed.

(** C7 (as the code has it): while the child keeps its output open the
    read loop blocks; [wait] and its timeout are never reached, and
    nothing is returned. *)
Theorem run_command_blocks_while_output_stays_open cmd cwd timeout w c k :
  exec env (calls w) cmd cwd (disk w) = (Launched c, k) ->
  ending c = Blocks ->
  fst (run_command env cmd cwd timeout w) = Hang.
Proof.
  intros H E. pose proof (run_command_cases env cmd cwd timeout w) as R.
  rewrite H in R. cbv zeta in R. now rewrite R, E.
Qed.

End ProcessRunnerClaims.

(** [sleep 10; echo done] under a timeout of 5 seconds: ten seconds later
    the caller gets exit code 0 and the output, and nothing was killed. *)
Lemma timeout_counts_from_end_of_output_witness :
  (10 > 5)%nat
  /\ fst (run_command Scenario.slow_env "sleep 10; echo done" None 5
            (Scenario.start Scenario.empty_disk))
     = Ret (0%Z, "done")
  /\ trace (snd (run_command Scenario.slow_env "sleep 10; echo done" None 5
                   (Scenario.start Scenario.empty_disk)))
     = [Info "Executing: sleep 10; echo done"; Popen "sleep 10; echo done";
        Print "done"].
Proof.
  split; [ lia | ].
  apply (timeout_counts_from_end_of_output Scenario.slow_env
           "sleep 10; echo done" None 5 (Scenario.start Scenario.empty_disk)
           (Child ["done" ++ Pipeline.newline] (Eof 10) (Some (10, 0%Z)))
           Scenario.empty_disk 10 10 0%Z);
    [ reflexivity | reflexivity | reflexivity | cbn; lia ].
Defined.

(** [sleep infinity] under a timeout of 5 seconds never returns. *)
Lemma run_command_blocks_while_output_stays_open_witness :
  fst (run_command Scenario.stuck_env "sleep infinity" None 5
         (Scenario.start Scenario.empty_disk)) = Hang.
Proof.
  apply (run_command_blocks_while_output_stays_open Scenario.stuck_env
           "sleep infinity" None 5 (Scenario.start Scenario.empty_disk)
           (Child [] Blocks None) Scenario.empty_disk);
    reflexivity.
Defined.

(** ** Part B: the retry loop *)

Section RetryLoop.

Variable env : Env.

Lemma emit_record ev w : emit ev w = (Ret tt, record [ev] w).
Proof. reflexivity. Qed.

Lemma record_record evs1 evs2 w :
  record evs2 (record evs1 w) = record (evs1 ++ evs2) w.
Proof. unfold record. cbn. now rewrite app_assoc. Qed.

Lemma emit_then_emit a b w :
  (emit a ;; emit b) w = (Ret tt, record [a; b] w).
Proof.
  unfold bind, emit, record. cbn [disk trace calls ticks].
  now rewrite <- app_assoc.
Qed.

Lemma part_b_attempts_emits ok attempts :
  (forall ev, process_event part_b_command ev = true -> ok ev = true) ->
  (forall m, ok (Warning m) = true) ->
  (forall m, ok (Success m) = true) ->
  ok (Sleep 180) = true ->
  emits_only ok (Pipeline.part_b_attempts env attempts).
Proof.
  intros Hp Hw Hs Hsl. induction attempts as [ | attempt rest IH ]; cbn [Pipeline.part_b_attempts].
  - apply emits_only_ret.
  - repeat emits_step; auto;
      try (apply run_command_emits; exact Hp);
      try (apply Hp; reflexivity).
Qed.

Lemma when_retry attempt w :
  when (0 <? attempt)%nat
    (emit (Warning ("Retry " ++ Py.str_nat attempt ++ "/"
                    ++ Py.str_nat Pipeline.max_retries)) ;;
     emit (Sleep 180)) w
  = (Ret tt, before_attempt attempt w).
Proof.
  unfold before_attempt. destruct (0 <? attempt)%nat; cbn [when].
  - apply emit_then_emit.
  - reflexivity.
Qed.

(** One turn of the loop whose command fails without the server-error
    signature, before the last attempt: the loop goes on. *)
Lemma part_b_attempt_other_failure attempt rest w code out w1 :
  run_command env part_b_command None 7200 (before_attempt attempt w)
  = (Ret (code, out), w1) ->
  code <> 0%Z ->
  server_error out = false ->
  (attempt < Pipeline.max_retries)%nat ->
  Pipeline.part_b_attempts env (attempt :: rest) w
  = Pipeline.part_b_attempts env rest w1.
Proof.
  intros Hrun Hcode Hsig Hlt. cbn [Pipeline.part_b_attempts].
  apply Z.eqb_neq in Hcode. unfold server_error in Hsig.
  apply Nat.lt_neq, Nat.eqb_neq in Hlt. unfold part_b_command in Hrun.
  unfold bind at 1. rewrite when_retry.
  unfold bind at 1. rewrite Hrun, Hcode, Hsig, Hlt. reflexivity.
Qed.

(** One turn whose command fails with the signature, before the last
    attempt: a warning, and the loop goes on. *)
Lemma part_b_attempt_server_error attempt rest w code out w1 :
  run_command env part_b_command None 7200 (before_attempt attempt w)
  = (Ret (code, out), w1) ->
  code <> 0%Z ->
  server_error out = true ->
  (attempt < Pipeline.max_retries)%nat ->
  Pipeline.part_b_attempts env (attempt :: rest) w
  = Pipeline.part_b_attempts env rest
      (record [Warning "OpenAI server error, retrying..."] w1).
Proof.
  intros Hrun Hcode Hsig Hlt. cbn [Pipeline.part_b_attempts].
  apply Z.eqb_neq in Hcode. unfold server_error in Hsig.
  apply Nat.ltb_lt in Hlt. unfold part_b_command in Hrun.
  unfold bind at 1. rewrite when_retry.
  unfold bind at 1. rewrite Hrun, Hcode, Hsig, Hlt. reflexivity.
Qed.

(** The last turn, when its command fails: the stage returns [False]. *)
Lemma part_b_attempt_last w code out w1 :
  run_command env part_b_command None 7200
    (before_attempt Pipeline.max_retries w)
  = (Ret (code, out), w1) ->
  code <> 0%Z ->
  Pipeline.part_b_attempts env [Pipeline.max_retries] w
  = (Ret (Pipeline.Returned false),
     record [Error "Part B failed after 3 attempts"] w1).
Proof.
  intros Hrun Hcode. apply Z.eqb_neq in Hcode. unfold part_b_command in Hrun.
  cbn [Pipeline.part_b_attempts]. unfold bind at 1. rewrite when_retry.
  unfold bind at 1. rewrite Hrun, Hcode.
  rewrite Nat.ltb_irrefl, andb_false_r, Nat.eqb_refl. reflexivity.
Qed.

End RetryLoop.

Section RetryClaims.

Variable env : Env.

Lemma run_command_trace_prefix cmd cwd timeout w :
  exists evs,
    trace (snd (run_command env cmd cwd timeout w))
    = (trace w ++ Info ("Executing: " ++ cmd) :: Popen cmd :: evs)%list.
Proof.
  pose proof (run_command_cases env cmd cwd timeout w) as R.
  destruct (exec env (calls w) cmd cwd (disk w)) as [l k].
  cbv zeta in R. rewrite R.
  destruct l as [msg | c]; [ eexists; reflexivity | ].
  destruct (ending c); [ | eexists; reflexivity | eexists; reflexivity ].
  destruct (exits c) as [[x code] | ];
    [ destruct (x <=? at_second + timeout)%nat | ]; eexists; reflexivity.
Qed.

Lemma bind_trace_prefix {A B} (m : M A) (f : A -> M B) w pre :
  (exists evs, trace (snd (m w)) = (pre ++ evs)%list) ->
  (forall a, emits_only any_event (f a)) ->
  exists evs, trace (snd (bind m f w)) = (pre ++ evs)%list.
Proof.
  intros [evs H] Hf. unfold bind.
  destruct (m w) as [[a | e | ] w'] eqn:Hm; cbn [snd] in *; eauto.
  destruct (Hf a w') as [evs' [H' _]]. exists (evs ++ evs')%list.
  now rewrite H', H, app_assoc.
Qed.

(** Three attempts in a row that fail with the server-error signature:
    three launches, a wait of 180 seconds before the second and before the
    third, and the stage returns [False]. *)
Lemma part_b_gives_up_after_three_server_errors
    w c1 o1 w1 c2 o2 w2 c3 o3 w3 :
  let retrying := record [Warning "OpenAI server error, retrying..."] in
  run_command env part_b_command None 7200 w = (Ret (c1, o1), w1) ->
  run_command env part_b_command None 7200
    (record [Warning "Retry 1/2"; Sleep 180] (retrying w1)) = (Ret (c2, o2), w2) ->
  run_command env part_b_command None 7200
    (record [Warning "Retry 2/2"; Sleep 180] (retrying w2)) = (Ret (c3, o3), w3) ->
  c1 <> 0%Z -> c2 <> 0%Z -> c3 <> 0%Z ->
  server_error o1 = true -> server_error o2 = true ->
  Pipeline.part_b_attempts env (seq 0 (Pipeline.max_retries + 1)) w
  = (Ret (Pipeline.Returned false),
     record [Error "Part B failed after 3 attempts"] w3).
Proof.
  intros retrying R1 R2 R3 N1 N2 N3 S1 S2. subst retrying.
  cbn [seq Pipeline.max_retries Nat.add].
  rewrite (part_b_attempt_server_error env 0 [1; 2] w c1 o1 w1 R1 N1 S1
             ltac:(unfold Pipeline.max_retries; lia)).
  rewrite (part_b_attempt_server_error env 1 [2] _ c2 o2 w2 R2 N2 S2
             ltac:(unfold Pipeline.max_retries; lia)).
  exact (part_b_attempt_last env _ c3 o3 w3 R3 N3).
Qed.

(** C1 (as the code has it): a first attempt that fails WITHOUT the
    server-error signature does not end the stage.  The loop goes on to
    attempts 1 and 2 exactly as after a server error: it logs
    "Retry 1/2", sleeps 180 seconds and launches the Part B command a
    second time. *)
Theorem part_b_retries_failure_without_signature w code out w1 :
  run_command env part_b_command None 7200 w = (Ret (code, out), w1) ->
  code <> 0%Z ->
  server_error out = false ->
  Pipeline.part_b_attempts env (seq 0 (Pipeline.max_retries + 1)) w
  = Pipeline.part_b_attempts env [1; 2] w1
  /\ exists evs,
       trace (snd (Pipeline.part_b_attempts env (seq 0 (Pipeline.max_retries + 1)) w))
       = ((trace w1 ++ [Warning "Retry 1/2"; Sleep 180;
                        Info ("Executing: " ++ part_b_command);
                        Popen part_b_command]) ++ evs)%list.
Proof.
  intros Hrun Hcode Hsig.
  assert (Hstep : Pipeline.part_b_attempts env (seq 0 (Pipeline.max_retries + 1)) w
                  = Pipeline.part_b_attempts env [1; 2] w1).
  { cbn [seq Pipeline.max_retries Nat.add].
    apply (part_b_attempt_other_failure env 0 [1; 2] w code out w1); auto.
    unfold Pipeline.max_retries. lia. }
  split; [ exact Hstep | ]. rewrite Hstep.
  cbn [Pipeline.part_b_attempts].
  unfold bind at 1. rewrite when_retry.
  apply bind_trace_prefix.
  - destruct (run_command_trace_prefix "python3 part_b/minimal_dr_part_b.py" None 7200
                (before_attempt 1 w1)) as [evs H].
    exists evs. rewrite H. cbn [trace before_attempt Nat.ltb Nat.leb record].
    rewrite <- !app_assoc. reflexivity.
  - intros [exit_code output].
    repeat emits_step; auto; apply run_command_emits; auto.
Qed.

End RetryClaims.

(** A [ValueError] on the first attempt, a success on the second. *)
Lemma part_b_retries_failure_without_signature_witness :
  (1 <> 0)%Z
  /\ server_error "ValueError: bad config" = false
  /\ Pipeline.part_b_attempts Scenario.part_b_flaky_env
       (seq 0 (Pipeline.max_retries + 1)) (Scenario.start Scenario.empty_disk)
     = Pipeline.part_b_attempts Scenario.part_b_flaky_env [1; 2]
         (snd (run_command Scenario.part_b_flaky_env part_b_command None 7200
                 (Scenario.start Scenario.empty_disk)))
  /\ exists evs,
       trace (snd (Pipeline.part_b_attempts Scenario.part_b_flaky_env
                     (seq 0 (Pipeline.max_retries + 1))
                     (Scenario.start Scenario.empty_disk)))
       = ((trace (snd (run_command Scenario.part_b_flaky_env part_b_command None 7200
                         (Scenario.start Scenario.empty_disk)))
           ++ [Warning "Retry 1/2"; Sleep 180;
               Info ("Executing: " ++ part_b_command);
               Popen part_b_command]) ++ evs)%list.
Proof.
  split; [ discriminate | ]. split; [ reflexivity | ].
  apply (part_b_retries_failure_without_signature Scenario.part_b_flaky_env
           (Scenario.start Scenario.empty_disk) 1%Z "ValueError: bad config");
    [ reflexivity | discriminate | reflexivity ].
Defined.

(** The whole stage on that run: the failure without the signature is
    retried after 180 seconds, the second attempt succeeds, and
    [run_part_b] returns [True] after two launches of the Part B command
    where the specification has one attempt and a failed stage. *)
Example part_b_flaky_run :
  let '(r, w) := Pipeline.run_part_b Scenario.part_b_flaky_env Scenario.acme
                   (Scenario.start Scenario.empty_disk) in
  r = Ret true
  /\ filter (fun ev => match ev with Popen _ | Sleep _ => true | _ => false end)
       (trace w)
     = [Popen part_b_command; Sleep 180; Popen part_b_command;
        Popen "python3 -u part_b/usecases_apicalls.py"].
Proof. vm_compute. split; reflexivity. Qed.

(** The stage on three server errors in a row: three launches, two waits
    of 180 seconds, [False]. *)
Example part_b_server_errors_run :
  let '(r, w) := Pipeline.run_part_b Scenario.part_b_server_errors_env Scenario.acme
                   (Scenario.start Scenario.empty_disk) in
  r = Ret false
  /\ filter (fun ev => match ev with Popen _ | Sleep _ => true | _ => false end)
       (trace w)
     = [Popen part_b_command; Sleep 180; Popen part_b_command; Sleep 180;
        Popen part_b_command].
Proof. vm_compute. split; reflexivity. Qed.

(** ** Strings *)

Section StringFacts.

Lemma append_nil_r s : s ++ "" = s.
Proof. induction s; cbn; [ reflexivity | now rewrite IHs ]. Qed.

Lemma append_assoc s1 s2 s3 : (s1 ++ s2) ++ s3 = s1 ++ (s2 ++ s3).
Proof. induction s1; cbn; [ reflexivity | now rewrite IHs1 ]. Qed.

Lemma length_append s1 s2 :
  String.length (s1 ++ s2) = (String.length s1 + String.length s2)%nat.
Proof. induction s1; cbn; [ reflexivity | now rewrite IHs1 ]. Qed.

Lemma append_inv_head p s1 s2 : p ++ s1 = p ++ s2 -> s1 = s2.
Proof. induction p; cbn; intros H; [ exact H | injection H; auto ]. Qed.

Lemma append_inv_tail t s1 s2 : s1 ++ t = s2 ++ t -> s1 = s2.
Proof.
  revert s2. induction s1 as [ | c s1 IH ]; intros [ | c' s2 ] H; cbn in H.
  - reflexivity.
  - exfalso. apply (f_equal String.length) in H. cbn in H.
    rewrite length_append in H. lia.
  - exfalso. apply (f_equal String.length) in H. cbn in H.
    rewrite length_append in H. lia.
  - injection H as -> H. f_equal. now apply IH.
Qed.

Lemma prefix_append p s : String.prefix p (p ++ s) = true.
Proof.
  induction p as [ | c p IH ]; cbn.
  - now destruct s.
  - destruct (ascii_dec c c); [ exact IH | congruence ].
Qed.

Lemma prefix_nil s : String.prefix "" s = true.
Proof. now destruct s. Qed.

Lemma prefix_append_l p q s :
  String.prefix (p ++ q) s = true -> String.prefix p s = true.
Proof.
  revert s. induction p as [ | c p IH ]; intros s H.
  - apply prefix_nil.
  - destruct s as [ | c' s ]; cbn in *; [ discriminate | ].
    destruct (ascii_dec c c'); [ now apply IH | discriminate ].
Qed.

Lemma rev_string_append s acc : Py.rev_string s acc = Py.rev_string s "" ++ acc.
Proof.
  revert acc. induction s as [ | c s IH ]; intros acc; cbn.
  - reflexivity.
  - rewrite IH, (IH (String c "")), append_assoc. reflexivity.
Qed.

Lemma reverse_append s1 s2 :
  Py.reverse (s1 ++ s2) = Py.reverse s2 ++ Py.reverse s1.
Proof.
  unfold Py.reverse. induction s1 as [ | c s1 IH ]; cbn.
  - now rewrite append_nil_r.
  - rewrite rev_string_append, IH, (rev_string_append s1 (String c "")).
    now rewrite append_assoc.
Qed.

Lemma endswith_append s suf : Py.endswith suf (s ++ suf) = true.
Proof. unfold Py.endswith. rewrite reverse_append. apply prefix_append. Qed.

Lemma startswith_append p s : Py.startswith p (p ++ s) = true.
Proof. apply prefix_append. Qed.

(** A name built as [pre ++ middle ++ suf] matches [pre*suf]. *)
Lemma fnmatch_built pre suf middle :
  Fs.fnmatch pre suf (pre ++ middle ++ suf) = true.
Proof.
  unfold Fs.fnmatch. rewrite startswith_append.
  rewrite <- append_assoc, endswith_append. cbn [andb].
  apply Nat.leb_le. rewrite !length_append. lia.
Qed.

Lemma universal_newlines_id s :
  Py.contains (String "013"%char "") s = false -> Fs.universal_newlines s = s.
Proof.
  induction s as [ | c s IH ]; intros H; [ reflexivity | ].
  cbn [Py.contains String.prefix] in H.
  cbn [Fs.universal_newlines].
  destruct (ascii_dec "013"%char c) as [E | N].
  - rewrite prefix_nil in H. discriminate.
  - destruct (Ascii.eqb_spec c "013"%char); [ congruence | ].
    now rewrite IH.
Qed.

End StringFacts.

(** ** Directories *)

Section DirectoryFacts.

Context {A : Type}.

Implicit Types (d : directory A) (f g : file A).

Lemma write_fresh nm mt (c : A) d :
  Fs.lookup nm d = None -> Fs.write nm mt c d = (d ++ [File nm mt c])%list.
Proof.
  unfold Fs.lookup. induction d as [ | f d IH ]; cbn; intros H; [ reflexivity | ].
  destruct (String.eqb (name f) nm); [ discriminate | ].
  now rewrite IH.
Qed.

Lemma lookup_write_same nm mt (c : A) d :
  Fs.lookup nm (Fs.write nm mt c d) = Some (File nm mt c).
Proof.
  unfold Fs.lookup. induction d as [ | f d IH ]; cbn.
  - now rewrite String.eqb_refl.
  - destruct (String.eqb (name f) nm) eqn:E; cbn.
    + now rewrite String.eqb_refl.
    + now rewrite E.
Qed.

Lemma lookup_write_other nm nm' mt (c : A) d :
  nm' <> nm -> Fs.lookup nm' (Fs.write nm mt c d) = Fs.lookup nm' d.
Proof.
  intros N. unfold Fs.lookup. induction d as [ | f d IH ]; cbn.
  - apply String.eqb_neq in N. rewrite String.eqb_sym in N. now rewrite N.
  - destruct (String.eqb (name f) nm) eqn:E; cbn.
    + apply String.eqb_eq in E. rewrite E.
      apply String.eqb_neq in N. rewrite String.eqb_sym in N. now rewrite N.
    + destruct (String.eqb (name f) nm'); [ reflexivity | exact IH ].
Qed.

Lemma lookup_nil nm : Fs.lookup nm ([] : directory A) = None.
Proof. reflexivity. Qed.

Lemma lookup_cons nm f d :
  Fs.lookup nm (f :: d) = if String.eqb (name f) nm then Some f else Fs.lookup nm d.
Proof. reflexivity. Qed.

Lemma lookup_app nm d1 d2 :
  Fs.lookup nm (d1 ++ d2)%list
  = match Fs.lookup nm d1 with Some f => Some f | None => Fs.lookup nm d2 end.
Proof.
  unfold Fs.lookup. induction d1 as [ | f d1 IH ]; cbn; [ reflexivity | ].
  destruct (String.eqb (name f) nm); [ reflexivity | exact IH ].
Qed.

Lemma lookup_none_iff nm d :
  Fs.lookup nm d = None <-> forall f, In f d -> name f <> nm.
Proof.
  unfold Fs.lookup. split.
  - intros H f Hin E. apply (find_none _ _ H) in Hin.
    rewrite E, String.eqb_refl in Hin. discriminate.
  - intros H. induction d as [ | f d IH ]; cbn; [ reflexivity | ].
    destruct (String.eqb_spec (name f) nm) as [E | N].
    + exfalso. apply (H f); [ now left | exact E ].
    + apply IH. intros g Hg. apply H. now right.
Qed.

Lemma in_write nm mt (c : A) d f :
  In f (Fs.write nm mt c d) -> f = File nm mt c \/ In f d.
Proof.
  induction d as [ | g d IH ]; cbn.
  - intros [H | []]; auto.
  - destruct (String.eqb (name g) nm); cbn; intros [H | H]; auto.
    destruct (IH H); auto.
Qed.

Lemma in_write_new nm mt (c : A) d : In (File nm mt c) (Fs.write nm mt c d).
Proof.
  induction d as [ | g d IH ]; cbn; [ now left | ].
  destruct (String.eqb (name g) nm); [ now left | now right ].
Qed.

Lemma glob_cons pre suf f d :
  Fs.glob pre suf (f :: d)
  = if Fs.fnmatch pre suf (name f) then f :: Fs.glob pre suf d else Fs.glob pre suf d.
Proof. reflexivity. Qed.

Lemma glob_app pre suf d1 d2 :
  Fs.glob pre suf (d1 ++ d2)%list = (Fs.glob pre suf d1 ++ Fs.glob pre suf d2)%list.
Proof. apply filter_app. Qed.

Lemma in_glob pre suf d f :
  In f (Fs.glob pre suf d) <-> In f d /\ Fs.fnmatch pre suf (name f) = true.
Proof. apply filter_In. Qed.

(** *** The newest entry *)

Lemma insert_newest_first_not_nil f d : Fs.insert_newest_first f d <> [].
Proof. destruct d as [ | g d ]; cbn; [ | destruct (mtime g <=? mtime f)%Z ]; discriminate. Qed.

Lemma sort_newest_first_nil d : Fs.sort_newest_first d = [] -> d = [].
Proof.
  destruct d as [ | f d ]; cbn; [ reflexivity | ].
  intros H. now apply insert_newest_first_not_nil in H.
Qed.

(** The head of the sorted list is the first entry of the unsorted list
    that no entry is newer than: every entry before it is strictly older,
    every entry is at most as new. *)
Lemma sort_newest_first_head d newest rest :
  Fs.sort_newest_first d = newest :: rest ->
  exists before after,
    d = (before ++ newest :: after)%list
    /\ (forall f, In f before -> (mtime f < mtime newest)%Z)
    /\ (forall f, In f after -> (mtime f <= mtime newest)%Z).
Proof.
  revert newest rest. induction d as [ | f d IH ]; intros newest rest H; [ discriminate | ].
  cbn in H. destruct (Fs.sort_newest_first d) as [ | g sorted ] eqn:S.
  - apply sort_newest_first_nil in S. subst d. cbn in H. injection H as <- <-.
    exists [], []. repeat split; intros ? [].
  - destruct (IH g sorted eq_refl) as [before [after [E [Hb Ha]]]].
    cbn in H. destruct (Z.leb_spec (mtime g) (mtime f)).
    + injection H as <- <-. exists [], d. split; [ reflexivity | ].
      split; [ intros ? [] | ].
      intros x Hx. rewrite E in Hx. apply in_app_or in Hx.
      destruct Hx as [Hx | [<- | Hx]].
      * specialize (Hb x Hx). lia.
      * assumption.
      * specialize (Ha x Hx). lia.
    + injection H as <- <-. exists (f :: before), after. split.
      * rewrite E. reflexivity.
      * split; [ | exact Ha ].
        intros x [<- | Hx]; [ assumption | now apply Hb ].
Qed.

(** The entry that is strictly newer than all others is the head of the
    sorted list, wherever it stands. *)
Lemma sort_newest_first_strict d newest :
  In newest d ->
  (forall f, In f d -> f = newest \/ (mtime f < mtime newest)%Z) ->
  exists rest, Fs.sort_newest_first d = newest :: rest.
Proof.
  intros Hin Hall.
  destruct (Fs.sort_newest_first d) as [ | h rest ] eqn:S.
  - apply sort_newest_first_nil in S. subst d. destruct Hin.
  - exists rest. f_equal.
    destruct (sort_newest_first_head d h rest S) as [before [after [E [Hb Ha]]]].
    assert (Hh : In h d) by (rewrite E; apply in_or_app; right; now left).
    destruct (Hall h Hh) as [-> | Hlt]; [ reflexivity | ].
    exfalso. rewrite E in Hin. apply in_app_or in Hin.
    destruct Hin as [Hx | [<- | Hx]].
    + specialize (Hb _ Hx). lia.
    + lia.
    + specialize (Ha _ Hx). lia.
Qed.

End DirectoryFacts.

(** ** StorageLayout: vector-store ids *)

Section VectorIds.

Variable st : CloudStorage.

Lemma get_latest_vector_store_id_none d :
  Fs.glob "vector_" ".json" d = [] ->
  Storage.get_latest_vector_store_id d = Ret None.
Proof. intros H. unfold Storage.get_latest_vector_store_id. now rewrite H. Qed.

(** C9 (amended): an id that was just saved is the id read back, whatever
    the string, PROVIDED the file written is stamped newer than every
    vector file already there (the latest file is chosen by [st_mtime]
    alone); and a directory without any vector file gives [None], not an
    exception. *)
Theorem vector_store_id_round_trip :
  (forall now mt s d,
      (forall f, In f (Fs.glob "vector_" ".json" d) -> (mtime f < mt)%Z) ->
      Storage.get_latest_vector_store_id
        (fst (Storage.save_vector_store_id st now mt s d))
      = Ret (Some s))
  /\ (forall d,
        Fs.glob "vector_" ".json" d = [] ->
        Storage.get_latest_vector_store_id d = Ret None).
Proof.
  split; [ | exact get_latest_vector_store_id_none ].
  intros now mt s d Hold.
  unfold Storage.save_vector_store_id, Storage.get_latest_vector_store_id. cbn [fst].
  set (timestamp := Clock.strftime "_" now).
  set (id_file := "vector_" ++ timestamp ++ ".json").
  set (new := File id_file mt (Dict (Storage.vector_record st s timestamp))).
  destruct (sort_newest_first_strict
              (Fs.glob "vector_" ".json"
                 (Fs.write id_file mt (Dict (Storage.vector_record st s timestamp)) d))
              new) as [rest Hsort].
  - apply in_glob. split; [ apply in_write_new | apply fnmatch_built ].
  - intros f Hf. apply in_glob in Hf. destruct Hf as [Hf Hm].
    apply in_write in Hf. destruct Hf as [-> | Hf]; [ now left | right ].
    apply Hold. apply in_glob. now split.
  - rewrite Hsort. reflexivity.
Qed.

End VectorIds.

(** C9 as the specification has it, without the condition on the
    modification times: ["vs_new"] is saved into a directory whose vector
    file holding ["vs_old"] carries a later modification time (5) than the
    one the new file is stamped with (4).  The save is followed at once by
    the query, which returns ["vs_old"]. *)
Lemma saved_vector_id_hidden_by_newer_file :
  Storage.get_latest_vector_store_id
    (fst (Storage.save_vector_store_id (storage Scenario.acme) Scenario.noon 4
            "vs_new" Scenario.old_vector_ids))
  = Ret (Some "vs_old")
  /\ Fs.lookup "vector_20250314_120000.json"
       (fst (Storage.save_vector_store_id (storage Scenario.acme) Scenario.noon 4
               "vs_new" Scenario.old_vector_ids))
     = Some (File "vector_20250314_120000.json" 4
               (Dict (Storage.vector_record (storage Scenario.acme) "vs_new"
                        "20250314_120000"))).
Proof. vm_compute. split; reflexivity. Qed.

(** Saving ["vs_new"] next to an older id and a file that does not parse. *)
Lemma vector_store_id_round_trip_witness :
  (forall f, In f (Fs.glob "vector_" ".json" Scenario.old_vector_ids) -> (mtime f < 10)%Z)
  /\ Storage.get_latest_vector_store_id
       (fst (Storage.save_vector_store_id (storage Scenario.acme) Scenario.noon 10
               "vs_new" Scenario.old_vector_ids))
     = Ret (Some "vs_new").
Proof.
  assert (H : forall f, In f (Fs.glob "vector_" ".json" Scenario.old_vector_ids)
                        -> (mtime f < 10)%Z).
  { intros f [<- | [<- | []]]; reflexivity. }
  split; [ exact H | ].
  exact (proj1 (vector_store_id_round_trip (storage Scenario.acme))
           Scenario.noon 10%Z "vs_new" Scenario.old_vector_ids H).
Defined.

(** ** Timestamps *)

Section Timestamps.

Lemma digit_inj a b : (a < 10)%nat -> (b < 10)%nat -> Py.digit a = Py.digit b -> a = b.
Proof.
  intros Ha Hb H. unfold Py.digit in H.
  apply (f_equal nat_of_ascii) in H.
  rewrite !nat_ascii_embedding in H by lia. lia.
Qed.

Lemma pad2_inj n m : (n < 100)%nat -> (m < 100)%nat -> Clock.pad2 n = Clock.pad2 m -> n = m.
Proof.
  intros Hn Hm H. unfold Clock.pad2 in H.
  assert (H1 : Py.digit (n / 10) = Py.digit (m / 10)) by congruence.
  assert (H2 : Py.digit (n mod 10) = Py.digit (m mod 10)) by congruence.
  apply digit_inj in H1; [ | apply Nat.Div0.div_lt_upper_bound; lia .. ].
  apply digit_inj in H2; [ | apply Nat.mod_upper_bound; lia .. ].
  rewrite (Nat.div_mod_eq n 10), (Nat.div_mod_eq m 10). lia.
Qed.

Lemma pad4_inj n m :
  (n < 100 * 100)%nat -> (m < 100 * 100)%nat -> Clock.pad4 n = Clock.pad4 m -> n = m.
Proof.
  intros Hn Hm H. unfold Clock.pad4 in H.
  assert (H1 : Py.digit (n / 1000) = Py.digit (m / 1000)) by congruence.
  assert (H2 : Py.digit ((n / 100) mod 10) = Py.digit ((m / 100) mod 10)) by congruence.
  assert (H3 : Clock.pad2 (n mod 100) = Clock.pad2 (m mod 100)) by congruence.
  apply pad2_inj in H3; [ | apply Nat.mod_upper_bound; lia .. ].
  apply digit_inj in H1; [ | apply Nat.Div0.div_lt_upper_bound; lia .. ].
  apply digit_inj in H2; [ | apply Nat.mod_upper_bound; lia .. ].
  assert (E : forall k, (k / 1000 = k / 100 / 10)%nat)
    by (intros k; now rewrite Nat.Div0.div_div).
  rewrite !E in H1.
  assert (Hq : (n / 100 = m / 100)%nat).
  { rewrite (Nat.div_mod_eq (n / 100) 10), (Nat.div_mod_eq (m / 100) 10). lia. }
  rewrite (Nat.div_mod_eq n 100), (Nat.div_mod_eq m 100). lia.
Qed.

Lemma string_cons_inj a b s t : String a s = String b t -> a = b /\ s = t.
Proof. intros H. injection H. auto. Qed.

Lemma validb_valid d : Clock.validb d = true -> Clock.valid d.
Proof.
  unfold Clock.validb, Clock.valid. rewrite !andb_true_iff, !Nat.ltb_lt. tauto.
Qed.

Lemma strftime_length sep d :
  String.length (Clock.strftime sep d) = (14 + String.length sep)%nat.
Proof.
  unfold Clock.strftime, Clock.pad4, Clock.pad2. cbn [append String.length].
  rewrite length_append. cbn [String.length]. lia.
Qed.

(** Clock readings with different fields give different timestamps. *)
Lemma strftime_inj sep d1 d2 :
  Clock.valid d1 -> Clock.valid d2 ->
  Clock.strftime sep d1 = Clock.strftime sep d2 -> d1 = d2.
Proof.
  intros (Hy1 & Hm1 & Hd1 & Hh1 & Hi1 & Hs1) (Hy2 & Hm2 & Hd2 & Hh2 & Hi2 & Hs2) H.
  destruct d1 as [y1 m1 dd1 h1 i1 s1], d2 as [y2 m2 dd2 h2 i2 s2].
  cbn [year month day hour minute second] in *.
  unfold Clock.strftime in H. cbn [year month day hour minute second] in H.
  assert (Hy : Clock.pad4 y1 = Clock.pad4 y2 /\ Clock.pad2 m1 = Clock.pad2 m2
               /\ Clock.pad2 dd1 = Clock.pad2 dd2
               /\ sep ++ Clock.pad2 h1 ++ Clock.pad2 i1 ++ Clock.pad2 s1
                  = sep ++ Clock.pad2 h2 ++ Clock.pad2 i2 ++ Clock.pad2 s2).
  { unfold Clock.pad4, Clock.pad2 in *. cbn [append] in H.
    do 8 (apply string_cons_inj in H; destruct H as [? H]).
    cbn [append]. repeat split; congruence. }
  destruct Hy as (Ey & Em & Ed & Erest).
  apply append_inv_head in Erest.
  assert (Ht : Clock.pad2 h1 = Clock.pad2 h2 /\ Clock.pad2 i1 = Clock.pad2 i2
               /\ Clock.pad2 s1 = Clock.pad2 s2).
  { unfold Clock.pad2 in *. cbn [append] in Erest.
    do 5 (apply string_cons_inj in Erest; destruct Erest as [? Erest]).
    repeat split; congruence. }
  destruct Ht as (Eh & Ei & Es).
  apply pad4_inj in Ey; [ | assumption .. ].
  apply pad2_inj in Em, Ed, Eh, Ei, Es; try assumption.
  now subst.
Qed.

End Timestamps.

(** ** StorageLayout: final reports *)

Section FinalReports.

Variable st : CloudStorage.

Local Abbreviation report_prefix := ("FINAL_REPORT_" ++ company_slug st ++ "_").

Lemma artifact_name_shape s :
  artifact_name st s = report_prefix ++ Clock.strftime "_" (saved_at s) ++ ".md".
Proof. unfold artifact_name, report_prefix. now rewrite !append_assoc. Qed.

Lemma ready_name_shape s :
  ready_name st s = report_prefix ++ Clock.strftime "_" (saved_at s) ++ ".ready".
Proof. unfold ready_name, report_prefix. now rewrite !append_assoc. Qed.

Lemma name_artifact_file s : name (artifact_file st s) = artifact_name st s.
Proof. reflexivity. Qed.

Lemma name_ready_file s : name (ready_file st s) = ready_name st s.
Proof. reflexivity. Qed.

Lemma artifact_matches s : Fs.fnmatch report_prefix ".md" (artifact_name st s) = true.
Proof. rewrite artifact_name_shape. apply fnmatch_built. Qed.

Lemma ready_does_not_match s : Fs.fnmatch report_prefix ".md" (ready_name st s) = false.
Proof.
  rewrite ready_name_shape. unfold Fs.fnmatch.
  assert (E : Py.endswith ".md" (report_prefix ++ Clock.strftime "_" (saved_at s) ++ ".ready")
              = false).
  { rewrite <- append_assoc. unfold Py.endswith. rewrite reverse_append. reflexivity. }
  rewrite E, andb_false_r. reflexivity.
Qed.

Lemma artifact_name_starts s : Py.startswith "FINAL_REPORT_" (artifact_name st s) = true.
Proof. apply prefix_append. Qed.

Lemma ready_name_starts s : Py.startswith "FINAL_REPORT_" (ready_name st s) = true.
Proof. apply prefix_append. Qed.

Lemma artifact_name_inj s1 s2 :
  Clock.valid (saved_at s1) -> Clock.valid (saved_at s2) ->
  artifact_name st s1 = artifact_name st s2 -> saved_at s1 = saved_at s2.
Proof.
  intros V1 V2 H. rewrite !artifact_name_shape in H.
  apply append_inv_head, append_inv_tail in H. now apply strftime_inj in H.
Qed.

Lemma ready_name_inj s1 s2 :
  Clock.valid (saved_at s1) -> Clock.valid (saved_at s2) ->
  ready_name st s1 = ready_name st s2 -> saved_at s1 = saved_at s2.
Proof.
  intros V1 V2 H. rewrite !ready_name_shape in H.
  apply append_inv_head, append_inv_tail in H. now apply strftime_inj in H.
Qed.

Lemma artifact_is_not_ready s1 s2 : artifact_name st s1 <> ready_name st s2.
Proof.
  intros H. rewrite artifact_name_shape, ready_name_shape in H.
  apply append_inv_head in H. apply (f_equal String.length) in H.
  rewrite !length_append, !strftime_length in H. cbn in H. lia.
Qed.

(** A save whose two names are not in the directory yet adds two entries
    at the end and changes no other entry. *)
Lemma save_final_report_fresh s d :
  Fs.lookup (artifact_name st s) d = None ->
  Fs.lookup (ready_name st s) d = None ->
  Storage.save_final_report st (saved_at s) (stamped s) (body s) d
  = ((d ++ [artifact_file st s; ready_file st s])%list, artifact_name st s).
Proof.
  intros Ha Hr. unfold Storage.save_final_report.
  fold (artifact_name st s). fold (ready_name st s).
  rewrite (write_fresh _ _ _ d Ha).
  rewrite write_fresh.
  - rewrite <- app_assoc. reflexivity.
  - rewrite lookup_app, Hr, lookup_cons, lookup_nil. cbn [name].
    destruct (String.eqb_spec (artifact_name st s) (ready_name st s)) as [E | _];
      [ now apply artifact_is_not_ready in E | reflexivity ].
Qed.

Lemma save_all_fresh saves d :
  Forall (fun s => Clock.valid (saved_at s)) saves ->
  NoDup (map saved_at saves) ->
  (forall s, In s saves ->
     Fs.lookup (artifact_name st s) d = None /\ Fs.lookup (ready_name st s) d = None) ->
  save_all st saves d = (d ++ written st saves)%list.
Proof.
  revert d. induction saves as [ | s rest IH ]; intros d V N F.
  - cbn. now rewrite app_nil_r.
  - cbn [save_all written flat_map].
    destruct (F s (or_introl eq_refl)) as [Ha Hr].
    rewrite (save_final_report_fresh s d Ha Hr). cbn [fst].
    inversion V as [ | ? ? Vs Vrest ]; subst.
    inversion N as [ | ? ? Ns Nrest ]; subst.
    rewrite IH; [ now rewrite <- app_assoc | assumption | assumption | ].
    intros s' Hs'.
    destruct (F s' (or_intror Hs')) as [Ha' Hr'].
    assert (Vs' : Clock.valid (saved_at s'))
      by (rewrite Forall_forall in Vrest; now apply Vrest).
    assert (D : saved_at s <> saved_at s').
    { intros E. apply Ns. rewrite E. now apply in_map. }
    rewrite !lookup_app, Ha', Hr', !lookup_cons, !lookup_nil.
    unfold artifact_file, ready_file. cbn [name].
    destruct (String.eqb_spec (artifact_name st s) (artifact_name st s')) as [E | _];
      [ now apply artifact_name_inj in E | ].
    destruct (String.eqb_spec (ready_name st s) (artifact_name st s')) as [E | _];
      [ symmetry in E; now apply artifact_is_not_ready in E | ].
    destruct (String.eqb_spec (artifact_name st s) (ready_name st s')) as [E | _];
      [ now apply artifact_is_not_ready in E | ].
    destruct (String.eqb_spec (ready_name st s) (ready_name st s')) as [E | _];
      [ now apply ready_name_inj in E | ].
    split; reflexivity.
Qed.

Lemma filter_none {B} (p : B -> bool) l :
  (forall x, In x l -> p x = false) -> filter p l = [].
Proof.
  induction l as [ | x l IH ]; intros H; cbn; [ reflexivity | ].
  rewrite (H x (or_introl eq_refl)). apply IH. intros y Hy. apply H. now right.
Qed.

Lemma glob_without_reports (d : directory string) :
  (forall f, In f d -> Py.startswith "FINAL_REPORT_" (name f) = false) ->
  Fs.glob report_prefix ".md" d = [].
Proof.
  intros H. apply filter_none. intros f Hf. specialize (H f Hf).
  unfold Fs.fnmatch.
  destruct (Py.startswith report_prefix (name f)) eqn:E; [ | reflexivity ].
  apply prefix_append_l in E. unfold Py.startswith in H. congruence.
Qed.

Lemma lookup_without_reports (d : directory string) nm :
  (forall f, In f d -> Py.startswith "FINAL_REPORT_" (name f) = false) ->
  Py.startswith "FINAL_REPORT_" nm = true ->
  Fs.lookup nm d = None.
Proof.
  intros H Hn. apply lookup_none_iff. intros f Hf E.
  specialize (H f Hf). congruence.
Qed.

Lemma glob_written saves :
  Fs.glob report_prefix ".md" (written st saves) = map (artifact_file st) saves.
Proof.
  induction saves as [ | s rest IH ]; [ reflexivity | ].
  change (written st (s :: rest))
    with (artifact_file st s :: ready_file st s :: written st rest).
  rewrite !glob_cons, name_artifact_file, name_ready_file.
  rewrite artifact_matches, ready_does_not_match, IH. reflexivity.
Qed.

Lemma lookup_written saves s :
  Forall (fun s => Clock.valid (saved_at s)) saves ->
  NoDup (map saved_at saves) ->
  In s saves ->
  Fs.lookup (artifact_name st s) (written st saves) = Some (artifact_file st s)
  /\ Fs.lookup (ready_name st s) (written st saves) = Some (ready_file st s).
Proof.
  induction saves as [ | s' rest IH ]; intros V N Hin; [ destruct Hin | ].
  inversion V as [ | ? ? Vs Vrest ]; subst.
  inversion N as [ | ? ? Ns Nrest ]; subst.
  unfold written. cbn [flat_map app]. fold (written st rest).
  rewrite !lookup_cons, !name_artifact_file, !name_ready_file.
  destruct Hin as [-> | Hin].
  - rewrite !String.eqb_refl.
    destruct (String.eqb_spec (artifact_name st s) (ready_name st s)) as [E | _];
      [ now apply artifact_is_not_ready in E | ].
    split; reflexivity.
  - assert (Vs' : Clock.valid (saved_at s))
      by (rewrite Forall_forall in Vrest; now apply Vrest).
    assert (D : saved_at s' <> saved_at s).
    { intros E. apply Ns. rewrite E. now apply in_map. }
    destruct (String.eqb_spec (artifact_name st s') (artifact_name st s)) as [E | _];
      [ now apply artifact_name_inj in E | ].
    destruct (String.eqb_spec (ready_name st s') (artifact_name st s)) as [E | _];
      [ symmetry in E; now apply artifact_is_not_ready in E | ].
    destruct (String.eqb_spec (artifact_name st s') (ready_name st s)) as [E | _];
      [ now apply artifact_is_not_ready in E | ].
    destruct (String.eqb_spec (ready_name st s') (ready_name st s)) as [E | _];
      [ now apply ready_name_inj in E | ].
    now apply IH.
Qed.

(** C4 (amended): saves of the final report made at pairwise different
    clock seconds, into a directory that holds no [FINAL_REPORT_] entry,
    overwrite nothing: the directory afterwards is the directory before
    followed by one report and one ready file per save.  Every report
    keeps the content of its save, every ready file holds the path of its
    report and a newline, and when the last save carries the newest
    modification time [get_latest_final_report] returns the last report. *)
Theorem final_reports_accumulate (d0 : directory string) earlier last :
  (forall f, In f d0 -> Py.startswith "FINAL_REPORT_" (name f) = false) ->
  Forall (fun s => Clock.valid (saved_at s)) (earlier ++ [last])%list ->
  NoDup (map saved_at (earlier ++ [last])%list) ->
  (forall s, In s earlier -> (stamped s < stamped last)%Z) ->
  let d := save_all st (earlier ++ [last])%list d0 in
  d = (d0 ++ written st (earlier ++ [last]))%list
  /\ (forall s, In s (earlier ++ [last])%list ->
        Fs.lookup (artifact_name st s) d
        = Some (File (artifact_name st s) (stamped s) (body s))
        /\ Fs.lookup (ready_name st s) d
           = Some (File (ready_name st s) (stamped s)
                     (Storage.path_join (Storage.final_dir_path st) (artifact_name st s)
                      ++ Pipeline.newline)))
  /\ Storage.get_latest_final_report st d = Some (artifact_name st last).
Proof.
  intros Hd0 V N Hnewest d.
  assert (Hd : d = (d0 ++ written st (earlier ++ [last]))%list).
  { apply save_all_fresh; [ assumption | assumption | ].
    intros s _. split; apply lookup_without_reports; auto.
    - apply artifact_name_starts.
    - apply ready_name_starts. }
  split; [ exact Hd | ]. rewrite Hd. split.
  - intros s Hs. rewrite !lookup_app.
    rewrite (lookup_without_reports d0 _ Hd0 (artifact_name_starts s)).
    rewrite (lookup_without_reports d0 _ Hd0 (ready_name_starts s)).
    now apply lookup_written.
  - unfold Storage.get_latest_final_report.
    rewrite glob_app, (glob_without_reports d0 Hd0), glob_written. cbn [app].
    destruct (sort_newest_first_strict
                (map (artifact_file st) (earlier ++ [last])) (artifact_file st last))
      as [rest Hsort].
    + apply in_map, in_or_app. right. now left.
    + intros f Hf. apply in_map_iff in Hf. destruct Hf as [s [<- Hs]].
      apply in_app_or in Hs. destruct Hs as [Hs | [<- | []]].
      * right. cbn [mtime artifact_file]. now apply Hnewest.
      * now left.
    + rewrite Hsort. reflexivity.
Qed.

End FinalReports.

(** C4, counterexample: a second save within the same clock second gets
    the same file name and truncates the first report; afterwards the
    directory holds one report, with the content of the second save. *)
Lemma final_report_overwritten_within_a_second :
  In Scenario.first_report Scenario.after_first_save
  /\ ~ In Scenario.first_report Scenario.after_second_save
  /\ Fs.glob "FINAL_REPORT_acme_corp_" ".md" Scenario.after_second_save
     = [File "FINAL_REPORT_acme_corp_20250314_120000.md" 20 "second"].
Proof.
  vm_compute. split; [ now left | ]. split; [ | reflexivity ].
  intros [H | [H | []]]; discriminate.
Qed.

(** Two saves one second apart, into a directory that holds a report of
    the consolidation stage. *)
Lemma final_reports_accumulate_witness :
  Storage.get_latest_final_report (storage Scenario.acme)
    (save_all (storage Scenario.acme) [Scenario.save_v1; Scenario.save_v2]
       [Scenario.dual_report])
  = Some "FINAL_REPORT_acme_corp_20250314_120001.md"
  /\ Fs.lookup "FINAL_REPORT_acme_corp_20250314_120000.md"
       (save_all (storage Scenario.acme) [Scenario.save_v1; Scenario.save_v2]
          [Scenario.dual_report])
     = Some (File "FINAL_REPORT_acme_corp_20250314_120000.md" 10 "v1").
Proof.
  assert (H1 : forall f, In f [Scenario.dual_report] ->
                         Py.startswith "FINAL_REPORT_" (name f) = false).
  { intros f [<- | []]. reflexivity. }
  assert (H2 : Forall (fun s => Clock.valid (saved_at s))
                 ([Scenario.save_v1] ++ [Scenario.save_v2])%list).
  { apply Forall_cons; [ apply validb_valid; reflexivity | ].
    apply Forall_cons; [ apply validb_valid; reflexivity | apply Forall_nil ]. }
  assert (H3 : NoDup (map saved_at ([Scenario.save_v1] ++ [Scenario.save_v2])%list)).
  { constructor; [ intros [E | []]; discriminate | ].
    constructor; [ intros [] | constructor ]. }
  assert (H4 : forall s, In s [Scenario.save_v1] ->
                         (stamped s < stamped Scenario.save_v2)%Z).
  { intros s [<- | []]. reflexivity. }
  destruct (final_reports_accumulate (storage Scenario.acme) [Scenario.dual_report]
              [Scenario.save_v1] Scenario.save_v2 H1 H2 H3 H4) as (_ & L & G).
  split; [ exact G | ].
  exact (proj1 (L Scenario.save_v1 (or_introl eq_refl))).
Defined.

(** ** Finalize *)

Section Finalize.

Variable env : Env.
Variable self : CloudPipeline.

Lemma report_progress_spec progress w :
  Pipeline.report_progress progress w
  = (Ret tt, record (map (fun p => Metric "upload_progress" p "%") progress) w).
Proof.
  revert w. induction progress as [ | p rest IH ]; intros w.
  - unfold record. cbn. rewrite app_nil_r. now destruct w.
  - cbn [Pipeline.report_progress map]. unfold bind. cbn [emit].
    rewrite IH. unfold record. cbn. now rewrite <- app_assoc.
Qed.

(** The Drive upload always returns, with [True] or [False], and leaves
    the disk alone. *)
Lemma upload_final_report_to_gdrive_returns report_path w :
  exists b w',
    Pipeline.upload_final_report_to_gdrive env report_path w = (Ret b, w')
    /\ disk w' = disk w.
Proof.
  unfold Pipeline.upload_final_report_to_gdrive, try_except.
  unfold bind at 1. cbn [emit].
  destruct (google_api_import_error env) as [import_error | ].
  - unfold bind. cbn [emit ret]. eexists _, _. split; reflexivity.
  - destruct (gdrive_credentials_exist env); cbn [negb].
    + destruct (drive env) as [msg | progress file_id file_name].
      * cbn [raise]. unfold bind. cbn [emit ret]. eexists _, _. split; reflexivity.
      * unfold bind at 1. rewrite report_progress_spec.
        destruct (Pipeline.truthy file_id).
        -- unfold bind. cbn [emit ret]. eexists _, _. split; reflexivity.
        -- cbn [ret]. eexists _, _. split; reflexivity.
    + unfold bind. cbn [emit ret]. eexists _, _. split; reflexivity.
Qed.

(** What [finalize_report] does when a candidate exists: the text of the
    head of the sorted candidates is saved through [save_final_report] at
    the current clock reading, and the name of the new report is returned
    whatever the Drive upload does. *)
Lemma finalize_report_saves w latest rest :
  Fs.sort_newest_first (Pipeline.final_candidates (final_dir (disk w))) = latest :: rest ->
  let s := FinalSave (utcnow env (ticks w)) (fs_time env (ticks w)) (Fs.text_of latest) in
  exists w',
    Pipeline.finalize_report env self w = (Ret (Some (artifact_name (storage self) s)), w')
    /\ final_dir (disk w')
       = fst (Storage.save_final_report (storage self) (saved_at s) (stamped s) (body s)
                (final_dir (disk w))).
Proof.
  intros Hsort s. unfold Pipeline.finalize_report.
  unfold bind at 1. cbn [emit]. unfold bind at 1. cbn [get_disk disk].
  rewrite Hsort. unfold Pipeline.storage_save_final_report.
  unfold bind at 2. cbn [tick]. unfold bind at 2. cbn [get_disk disk ticks].
  unfold Storage.save_final_report at 1.
  unfold bind at 2. cbn [put_disk]. unfold bind at 1. cbn [ret].
  unfold bind at 1. cbn [emit]. unfold bind at 1. cbn [emit]. unfold bind at 1.
  match goal with
  | |- context [Pipeline.upload_final_report_to_gdrive env ?p ?w0] =>
      destruct (upload_final_report_to_gdrive_returns p w0) as [b [w' [Hup Hdisk]]];
      rewrite Hup
  end.
  cbn [ret]. exists w'. split; [ reflexivity | ]. rewrite Hdisk. reflexivity.
Qed.

(** C2 (amended): [finalize_report] takes the head of ALL candidates
    sorted newest first, the three naming conventions pooled: no candidate
    of any convention is newer, and of equally new candidates the one
    found first wins (dual-model before patched before consolidated).  Its
    text is written to a new [FINAL_REPORT_] entry by [save_final_report];
    a text without carriage returns is the file's content unchanged. *)
Theorem finalize_copies_newest_candidate w latest rest :
  Fs.sort_newest_first (Pipeline.final_candidates (final_dir (disk w))) = latest :: rest ->
  let s := FinalSave (utcnow env (ticks w)) (fs_time env (ticks w)) (Fs.text_of latest) in
  (exists before after,
      Pipeline.final_candidates (final_dir (disk w)) = (before ++ latest :: after)%list
      /\ (forall f, In f before -> (mtime f < mtime latest)%Z)
      /\ (forall f, In f after -> (mtime f <= mtime latest)%Z))
  /\ (exists w',
        Pipeline.finalize_report env self w
        = (Ret (Some (artifact_name (storage self) s)), w')
        /\ Fs.lookup (artifact_name (storage self) s) (final_dir (disk w'))
           = Some (File (artifact_name (storage self) s) (stamped s) (Fs.text_of latest)))
  /\ (Py.contains (String "013"%char "") (content latest) = false ->
      Fs.text_of latest = content latest).
Proof.
  intros Hsort s. split; [ now apply (sort_newest_first_head _ _ rest) | ].
  split; [ | apply universal_newlines_id ].
  destruct (finalize_report_saves w latest rest Hsort) as [w' [Hrun Hdir]].
  exists w'. split; [ exact Hrun | ]. rewrite Hdir.
  unfold Storage.save_final_report. cbn [fst]. fold s.
  fold (artifact_name (storage self) s). fold (ready_name (storage self) s).
  rewrite lookup_write_other by apply artifact_is_not_ready.
  apply lookup_write_same.
Qed.

End Finalize.

(** C2, counterexample: with an older dual-model report and a newer
    consolidated report in the final directory, the first-priority
    convention has a candidate, yet [finalize_report] saves the text of
    the consolidated report. *)
Lemma finalize_prefers_newer_alternate :
  Spec.select_by_convention_priority (final_dir Scenario.two_reports_disk)
  = Some Scenario.dual_report
  /\ fst (Pipeline.finalize_report Scenario.soft_failures_env Scenario.acme
            (Scenario.start Scenario.two_reports_disk))
     = Ret (Some "FINAL_REPORT_acme_corp_20250314_092600.md")
  /\ Fs.lookup "FINAL_REPORT_acme_corp_20250314_092600.md"
       (final_dir (disk (snd (Pipeline.finalize_report Scenario.soft_failures_env
                                Scenario.acme (Scenario.start Scenario.two_reports_disk)))))
     = Some (File "FINAL_REPORT_acme_corp_20250314_092600.md" 1741944360 "consolidated").
Proof. vm_compute. repeat split. Qed.

(** The same directory: the newest of all candidates is the consolidated
    report. *)
Lemma finalize_copies_newest_candidate_witness :
  Fs.sort_newest_first (Pipeline.final_candidates (final_dir Scenario.two_reports_disk))
  = [Scenario.consolidated_report; Scenario.dual_report]
  /\ exists w',
       Pipeline.finalize_report Scenario.soft_failures_env Scenario.acme
         (Scenario.start Scenario.two_reports_disk)
       = (Ret (Some "FINAL_REPORT_acme_corp_20250314_092600.md"), w')
       /\ Fs.lookup "FINAL_REPORT_acme_corp_20250314_092600.md" (final_dir (disk w'))
          = Some (File "FINAL_REPORT_acme_corp_20250314_092600.md" 1741944360
                    "consolidated").
Proof.
  split; [ reflexivity | ].
  exact (proj1 (proj2 (finalize_copies_newest_candidate Scenario.soft_failures_env
                         Scenario.acme (Scenario.start Scenario.two_reports_disk)
                         Scenario.consolidated_report [Scenario.dual_report]
                         eq_refl))).
Defined.

(** ** Preprocessing *)

Section Preprocess.

Variable env : Env.

Lemma extends_in ok w w' ev : extends ok w w' -> In ev (trace w) -> In ev (trace w').
Proof. intros [evs [H _]] Hin. rewrite H. apply in_or_app. now left. Qed.

Lemma extends_record ok evs w : forallb ok evs = true -> extends ok w (record evs w).
Proof. intros H. exists evs. split; [ reflexivity | exact H ]. Qed.

(** One turn of the loop: it returns, whatever [pandas] does, and the
    file was announced. *)
Lemma convert_csv_returns csv_path w :
  exists w',
    Pipeline.convert_csv env csv_path w = (Ret tt, w')
    /\ extends any_event (record [Info ("Converting CSV: " ++ name csv_path)] w) w'.
Proof.
  unfold Pipeline.convert_csv. unfold bind at 1. rewrite emit_record.
  set (w0 := record [Info ("Converting CSV: " ++ name csv_path)] w).
  unfold try_except.
  destruct (csv_to_json env csv_path) as [json | msg | json msg].
  - unfold bind, tick, get_disk, put_disk, emit. cbn [disk trace calls ticks].
    eexists. split; [ reflexivity | ]. exists [Success ("Converted " ++ name csv_path ++ " to JSON")].
    split; reflexivity.
  - cbn [raise]. rewrite emit_record. eexists. split; [ reflexivity | ].
    apply extends_record. reflexivity.
  - unfold bind, tick, get_disk, put_disk, raise. cbn [disk trace calls ticks].
    rewrite emit_record. eexists. split; [ reflexivity | ].
    eexists [_]. split; reflexivity.
Qed.

Lemma convert_all_returns csv_files w :
  exists w',
    Pipeline.convert_all env csv_files w = (Ret tt, w')
    /\ extends any_event w w'
    /\ forall f, In f csv_files -> In (Info ("Converting CSV: " ++ name f)) (trace w').
Proof.
  revert w. induction csv_files as [ | csv_path rest IH ]; intros w.
  - exists w. split; [ reflexivity | ]. split; [ apply extends_refl | intros f [] ].
  - cbn [Pipeline.convert_all].
    destruct (convert_csv_returns csv_path w) as [w1 [H1 E1]].
    destruct (IH w1) as [w' [H' [E' Hall]]].
    exists w'. split; [ | split ].
    + unfold bind. rewrite H1. exact H'.
    + eapply extends_trans; [ | exact E' ].
      eapply extends_trans; [ | exact E1 ].
      apply extends_record. reflexivity.
    + intros f [<- | Hf]; [ | now apply Hall ].
      apply (extends_in _ _ _ _ E'). apply (extends_in _ _ _ _ E1).
      cbn. apply in_or_app. right. now left.
Qed.


End Preprocess.

(** A data directory where [pandas] fails on one of two CSV files: the
    stage returns [True], the failure is logged, and the other file is
    converted and removed. *)
Example preprocess_with_a_broken_csv :
  let '(r, w) := Pipeline.preprocess_company_folder Scenario.csv_env
                   (Scenario.start Scenario.csv_disk) in
  r = Ret true
  /\ trace w = [ Step 10 10 "Preprocessing company data";
                 Info "Converting CSV: sales.csv";
                 Success "Converted sales.csv to JSON";
                 Info "Converting CSV: broken.csv";
                 Error "Failed to convert broken.csv: Error tokenizing data" ]
  /\ map name (data_dir (disk w)) = ["notes.txt"; "broken.csv"; "sales.json"].
Proof. vm_compute. repeat split. Qed.

(** ** The stages up to Part A *)

Section StageFacts.

Variable env : Env.
Variable self : CloudPipeline.

Lemma process_event_earlier cmd :
  Pipeline.later_stage_event (Popen cmd) = false ->
  forall ev, process_event cmd ev = true -> earlier_stage_event ev = true.
Proof.
  intros Hcmd ev H. destruct ev; try reflexivity; try discriminate.
  cbn [process_event] in H. apply String.eqb_eq in H. subst.
  unfold earlier_stage_event. now rewrite Hcmd.
Qed.

Lemma convert_all_emits ok csv_files :
  (forall m, ok (Info m) = true) ->
  (forall m, ok (Success m) = true) ->
  (forall m, ok (Error m) = true) ->
  emits_only ok (Pipeline.convert_all env csv_files).
Proof.
  intros Hi Hs He. induction csv_files as [ | f rest IH ]; cbn [Pipeline.convert_all].
  - apply emits_only_ret.
  - apply emits_only_bind; [ | intros _; exact IH ].
    unfold Pipeline.convert_csv. repeat emits_step; auto.
Qed.

Lemma preprocess_company_folder_emits :
  emits_only earlier_stage_event (Pipeline.preprocess_company_folder env).
Proof.
  unfold Pipeline.preprocess_company_folder. repeat emits_step; auto.
  apply convert_all_emits; reflexivity.
Qed.

Lemma upload_to_vector_store_emits :
  emits_only earlier_stage_event (Pipeline.upload_to_vector_store env self).
Proof.
  unfold Pipeline.upload_to_vector_store, Pipeline.storage_save_vector_store_id.
  repeat emits_step; auto.
  apply run_command_emits. apply process_event_earlier. reflexivity.
Qed.

Lemma start_mcp_server_emits vector_store_id :
  emits_only earlier_stage_event (Pipeline.start_mcp_server env vector_store_id).
Proof.
  unfold Pipeline.start_mcp_server. repeat emits_step; auto.
Qed.

Lemma run_quotes_extraction_emits :
  emits_only earlier_stage_event (Pipeline.run_quotes_extraction env self).
Proof.
  unfold Pipeline.run_quotes_extraction. repeat emits_step; auto.
  apply run_command_emits. apply process_event_earlier. reflexivity.
Qed.

Lemma run_part_a_emits vector_store_id collection_name :
  emits_only earlier_stage_event
    (Pipeline.run_part_a env self vector_store_id collection_name).
Proof.
  unfold Pipeline.run_part_a. repeat emits_step; auto.
  apply run_command_emits. apply process_event_earlier. reflexivity.
Qed.

Lemma run_until_part_a_emits :
  emits_only earlier_stage_event (Pipeline.run_until_part_a env self).
Proof.
  unfold Pipeline.run_until_part_a.
  repeat first
    [ apply preprocess_company_folder_emits
    | apply upload_to_vector_store_emits
    | apply start_mcp_server_emits
    | apply run_quotes_extraction_emits
    | emits_step ]; auto.
Qed.

End StageFacts.

(** ** Part A *)

Section PartA.

Variable env : Env.
Variable self : CloudPipeline.

(** The verdict of [run_part_a], from what its command returned and from
    what the Part A directory holds afterwards. *)
Lemma run_part_a_verdict vector_store_id collection_name w code out w1 :
  run_command env part_a_command None 7200
    (record [Step 50 10 "Running Part A analysis"] w) = (Ret (code, out), w1) ->
  fst (Pipeline.run_part_a env self vector_store_id collection_name w)
  = Ret ((code =? 0)%Z && part_a_draft_present (storage self) (part_a_dir (disk w1))).
Proof.
  intros Hrun. unfold part_a_command in Hrun.
  unfold Pipeline.run_part_a. unfold bind at 1. rewrite emit_record.
  unfold bind at 1. rewrite Hrun.
  destruct (code =? 0)%Z; cbn [negb andb].
  - unfold bind at 1. cbn [get_disk]. unfold part_a_draft_present.
    destruct (Storage.get_latest_part_a_draft (storage self) (part_a_dir (disk w1)))
      as [p | ].
    + destruct (Fs.exists_ p (part_a_dir (disk w1))) eqn:E.
      * unfold Fs.exists_ in E. unfold Fs.read_text, Pipeline.lift.
        destruct (Fs.lookup p (part_a_dir (disk w1))); [ | discriminate ].
        reflexivity.
      * reflexivity.
    + reflexivity.
  - reflexivity.
Qed.

(** C6: once the Part A command has returned, [run_part_a] returns [True]
    exactly when the exit code is 0 AND a latest draft is resolved whose
    path exists.  Exit code 0 without a draft gives [False]; a nonzero exit
    code gives [False] whatever the directory holds. *)
Theorem part_a_needs_exit_zero_and_draft vector_store_id collection_name w code out w1 :
  run_command env part_a_command None 7200
    (record [Step 50 10 "Running Part A analysis"] w) = (Ret (code, out), w1) ->
  fst (Pipeline.run_part_a env self vector_store_id collection_name w)
  = Ret ((code =? 0)%Z && part_a_draft_present (storage self) (part_a_dir (disk w1)))
  /\ (code <> 0%Z ->
      fst (Pipeline.run_part_a env self vector_store_id collection_name w) = Ret false)
  /\ (part_a_draft_present (storage self) (part_a_dir (disk w1)) = false ->
      fst (Pipeline.run_part_a env self vector_store_id collection_name w) = Ret false).
Proof.
  intros Hrun.
  pose proof (run_part_a_verdict vector_store_id collection_name w code out w1 Hrun) as V.
  split; [ exact V | ]. split.
  - intros N. apply Z.eqb_neq in N. now rewrite V, N.
  - intros A. now rewrite V, A, andb_false_r.
Qed.

End PartA.

(** Exit code 0 and an empty Part A directory: the stage fails. *)
Lemma part_a_needs_exit_zero_and_draft_witness :
  fst (Pipeline.run_part_a Scenario.part_a_no_draft_env Scenario.acme None
         "Acme Corp_quotes" (Scenario.start Scenario.empty_disk))
  = Ret false.
Proof.
  refine (proj2 (proj2 (part_a_needs_exit_zero_and_draft Scenario.part_a_no_draft_env
                          Scenario.acme None "Acme Corp_quotes"
                          (Scenario.start Scenario.empty_disk) 0%Z ""
                          (snd (run_command Scenario.part_a_no_draft_env part_a_command
                                  None 7200
                                  (record [Step 50 10 "Running Part A analysis"]
                                     (Scenario.start Scenario.empty_disk))))
                          _)) _); reflexivity.
Defined.

(** ** The sequencer *)

Section Sequencer.

Variable env : Env.
Variable self : CloudPipeline.

(** [run_body] is the stages before Part A followed, when Part A is
    reached, by the stages from Part A on. *)
Lemma run_body_split w :
  Pipeline.run_body env self w
  = bind (Pipeline.run_until_part_a env self)
      (fun r => match r with
                | None => ret false
                | Some (start_time, vector_store_id) =>
                    Pipeline.run_from_part_a env self start_time vector_store_id
                end) w.
Proof.
  unfold Pipeline.run_body, Pipeline.run_until_part_a, Pipeline.run_from_part_a,
    Pipeline.run_from_part_b, Pipeline.run_from_finalize.
  unfold bind. cbn [emit tick ret disk trace calls ticks].
  destruct (Pipeline.preprocess_company_folder env _) as [[[] | e | ] w1];
    cbn [negb ret]; try reflexivity.
  destruct (Pipeline.upload_to_vector_store env self w1) as [[v | e | ] w2];
    try reflexivity.
  destruct (when (negb (Pipeline.truthy v)) _ w2) as [[[] | e | ] w3];
    try reflexivity.
  destruct (Pipeline.start_mcp_server env v w3) as [[[] | e | ] w4];
    cbn [negb ret]; try reflexivity.
  destruct (Pipeline.run_quotes_extraction env self w4) as [[[] | e | ] w5];
    cbn [negb ret]; try reflexivity.
Qed.

(** [run_body] is the opening, the preprocessing and the stages from the
    vector-store upload on. *)
Lemma run_body_stages :
  Pipeline.run_body env self
  = (emit (Info (Pipeline.repeat_char "="%char 60)) ;;
     emit (Info ("Starting pipeline for " ++ company_name self)) ;;
     emit (Info (Pipeline.repeat_char "="%char 60)) ;;
     t0 <- tick ;;
     ok <- Pipeline.preprocess_company_folder env ;;
     if negb ok then ret false
     else Pipeline.run_from_upload env self (time_time env t0)).
Proof. reflexivity. Qed.

(** C5: when the run has reached Part A and the Part A stage fails (its
    command exits with a nonzero code, or exits with 0 and no draft is
    present), [run] returns [False] in the very world in which
    [run_part_a] returned: Part B, the use cases, the consolidation and
    the finalization are not entered.  Every event of the run belongs to
    the stages up to Part A: no step event numbered 6 or more, no launch
    of a Part B or consolidation command. *)
Theorem part_a_failure_halts_run w start_time vector_store_id w4 code out w5 :
  Pipeline.run_until_part_a env self w = (Ret (Some (start_time, vector_store_id)), w4) ->
  run_command env part_a_command None 7200
    (record [Step 50 10 "Running Part A analysis"] w4) = (Ret (code, out), w5) ->
  code <> 0%Z \/ part_a_draft_present (storage self) (part_a_dir (disk w5)) = false ->
  let halted :=
    snd (Pipeline.run_part_a env self vector_store_id (company_name self ++ "_quotes") w4) in
  Pipeline.run env self w = (Ret false, halted)
  /\ extends earlier_stage_event w halted.
Proof.
  intros Hreach Hrun Hfail halted.
  assert (Hverdict :
            fst (Pipeline.run_part_a env self vector_store_id
                   (company_name self ++ "_quotes") w4) = Ret false).
  { rewrite (run_part_a_verdict env self _ _ w4 code out w5 Hrun).
    destruct Hfail as [N | A].
    - apply Z.eqb_neq in N. now rewrite N.
    - now rewrite A, andb_false_r. }
  split.
  - unfold Pipeline.run, try_except. rewrite run_body_split.
    unfold bind at 1. rewrite Hreach. unfold Pipeline.run_from_part_a.
    unfold bind at 1. subst halted.
    destruct (Pipeline.run_part_a env self vector_store_id
                (company_name self ++ "_quotes") w4) as [r w'].
    cbn [fst snd] in *. subst r. reflexivity.
  - apply (extends_trans _ w w4).
    + pose proof (run_until_part_a_emits env self w) as E.
      now rewrite Hreach in E.
    + apply run_part_a_emits.
Qed.



(** A Drive client that raises makes the upload return [False]. *)
Lemma upload_final_report_to_gdrive_failure report_path w msg :
  drive env = DriveRaises msg ->
  fst (Pipeline.upload_final_report_to_gdrive env report_path w) = Ret false.
Proof.
  intros H. unfold Pipeline.upload_final_report_to_gdrive, try_except.
  unfold bind at 1. rewrite emit_record.
  destruct (google_api_import_error env); [ reflexivity | ].
  destruct (gdrive_credentials_exist env); [ | reflexivity ].
  rewrite H. reflexivity.
Qed.

End Sequencer.

(** A run that reaches Part A with a vector-store id, and whose Part A
    command exits with code 1. *)
Lemma part_a_failure_halts_run_witness :
  Pipeline.run Scenario.part_a_fails_env Scenario.acme
    (Scenario.start Scenario.empty_disk)
  = (Ret false,
     snd (Pipeline.run_part_a Scenario.part_a_fails_env Scenario.acme
            (Some "vs_abc123") "Acme Corp_quotes"
            (snd (Pipeline.run_until_part_a Scenario.part_a_fails_env Scenario.acme
                    (Scenario.start Scenario.empty_disk)))))
  /\ extends earlier_stage_event (Scenario.start Scenario.empty_disk)
       (snd (Pipeline.run_part_a Scenario.part_a_fails_env Scenario.acme
               (Some "vs_abc123") "Acme Corp_quotes"
               (snd (Pipeline.run_until_part_a Scenario.part_a_fails_env Scenario.acme
                       (Scenario.start Scenario.empty_disk))))).
Proof.
  refine (part_a_failure_halts_run Scenario.part_a_fails_env Scenario.acme
            (Scenario.start Scenario.empty_disk) 1741944360%Z (Some "vs_abc123")
            (snd (Pipeline.run_until_part_a Scenario.part_a_fails_env Scenario.acme
                    (Scenario.start Scenario.empty_disk)))
            1%Z "Traceback"
            (snd (run_command Scenario.part_a_fails_env part_a_command None 7200
                    (record [Step 50 10 "Running Part A analysis"]
                       (snd (Pipeline.run_until_part_a Scenario.part_a_fails_env
                               Scenario.acme (Scenario.start Scenario.empty_disk))))))
            _ _ _).
  - vm_compute. reflexivity.
  - vm_compute. reflexivity.
  - left. discriminate.
Defined.

(** ** Soft failures *)



(** ** Slugs *)

Section Slugs.

Lemma string_forall_append p s1 s2 :
  string_forall p (s1 ++ s2) = string_forall p s1 && string_forall p s2.
Proof.
  induction s1 as [ | c s1 IH ]; cbn; [ reflexivity | ].
  now rewrite IH, andb_assoc.
Qed.

Lemma reverse_cons c s : Py.reverse (String c s) = Py.reverse s ++ String c "".
Proof. exact (reverse_append (String c "") s). Qed.

Lemma reverse_involutive s : Py.reverse (Py.reverse s) = s.
Proof.
  induction s as [ | c s IH ]; [ reflexivity | ].
  rewrite reverse_cons, reverse_append, IH. reflexivity.
Qed.

Lemma string_forall_reverse p s : string_forall p (Py.reverse s) = string_forall p s.
Proof.
  induction s as [ | c s IH ]; [ reflexivity | ].
  rewrite reverse_cons, string_forall_append, IH. cbn.
  now rewrite andb_true_r, andb_comm.
Qed.

Lemma lstrip_with_all p s : string_forall p s = true -> Py.lstrip_with p s = "".
Proof.
  induction s as [ | c s IH ]; cbn; [ reflexivity | ].
  intros H. apply andb_true_iff in H. destruct H as [Hc Hs]. now rewrite Hc, IH.
Qed.

Lemma lstrip_with_append p s1 s2 :
  Py.lstrip_with p (s1 ++ s2)
  = if string_forall p s1 then Py.lstrip_with p s2 else Py.lstrip_with p s1 ++ s2.
Proof.
  induction s1 as [ | c s1 IH ]; cbn [append string_forall Py.lstrip_with andb].
  - reflexivity.
  - destruct (p c); cbn [andb]; [ exact IH | reflexivity ].
Qed.

Lemma rstrip_structural_empty p s :
  rstrip_structural p s = "" <-> string_forall p s = true.
Proof.
  induction s as [ | c s IH ]; cbn; [ tauto | ].
  destruct (rstrip_structural p s) as [ | c' r ] eqn:E; cbn.
  - destruct IH as [IH _]. rewrite (IH eq_refl), andb_true_r.
    destruct (p c); split; congruence.
  - split; [ discriminate | ].
    intros H. apply andb_true_iff in H. destruct H as [_ H].
    destruct IH as [_ IH]. specialize (IH H). discriminate.
Qed.

(** [rstrip_with], which goes through the reversed string, is the
    structural stripping. *)
Lemma rstrip_with_structural p s : Py.rstrip_with p s = rstrip_structural p s.
Proof.
  unfold Py.rstrip_with. induction s as [ | c s IH ]; [ reflexivity | ].
  rewrite reverse_cons, lstrip_with_append, string_forall_reverse.
  cbn [rstrip_structural].
  destruct (string_forall p s) eqn:A.
  - apply rstrip_structural_empty in A. rewrite A. cbn.
    destruct (p c); reflexivity.
  - rewrite reverse_append, IH. cbn.
    destruct (rstrip_structural p s) eqn:E; [ | reflexivity ].
    apply rstrip_structural_empty in E. congruence.
Qed.

Lemma is_alnum_not_underscore c : Py.is_alnum c = true -> Storage.is_underscore c = false.
Proof.
  intros H. unfold Storage.is_underscore.
  destruct (Ascii.eqb_spec c "_"%char) as [-> | ]; [ discriminate | reflexivity ].
Qed.

(** What [re.sub] leaves: alphanumeric runs separated by single
    underscores, possibly with one at either end. *)
Lemma sub_non_alnum_shape in_run s :
  underscore_separated Py.is_alnum true in_run (Storage.sub_non_alnum in_run s) = true.
Proof.
  revert in_run. induction s as [ | c s IH ]; intros in_run; [ reflexivity | ].
  cbn [Storage.sub_non_alnum]. destruct (Py.is_alnum c) eqn:A.
  - cbn [underscore_separated]. now rewrite (is_alnum_not_underscore c A), A, IH.
  - destruct in_run; [ apply IH | ].
    cbn [underscore_separated]. change (Storage.is_underscore "_"%char) with true.
    cbn. apply IH.
Qed.

Lemma lstrip_underscores_shape ok prev s :
  underscore_separated ok true prev s = true ->
  underscore_separated ok true true (Py.lstrip_with Storage.is_underscore s) = true.
Proof.
  destruct s as [ | c s ]; intros H; [ reflexivity | ].
  cbn [underscore_separated Py.lstrip_with] in *.
  destruct (Storage.is_underscore c) eqn:U.
  - apply andb_true_iff in H. destruct H as [_ H].
    destruct s as [ | c' s ]; [ reflexivity | ].
    cbn [underscore_separated Py.lstrip_with] in *.
    destruct (Storage.is_underscore c') eqn:U'; [ discriminate | ].
    cbn [underscore_separated]. now rewrite U'.
  - cbn [underscore_separated]. now rewrite U.
Qed.

Lemma rstrip_underscores_shape ok prev s :
  underscore_separated ok true prev s = true ->
  rstrip_structural Storage.is_underscore s = ""
  \/ underscore_separated ok false prev (rstrip_structural Storage.is_underscore s) = true.
Proof.
  revert prev. induction s as [ | c s IH ]; intros prev H; [ now left | ].
  cbn [underscore_separated rstrip_structural] in *.
  destruct (Storage.is_underscore c) eqn:U.
  - apply andb_true_iff in H. destruct H as [Hp H].
    destruct (IH true H) as [E | S].
    + rewrite E. now left.
    + destruct (Py.is_empty (rstrip_structural Storage.is_underscore s)) eqn:E;
        cbn [andb]; [ now left | ].
      right. cbn [underscore_separated]. now rewrite U, Hp, S.
  - apply andb_true_iff in H. destruct H as [Hc H]. rewrite andb_false_r. right.
    cbn [underscore_separated]. rewrite U, Hc.
    destruct (IH false H) as [E | S]; [ now rewrite E | exact S ].
Qed.

Lemma lower_char_underscore c :
  Storage.is_underscore (Storage.lower_char c) = Storage.is_underscore c.
Proof.
  destruct c as [[|] [|] [|] [|] [|] [|] [|] [|]]; reflexivity.
Qed.

Lemma lower_char_alnum c :
  Py.is_alnum c = true -> is_lower_or_digit (Storage.lower_char c) = true.
Proof.
  destruct c as [[|] [|] [|] [|] [|] [|] [|] [|]]; vm_compute; congruence.
Qed.

Lemma lower_shape open prev s :
  underscore_separated Py.is_alnum open prev s = true ->
  underscore_separated is_lower_or_digit open prev (Storage.lower s) = true.
Proof.
  revert prev. induction s as [ | c s IH ]; intros prev H; [ exact H | ].
  cbn [Storage.lower underscore_separated] in *. rewrite lower_char_underscore.
  destruct (Storage.is_underscore c).
  - apply andb_true_iff in H. destruct H as [-> H]. now rewrite IH.
  - apply andb_true_iff in H. destruct H as [A H]. now rewrite lower_char_alnum, IH.
Qed.

Lemma slug_chars ok open prev s :
  underscore_separated ok open prev s = true ->
  string_forall (fun c => ok c || Storage.is_underscore c) s = true.
Proof.
  revert prev. induction s as [ | c s IH ]; intros prev H; [ reflexivity | ].
  cbn [underscore_separated string_forall] in *.
  destruct (Storage.is_underscore c).
  - apply andb_true_iff in H. destruct H as [_ H]. rewrite orb_true_r. now apply IH in H.
  - apply andb_true_iff in H. destruct H as [-> H]. now apply IH in H.
Qed.

Lemma slugify_is_slug name : is_slug (Storage._slugify name) = true.
Proof.
  unfold Storage._slugify, Storage.strip_underscores, is_slug.
  rewrite rstrip_with_structural.
  pose proof (sub_non_alnum_shape false name) as H.
  apply lstrip_underscores_shape in H.
  apply rstrip_underscores_shape in H. destruct H as [E | H].
  - rewrite E. reflexivity.
  - apply lower_shape in H. rewrite H. apply orb_true_r.
Qed.

(** X1: whatever the company name, its slug is empty or made of words
    over [a-z0-9] joined by single underscores: only the characters
    [a-z0-9_] occur, and no underscore stands first, last or next to
    another one. *)
Theorem slugify_gives_a_slug name :
  is_slug (Storage._slugify name) = true
  /\ string_forall is_slug_char (Storage._slugify name) = true.
Proof.
  pose proof (slugify_is_slug name) as S.
  split; [ exact S | ].
  unfold is_slug in S. apply orb_true_iff in S. destruct S as [E | S].
  - destruct (Storage._slugify name); [ reflexivity | discriminate ].
  - exact (slug_chars _ _ _ _ S).
Qed.

Lemma is_lower_or_digit_alnum c : is_lower_or_digit c = true -> Py.is_alnum c = true.
Proof.
  destruct c as [[|] [|] [|] [|] [|] [|] [|] [|]]; vm_compute; congruence.
Qed.

Lemma is_lower_or_digit_lower c :
  is_lower_or_digit c = true -> Storage.lower_char c = c.
Proof.
  destruct c as [[|] [|] [|] [|] [|] [|] [|] [|]]; vm_compute; congruence.
Qed.

Lemma is_underscore_eq c : Storage.is_underscore c = true -> c = "_"%char.
Proof. unfold Storage.is_underscore. now destruct (Ascii.eqb_spec c "_"%char). Qed.

Lemma slug_sub_non_alnum prev in_run s :
  underscore_separated is_lower_or_digit false prev s = true ->
  prev = true \/ in_run = false ->
  Storage.sub_non_alnum in_run s = s.
Proof.
  revert prev in_run. induction s as [ | c s IH ]; intros prev in_run H Hf; [ reflexivity | ].
  cbn [underscore_separated Storage.sub_non_alnum] in *.
  destruct (Storage.is_underscore c) eqn:U.
  - apply andb_true_iff in H. destruct H as [Hp H].
    apply negb_true_iff in Hp. subst prev. destruct Hf as [ | -> ]; [ discriminate | ].
    apply is_underscore_eq in U. subst c.
    change (Py.is_alnum "_"%char) with false. cbv iota.
    f_equal. apply (IH true true H). now left.
  - apply andb_true_iff in H. destruct H as [Hc H].
    rewrite (is_lower_or_digit_alnum c Hc). f_equal.
    apply (IH false false H). now right.
Qed.

Lemma slug_lstrip s :
  underscore_separated is_lower_or_digit false true s = true ->
  Py.lstrip_with Storage.is_underscore s = s.
Proof.
  destruct s as [ | c s ]; [ reflexivity | ]. cbn.
  destruct (Storage.is_underscore c); [ discriminate | reflexivity ].
Qed.

Lemma slug_rstrip prev s :
  underscore_separated is_lower_or_digit false prev s = true ->
  rstrip_structural Storage.is_underscore s = s.
Proof.
  revert prev. induction s as [ | c s IH ]; intros prev H; [ reflexivity | ].
  cbn [underscore_separated rstrip_structural] in *.
  destruct (Storage.is_underscore c) eqn:U.
  - apply andb_true_iff in H. destruct H as [_ H]. rewrite (IH true H).
    destruct s; [ discriminate | reflexivity ].
  - apply andb_true_iff in H. destruct H as [_ H]. rewrite (IH false H).
    now rewrite andb_false_r.
Qed.

Lemma slug_lower prev s :
  underscore_separated is_lower_or_digit false prev s = true ->
  Storage.lower s = s.
Proof.
  revert prev. induction s as [ | c s IH ]; intros prev H; [ reflexivity | ].
  cbn [underscore_separated Storage.lower] in *.
  destruct (Storage.is_underscore c) eqn:U.
  - apply andb_true_iff in H. destruct H as [_ H]. rewrite (IH true H).
    apply is_underscore_eq in U. now subst c.
  - apply andb_true_iff in H. destruct H as [Hc H].
    now rewrite (IH false H), is_lower_or_digit_lower.
Qed.

Lemma slugify_fixes_slugs s : is_slug s = true -> Storage._slugify s = s.
Proof.
  unfold is_slug. intros H. apply orb_true_iff in H. destruct H as [E | H].
  - destruct s; [ reflexivity | discriminate ].
  - unfold Storage._slugify, Storage.strip_underscores.
    rewrite (slug_sub_non_alnum true false s H (or_introl eq_refl)).
    rewrite (slug_lstrip s H), rstrip_with_structural, (slug_rstrip true s H).
    exact (slug_lower true s H).
Qed.

(** X2: slugifying is idempotent: the slug of a slug is that slug, so a
    storage opened on a slug works in the directory of the company the
    slug came from. *)
Theorem slugify_idempotent name :
  Storage._slugify (Storage._slugify name) = Storage._slugify name
  /\ company_slug (Storage.init (Storage._slugify name) true)
     = company_slug (Storage.init name true).
Proof.
  assert (H : Storage._slugify (Storage._slugify name) = Storage._slugify name)
    by (apply slugify_fixes_slugs; apply slugify_is_slug).
  split; [ exact H | exact H ].
Qed.

End Slugs.

(** ** StorageLayout: Part A drafts *)

Section DraftFacts.

Variable st : CloudStorage.

Lemma lookup_unlink_other {A} nm nm' (d : directory A) :
  nm' <> nm -> Fs.lookup nm' (Fs.unlink nm d) = Fs.lookup nm' d.
Proof.
  intros N. unfold Fs.lookup, Fs.unlink. induction d as [ | f d IH ]; [ reflexivity | ].
  cbn [filter find]. destruct (String.eqb_spec (name f) nm) as [E | E]; cbn [negb find].
  - rewrite E. destruct (String.eqb_spec nm nm'); [ congruence | exact IH ].
  - destruct (String.eqb (name f) nm'); [ reflexivity | exact IH ].
Qed.

Lemma exists_in {A} (d : directory A) f : In f d -> Fs.exists_ (name f) d = true.
Proof.
  intros H. unfold Fs.exists_.
  destruct (Fs.lookup (name f) d) eqn:E; [ reflexivity | ].
  exfalso. now apply (proj1 (lookup_none_iff _ _) E f H).
Qed.

Lemma sort_newest_first_in {A} (d : directory A) newest rest :
  Fs.sort_newest_first d = newest :: rest -> In newest d.
Proof.
  intros H. destruct (sort_newest_first_head d newest rest H) as [b [a [E _]]].
  rewrite E. apply in_or_app. right. now left.
Qed.


(** X3: the artifact check of Part A passes exactly when the pointer
    entry exists or at least one timestamped draft is in the directory:
    a path that [get_latest_part_a_draft] returns always exists. *)
Theorem latest_part_a_draft_exists (d : directory string) :
  (forall p, Storage.get_latest_part_a_draft st d = Some p -> Fs.exists_ p d = true)
  /\ (part_a_draft_present st d = true
      <-> Fs.exists_ (Drafts.latest_link st) d = true
          \/ Fs.glob ("report_draft_" ++ company_slug st ++ "_") ".md" d <> []).
Proof.
  assert (R : forall p, Storage.get_latest_part_a_draft st d = Some p ->
                        Fs.exists_ p d = true).
  { intros p. unfold Storage.get_latest_part_a_draft.
    destruct (Fs.exists_ ("report_draft_latest_" ++ company_slug st ++ ".md") d) eqn:E.
    - intros H. injection H as <-. exact E.
    - destruct (Fs.sort_newest_first _) as [ | newest rest ] eqn:S; [ discriminate | ].
      intros H. injection H as <-. apply sort_newest_first_in in S.
      apply in_glob in S. apply exists_in. apply S. }
  split; [ exact R | ].
  unfold part_a_draft_present.
  destruct (Storage.get_latest_part_a_draft st d) as [p | ] eqn:G.
  - rewrite (R p eq_refl). split; [ intros _ | reflexivity ].
    unfold Storage.get_latest_part_a_draft, Drafts.latest_link in *.
    destruct (Fs.exists_ ("report_draft_latest_" ++ company_slug st ++ ".md") d);
      [ now left | right ].
    intros E. rewrite E in G. discriminate.
  - split; [ discriminate | ].
    unfold Storage.get_latest_part_a_draft, Drafts.latest_link in *.
    destruct (Fs.exists_ ("report_draft_latest_" ++ company_slug st ++ ".md") d);
      [ discriminate | ].
    intros [H | H]; [ discriminate | ].
    destruct (Fs.sort_newest_first _) eqn:S; [ | discriminate ].
    apply sort_newest_first_nil in S. contradiction.
Qed.

(** X4: the resolution order of the latest Part A draft.  An existing
    pointer entry is returned whatever drafts stand beside it; without it,
    as soon as one timestamped draft is in the directory, a draft IS
    returned, and it is one with the greatest modification time among the
    matching drafts; without the pointer and without drafts the result is
    [None]. *)
Theorem latest_part_a_draft_resolution (d : directory string) :
  (Fs.exists_ (Drafts.latest_link st) d = true ->
   Storage.get_latest_part_a_draft st d = Some (Drafts.latest_link st))
  /\ (Fs.exists_ (Drafts.latest_link st) d = false ->
      Fs.glob ("report_draft_" ++ company_slug st ++ "_") ".md" d <> [] ->
      exists f,
        In f (Fs.glob ("report_draft_" ++ company_slug st ++ "_") ".md" d)
        /\ Storage.get_latest_part_a_draft st d = Some (name f)
        /\ forall g, In g (Fs.glob ("report_draft_" ++ company_slug st ++ "_") ".md" d) ->
                     (mtime g <= mtime f)%Z)
  /\ (Fs.exists_ (Drafts.latest_link st) d = false ->
      Fs.glob ("report_draft_" ++ company_slug st ++ "_") ".md" d = [] ->
      Storage.get_latest_part_a_draft st d = None).
Proof.
  unfold Storage.get_latest_part_a_draft, Drafts.latest_link.
  split; [ | split ].
  - intros E. now rewrite E.
  - intros E N. rewrite E.
    destruct (Fs.sort_newest_first
                (Fs.glob ("report_draft_" ++ company_slug st ++ "_") ".md" d))
      as [ | newest rest ] eqn:S.
    + apply sort_newest_first_nil in S. contradiction.
    + exists newest.
      destruct (sort_newest_first_head _ _ _ S) as [before [after [Ed [Hb Ha]]]].
      split; [ now apply (sort_newest_first_in _ _ rest) | ]. split; [ reflexivity | ].
      intros g Hg. rewrite Ed in Hg. apply in_app_or in Hg.
      destruct Hg as [Hg | [<- | Hg]]; [ specialize (Hb g Hg) | | specialize (Ha g Hg) ]; lia.
  - intros E G. now rewrite E, G.
Qed.


End DraftFacts.

(** ** Finalize and the reports it writes *)

Section FinalizeFacts.

Variable st : CloudStorage.

Lemma glob_write_unmatched {A} pre suf nm mt (c : A) (d : directory A) :
  Fs.fnmatch pre suf nm = false ->
  Fs.glob pre suf (Fs.write nm mt c d) = Fs.glob pre suf d.
Proof.
  intros H. induction d as [ | f d IH ].
  - cbn [Fs.write]. rewrite glob_cons. cbn [name]. now rewrite H.
  - cbn [Fs.write]. destruct (String.eqb_spec (name f) nm) as [E | E].
    + rewrite !glob_cons. cbn [name]. now rewrite E, H.
    + rewrite !glob_cons, IH. reflexivity.
Qed.

Lemma prefix_head a p b s : String.prefix (String a p) (String b s) = true -> a = b.
Proof. cbn. destruct (ascii_dec a b); [ auto | discriminate ]. Qed.

Lemma final_candidates_write nm mt c (d : directory string) :
  Py.startswith "FINAL_REPORT_" nm = true ->
  Pipeline.final_candidates (Fs.write nm mt c d) = Pipeline.final_candidates d.
Proof.
  intros H. unfold Pipeline.final_candidates.
  assert (U : forall pre suf, Py.startswith "f" pre = true ->
                              Fs.fnmatch pre suf nm = false).
  { intros pre suf Hp. unfold Fs.fnmatch.
    destruct (Py.startswith pre nm) eqn:E; [ | reflexivity ].
    exfalso. destruct nm as [ | c0 nm ]; [ discriminate | ].
    destruct pre as [ | p0 pre ]; [ discriminate | ].
    apply prefix_head in H, Hp, E. subst. discriminate. }
  rewrite !glob_write_unmatched by (apply U; reflexivity). reflexivity.
Qed.

(** X6: saving a final report never changes what [finalize_report] chooses
    from: the reports it writes are named [FINAL_REPORT_...] and match
    none of the three candidate patterns, so finalizing again selects
    among the same candidates. *)
Theorem saved_final_report_is_no_candidate now mt content (d : directory string) :
  Pipeline.final_candidates (fst (Storage.save_final_report st now mt content d))
  = Pipeline.final_candidates d.
Proof.
  unfold Storage.save_final_report. cbn [fst].
  rewrite !final_candidates_write by apply prefix_append. reflexivity.
Qed.

End FinalizeFacts.

(** ** The newest entry after a write *)

Section NewestAfterWrite.

Lemma newest_after_write {A} pre suf nm mt (c : A) (d : directory A) :
  Fs.fnmatch pre suf nm = true ->
  (forall f, In f (Fs.glob pre suf d) -> (mtime f < mt)%Z) ->
  exists rest,
    Fs.sort_newest_first (Fs.glob pre suf (Fs.write nm mt c d)) = File nm mt c :: rest.
Proof.
  intros Hm Hold. apply sort_newest_first_strict.
  - apply in_glob. split; [ apply in_write_new | exact Hm ].
  - intros f Hf. apply in_glob in Hf. destruct Hf as [Hf Hfm].
    apply in_write in Hf. destruct Hf as [-> | Hf]; [ now left | right ].
    apply Hold. apply in_glob. now split.
Qed.

End NewestAfterWrite.

Section FinalizeThenLatest.

Variable env : Env.
Variable self : CloudPipeline.

Lemma save_final_report_writes st s (d : directory string) :
  fst (Storage.save_final_report st (saved_at s) (stamped s) (body s) d)
  = Fs.write (ready_name st s) (stamped s)
      (Storage.path_join (Storage.final_dir_path st) (artifact_name st s)
       ++ String "010"%char EmptyString)
      (Fs.write (artifact_name st s) (stamped s) (body s) d).
Proof. reflexivity. Qed.

(** X7: the report [finalize_report] returns is the one
    [get_latest_final_report] finds afterwards, provided the filesystem
    stamps it newer than the final reports already in the directory. *)
Theorem finalized_report_is_latest w latest rest :
  Fs.sort_newest_first (Pipeline.final_candidates (final_dir (disk w))) = latest :: rest ->
  (forall f,
      In f (Fs.glob ("FINAL_REPORT_" ++ company_slug (storage self) ++ "_") ".md"
              (final_dir (disk w))) ->
      (mtime f < fs_time env (ticks w))%Z) ->
  exists report w',
    Pipeline.finalize_report env self w = (Ret (Some report), w')
    /\ Storage.get_latest_final_report (storage self) (final_dir (disk w')) = Some report.
Proof.
  intros Hsort Hold.
  destruct (finalize_report_saves env self w latest rest Hsort) as [w' [Hrun Hdir]].
  pose (s := FinalSave (utcnow env (ticks w)) (fs_time env (ticks w)) (Fs.text_of latest)).
  exists (artifact_name (storage self) s), w'. split; [ exact Hrun | ].
  change (final_dir (disk w')
          = fst (Storage.save_final_report (storage self) (saved_at s) (stamped s)
                   (body s) (final_dir (disk w)))) in Hdir.
  rewrite Hdir, save_final_report_writes.
  unfold Storage.get_latest_final_report.
  rewrite (glob_write_unmatched _ _ (ready_name (storage self) s) _ _ _
             (ready_does_not_match (storage self) s)).
  destruct (newest_after_write ("FINAL_REPORT_" ++ company_slug (storage self) ++ "_")
              ".md" (artifact_name (storage self) s) (stamped s)
              (body s) (final_dir (disk w))
              (artifact_matches (storage self) s) Hold) as [others Hs].
  rewrite Hs. reflexivity.
Qed.

End FinalizeThenLatest.

(** The directory with two candidate reports and no final report yet. *)
Lemma finalized_report_is_latest_witness :
  exists report w',
    Pipeline.finalize_report Scenario.soft_failures_env Scenario.acme
      (Scenario.start Scenario.two_reports_disk) = (Ret (Some report), w')
    /\ Storage.get_latest_final_report (storage Scenario.acme) (final_dir (disk w'))
       = Some report.
Proof.
  apply (finalized_report_is_latest Scenario.soft_failures_env Scenario.acme
           (Scenario.start Scenario.two_reports_disk)
           Scenario.consolidated_report [Scenario.dual_report]).
  - reflexivity.
  - intros f [].
Defined.

(** ** ProcessRunner: what holds of every call *)

Section ProcessRunnerMore.

Variable env : Env.

(** X8: [run_command] never lets an exception out.  A launch that raises
    and a read that raises are both returned as exit code 1 with the
    description of the exception as output, and the failure is logged. *)
Theorem run_command_captures_exceptions cmd cwd timeout w :
  (forall e, fst (run_command env cmd cwd timeout w) <> Raise e)
  /\ (forall msg k,
        exec env (calls w) cmd cwd (disk w) = (LaunchFails msg, k) ->
        fst (run_command env cmd cwd timeout w) = Ret (1%Z, msg)
        /\ In (Error ("Command failed: " ++ msg))
             (trace (snd (run_command env cmd cwd timeout w))))
  /\ (forall c k msg,
        exec env (calls w) cmd cwd (disk w) = (Launched c, k) ->
        ending c = ReadFails msg ->
        fst (run_command env cmd cwd timeout w) = Ret (1%Z, msg)
        /\ In (Error ("Command failed: " ++ msg))
             (trace (snd (run_command env cmd cwd timeout w)))).
Proof.
  split; [ intros e; apply run_command_no_raise | ].
  pose proof (run_command_cases env cmd cwd timeout w) as R.
  split.
  - intros msg k H. rewrite H in R. cbv zeta in R. rewrite R. cbn [fst snd trace].
    split; [ reflexivity | ]. apply in_or_app. right. right. right. now left.
  - intros c k msg H E. rewrite H in R. cbv zeta in R. rewrite R, E. cbn [fst snd trace].
    split; [ reflexivity | ]. apply in_or_app. right. right. right.
    apply in_or_app. right. now left.
Qed.

(** X9: the timeout as the code applies it.  A child whose output has
    ended and that is still running [timeout] seconds later (or never
    exits) is killed and reported as [(1, "TIMEOUT")]; the kill happens in
    no other case. *)
Theorem run_command_timeout_after_output cmd cwd timeout w c k eof_at :
  exec env (calls w) cmd cwd (disk w) = (Launched c, k) ->
  ending c = Eof eof_at ->
  (match exits c with
   | Some (exit_at, _) => (eof_at + timeout < exit_at)%nat
   | None => True
   end ->
   fst (run_command env cmd cwd timeout w) = Ret (1%Z, "TIMEOUT"))
  /\ (~ In Kill (trace w) ->
      (In Kill (trace (snd (run_command env cmd cwd timeout w)))
       <-> match exits c with
           | Some (exit_at, _) => (eof_at + timeout < exit_at)%nat
           | None => True
           end)).
Proof.
  intros H E. pose proof (run_command_cases env cmd cwd timeout w) as R.
  rewrite H in R. cbv zeta in R. rewrite R, E.
  assert (P : forall ls, ~ In Kill (map Print ls)).
  { intros ls Hin. apply in_map_iff in Hin. destruct Hin as [x [Hx _]]. discriminate. }
  destruct (exits c) as [[exit_at code] | ].
  - destruct (Nat.leb_spec exit_at (eof_at + timeout)) as [L | L]; cbn [fst snd trace].
    + split; [ lia | ]. intros N. split; [ | lia ].
      intros Hin. exfalso. apply in_app_or in Hin. destruct Hin as [Hin | Hin]; [ auto | ].
      destruct Hin as [Hin | [Hin | Hin]]; try discriminate. now apply P in Hin.
    + split; [ reflexivity | ]. intros N. split; [ intros _; exact L | intros _ ].
      apply in_or_app. right. right. right. apply in_or_app. right. now left.
  - cbn [fst snd trace]. split; [ reflexivity | ]. intros N. split; [ auto | intros _ ].
    apply in_or_app. right. right. right. apply in_or_app. right. now left.
Qed.

End ProcessRunnerMore.

(** A child that closes its output and never exits: killed after the
    timeout. *)
Lemma run_command_timeout_after_output_witness :
  fst (run_command Scenario.detached_env "server > /dev/null" None 5
         (Scenario.start Scenario.empty_disk)) = Ret (1%Z, "TIMEOUT")
  /\ In Kill (trace (snd (run_command Scenario.detached_env "server > /dev/null" None 5
                            (Scenario.start Scenario.empty_disk)))).
Proof.
  destruct (run_command_timeout_after_output Scenario.detached_env
              "server > /dev/null" None 5 (Scenario.start Scenario.empty_disk)
              (Child [] (Eof 0) None) Scenario.empty_disk 0 eq_refl eq_refl) as [T K].
  split; [ exact (T I) | ].
  apply K; [ intros [] | exact I ].
Defined.

(** ** The vector-store stage *)

Section SearchFacts.

Lemma prefix_split p s : String.prefix p s = true -> s = p ++ Py.drop (String.length p) s.
Proof.
  revert s. induction p as [ | a p IH ]; intros s H; [ reflexivity | ].
  destruct s as [ | b s ]; [ discriminate | ].
  pose proof (prefix_head _ _ _ _ H) as ->. cbn in H.
  destruct (ascii_dec b b); [ | congruence ].
  cbn. f_equal. now apply IH.
Qed.

Lemma take_while_prefix p s : String.prefix (Py.take_while p s) s = true.
Proof.
  induction s as [ | c s IH ]; [ reflexivity | ]. cbn.
  destruct (p c); [ | reflexivity ]. cbn.
  destruct (ascii_dec c c); [ exact IH | congruence ].
Qed.

Lemma take_while_forall p s : string_forall p (Py.take_while p s) = true.
Proof.
  induction s as [ | c s IH ]; [ reflexivity | ]. cbn.
  destruct (p c) eqn:E; [ | reflexivity ]. cbn. now rewrite E, IH.
Qed.

Lemma prefix_append_same a b s :
  String.prefix (a ++ b) (a ++ s) = String.prefix b s.
Proof.
  induction a as [ | c a IH ]; [ reflexivity | ]. cbn.
  destruct (ascii_dec c c); [ exact IH | congruence ].
Qed.

Lemma contains_prefix r s : String.prefix r s = true -> Py.contains r s = true.
Proof. intros H. destruct s; cbn [Py.contains]; now rewrite H. Qed.

Lemma contains_cons r c s : Py.contains r s = true -> Py.contains r (String c s) = true.
Proof.
  intros H. cbn [Py.contains]. destruct (String.prefix r (String c s)); [ reflexivity | exact H ].
Qed.

Lemma take_while_empty p s c :
  Py.take_while p s = "" -> p c = true -> String.prefix (String c "") s = false.
Proof.
  destruct s as [ | a s ]; [ reflexivity | ]. cbn.
  destruct (p a) eqn:E; [ discriminate | ]. intros _ Hc.
  destruct (ascii_dec c a) as [-> | ]; [ congruence | reflexivity ].
Qed.

Lemma search_vector_id_cons c s :
  Pipeline.search_vector_id (String c s)
  = if Py.startswith "vs_" (String c s)
       && negb (Py.is_empty (Py.take_while Py.is_alnum (Py.drop 3 (String c s))))
    then Some ("vs_" ++ Py.take_while Py.is_alnum (Py.drop 3 (String c s)))
    else Pipeline.search_vector_id s.
Proof. reflexivity. Qed.

Lemma prefix_vs_run s :
  Py.startswith "vs_" s = true ->
  String.prefix ("vs_" ++ Py.take_while Py.is_alnum (Py.drop 3 s)) s = true.
Proof.
  intros P. unfold Py.startswith in P.
  pose proof (prefix_split _ _ P) as E. change (String.length "vs_") with 3 in E.
  transitivity
    (String.prefix ("vs_" ++ Py.take_while Py.is_alnum (Py.drop 3 s)) ("vs_" ++ Py.drop 3 s)).
  - now rewrite <- E.
  - rewrite prefix_append_same. apply take_while_prefix.
Qed.

Lemma search_vector_id_sound s r :
  Pipeline.search_vector_id s = Some r ->
  exists t,
    r = "vs_" ++ t /\ Py.is_empty t = false
    /\ string_forall Py.is_alnum t = true /\ Py.contains r s = true.
Proof.
  revert r. induction s as [ | c s IH ]; intros r; [ discriminate | ].
  rewrite search_vector_id_cons.
  destruct (Py.startswith "vs_" (String c s)) eqn:P; cbn [andb].
  - destruct (Py.is_empty (Py.take_while Py.is_alnum (Py.drop 3 (String c s)))) eqn:N;
      cbn [negb].
    + intros H. destruct (IH r H) as [t (E1 & E2 & E3 & E4)].
      exists t. repeat split; auto. now apply contains_cons.
    + intros H. injection H as <-.
      exists (Py.take_while Py.is_alnum (Py.drop 3 (String c s))).
      split; [ reflexivity | ]. split; [ exact N | ]. split; [ apply take_while_forall | ].
      apply contains_prefix. exact (prefix_vs_run (String c s) P).
  - intros H. destruct (IH r H) as [t (E1 & E2 & E3 & E4)].
    exists t. repeat split; auto. now apply contains_cons.
Qed.

Lemma prefix_vs_char s c :
  Py.startswith "vs_" s = true ->
  Py.take_while Py.is_alnum (Py.drop 3 s) = "" ->
  Py.is_alnum c = true ->
  String.prefix ("vs_" ++ String c "") s = false.
Proof.
  intros P N Hc. unfold Py.startswith in P.
  pose proof (prefix_split _ _ P) as E. change (String.length "vs_") with 3 in E.
  transitivity (String.prefix ("vs_" ++ String c "") ("vs_" ++ Py.drop 3 s)).
  - now rewrite <- E.
  - rewrite prefix_append_same. now apply (take_while_empty Py.is_alnum).
Qed.

Lemma search_vector_id_complete s c :
  Pipeline.search_vector_id s = None ->
  Py.is_alnum c = true ->
  Py.contains ("vs_" ++ String c "") s = false.
Proof.
  intros H Hc. induction s as [ | a s IH ]; [ reflexivity | ].
  rewrite search_vector_id_cons in H.
  assert (F : String.prefix ("vs_" ++ String c "") (String a s) = false
              /\ Pipeline.search_vector_id s = None).
  { destruct (Py.startswith "vs_" (String a s)) eqn:P; cbn [andb] in H.
    - destruct (Py.is_empty (Py.take_while Py.is_alnum (Py.drop 3 (String a s)))) eqn:N;
        cbn [negb] in H; [ | discriminate ].
      split; [ | exact H ].
      apply prefix_vs_char; [ exact P | | exact Hc ].
      destruct (Py.take_while Py.is_alnum (Py.drop 3 (String a s)));
        [ reflexivity | discriminate ].
    - split; [ | exact H ].
      destruct (String.prefix ("vs_" ++ String c "") (String a s)) eqn:F; [ | reflexivity ].
      apply prefix_append_l in F. unfold Py.startswith in P. congruence. }
  destruct F as [F H']. cbn [Py.contains]. rewrite F. now apply IH.
Qed.

(** X10: the search for a vector-store id in the output of the upload
    command.  What is found is [vs_] followed by one or more characters of
    [a-zA-Z0-9] and stands in the output as it is; nothing is found only
    when the output nowhere has [vs_] followed by such a character. *)
Theorem search_vector_id_finds_tokens output :
  (forall found,
      Pipeline.search_vector_id output = Some found ->
      exists t,
        found = "vs_" ++ t /\ Py.is_empty t = false
        /\ string_forall Py.is_alnum t = true /\ Py.contains found output = true)
  /\ (Pipeline.search_vector_id output = None ->
      forall c, Py.is_alnum c = true ->
                Py.contains ("vs_" ++ String c "") output = false).
Proof.
  split.
  - intros found. apply search_vector_id_sound.
  - intros H c. now apply search_vector_id_complete.
Qed.

End SearchFacts.

Section VectorStage.

Variable env : Env.
Variable self : CloudPipeline.

(** [upload_to_vector_store] once its command has returned. *)
Lemma upload_to_vector_store_cases w code out w1 :
  run_command env (upload_command (storage self)) None 3600
    (record [Step 20 10 "Uploading to vector store"] w) = (Ret (code, out), w1) ->
  Pipeline.upload_to_vector_store env self w
  = if negb (code =? 0)%Z then (Ret None, record [Error "Vector store upload failed"] w1)
    else
      match Storage.get_latest_vector_store_id (vector_ids_dir (disk w1)) with
      | Raise e => (Raise e, w1)
      | Hang => (Hang, w1)
      | Ret stored =>
          if Pipeline.truthy stored
          then (Ret stored,
                record [Success ("Vector store created: "
                                 ++ match stored with Some s => s | None => "" end)] w1)
          else
            match Pipeline.search_vector_id out with
            | Some found =>
                (Ret (Some found),
                 record [Success ("Vector store created: " ++ found)]
                   (after_vector_save env (storage self) found w1))
            | None =>
                (Ret None, record [Error "Could not determine vector store ID"] w1)
            end
      end.
Proof.
  intros Hrun. unfold upload_command in Hrun.
  unfold Pipeline.upload_to_vector_store. unfold bind at 1. rewrite emit_record.
  unfold bind at 1. rewrite Hrun.
  destruct (code =? 0)%Z; cbn [negb].
  - unfold bind at 1. cbn [get_disk]. unfold bind at 1. unfold Pipeline.lift.
    destruct (Storage.get_latest_vector_store_id (vector_ids_dir (disk w1)))
      as [stored | e | ]; [ | reflexivity | reflexivity ].
    destruct (Pipeline.truthy stored) eqn:T; cbn [negb].
    + unfold bind. cbn [ret]. rewrite T, emit_record. reflexivity.
    + destruct (Pipeline.search_vector_id out) as [found | ] eqn:S.
      * destruct (search_vector_id_sound out found S) as [t (-> & Et & _)].
        unfold bind, Pipeline.storage_save_vector_store_id, bind, tick, get_disk,
          put_disk, ret.
        unfold after_vector_save. cbn [disk trace calls ticks].
        destruct (Storage.save_vector_store_id (storage self) (utcnow env (ticks w1))
                    (fs_time env (ticks w1)) ("vs_" ++ t) (vector_ids_dir (disk w1)))
          as [d id_file].
        reflexivity.
      * unfold bind. cbn [ret]. rewrite T, emit_record. reflexivity.
  - unfold bind. rewrite emit_record. reflexivity.
Qed.

Lemma search_vector_id_truthy out found :
  Pipeline.search_vector_id out = Some found -> Pipeline.truthy (Some found) = true.
Proof.
  intros S. destruct (search_vector_id_sound out found S) as [t (-> & _)]. reflexivity.
Qed.

(** X11: [upload_to_vector_store] returns either [None] or an id that
    is not the empty string; an empty id read from the storage is never
    passed on. *)
Theorem upload_to_vector_store_result w v w' :
  Pipeline.upload_to_vector_store env self w = (Ret v, w') ->
  v = None \/ Pipeline.truthy v = true.
Proof.
  destruct (run_command env (upload_command (storage self)) None 3600
              (record [Step 20 10 "Uploading to vector store"] w))
    as [[[code out] | e | ] w1] eqn:Hrun.
  - rewrite (upload_to_vector_store_cases w code out w1 Hrun).
    destruct (negb (code =? 0)%Z); [ intros H; injection H as <- _; now left | ].
    destruct (Storage.get_latest_vector_store_id (vector_ids_dir (disk w1)))
      as [stored | e | ]; [ | discriminate | discriminate ].
    destruct (Pipeline.truthy stored) eqn:T.
    + intros H. injection H as <- _. now right.
    + destruct (Pipeline.search_vector_id out) as [found | ] eqn:S.
      * intros H. injection H as <- _. right. exact (search_vector_id_truthy out found S).
      * intros H. injection H as <- _. now left.
  - unfold Pipeline.upload_to_vector_store. unfold bind at 1. rewrite emit_record.
    unfold bind at 1. fold (upload_command (storage self)). rewrite Hrun. discriminate.
  - unfold Pipeline.upload_to_vector_store. unfold bind at 1. rewrite emit_record.
    unfold bind at 1. fold (upload_command (storage self)). rewrite Hrun. discriminate.
Qed.

(** X12: an id already in the storage wins over the output of the upload
    command.  When the command exits with 0 and the newest vector file
    holds a non-empty id, that id is returned, the output is not searched
    and nothing is written. *)
Theorem stored_vector_id_wins w out w1 stored :
  run_command env (upload_command (storage self)) None 3600
    (record [Step 20 10 "Uploading to vector store"] w) = (Ret (0%Z, out), w1) ->
  Storage.get_latest_vector_store_id (vector_ids_dir (disk w1)) = Ret (Some stored) ->
  Py.is_empty stored = false ->
  Pipeline.upload_to_vector_store env self w
  = (Ret (Some stored), record [Success ("Vector store created: " ++ stored)] w1).
Proof.
  intros Hrun Hget Hne.
  rewrite (upload_to_vector_store_cases w 0%Z out w1 Hrun), Hget.
  cbn [Z.eqb negb Pipeline.truthy]. now rewrite Hne.
Qed.

(** X13: an id found in the output is saved before it is returned.  When
    the command exits with 0, the storage has no id and the output holds
    one, that id is returned, and the storage then has it as its latest id
    (the file written being newer than the vector files already there). *)
Theorem extracted_vector_id_is_saved w out w1 found w' :
  run_command env (upload_command (storage self)) None 3600
    (record [Step 20 10 "Uploading to vector store"] w) = (Ret (0%Z, out), w1) ->
  Storage.get_latest_vector_store_id (vector_ids_dir (disk w1)) = Ret None ->
  Pipeline.search_vector_id out = Some found ->
  (forall f, In f (Fs.glob "vector_" ".json" (vector_ids_dir (disk w1))) ->
             (mtime f < fs_time env (ticks w1))%Z) ->
  Pipeline.upload_to_vector_store env self w = (Ret (Some found), w')
  -> Storage.get_latest_vector_store_id (vector_ids_dir (disk w')) = Ret (Some found).
Proof.
  intros Hrun Hget Hs Hold.
  rewrite (upload_to_vector_store_cases w 0%Z out w1 Hrun), Hget, Hs.
  cbn [Z.eqb negb Pipeline.truthy]. intros H. injection H as <-.
  cbn [record after_vector_save disk set_vector_ids_dir vector_ids_dir].
  unfold Storage.save_vector_store_id, Storage.get_latest_vector_store_id. cbn [fst].
  destruct (newest_after_write "vector_" ".json"
              ("vector_" ++ Clock.strftime "_" (utcnow env (ticks w1)) ++ ".json")
              (fs_time env (ticks w1))
              (Dict (Storage.vector_record (storage self) found
                       (Clock.strftime "_" (utcnow env (ticks w1)))))
              (vector_ids_dir (disk w1))
              (fnmatch_built "vector_" ".json" _) Hold) as [rest Hsort].
  rewrite Hsort. reflexivity.
Qed.

End VectorStage.


(** The upload command prints [created vs_abc123] and exits with 0; the
    storage holds no id yet. *)
Lemma upload_to_vector_store_result_witness :
  Pipeline.upload_to_vector_store Scenario.part_a_fails_env Scenario.acme
    (Scenario.start Scenario.empty_disk)
  = (Ret (Some "vs_abc123"),
     snd (Pipeline.upload_to_vector_store Scenario.part_a_fails_env Scenario.acme
            (Scenario.start Scenario.empty_disk)))
  /\ (Some "vs_abc123" = None \/ Pipeline.truthy (Some "vs_abc123") = true).
Proof.
  assert (H : Pipeline.upload_to_vector_store Scenario.part_a_fails_env Scenario.acme
                (Scenario.start Scenario.empty_disk)
              = (Ret (Some "vs_abc123"),
                 snd (Pipeline.upload_to_vector_store Scenario.part_a_fails_env
                        Scenario.acme (Scenario.start Scenario.empty_disk))))
    by (vm_compute; reflexivity).
  split; [ exact H | ].
  exact (upload_to_vector_store_result Scenario.part_a_fails_env Scenario.acme _ _ _ H).
Defined.

(** The same command run over a storage that already holds [vs_old]. *)
Lemma stored_vector_id_wins_witness :
  fst (Pipeline.upload_to_vector_store Scenario.part_a_fails_env Scenario.acme
         (Scenario.start (set_vector_ids_dir Scenario.old_vector_ids Scenario.empty_disk)))
  = Ret (Some "vs_old").
Proof.
  pose (w := Scenario.start (set_vector_ids_dir Scenario.old_vector_ids Scenario.empty_disk)).
  pose (r := run_command Scenario.part_a_fails_env
               (upload_command (storage Scenario.acme)) None 3600
               (record [Step 20 10 "Uploading to vector store"] w)).
  assert (Hrun : r = (Ret (0%Z, "created vs_abc123"), snd r)) by (vm_compute; reflexivity).
  assert (Hget : Storage.get_latest_vector_store_id (vector_ids_dir (disk (snd r)))
                 = Ret (Some "vs_old")) by (vm_compute; reflexivity).
  fold w.
  rewrite (stored_vector_id_wins Scenario.part_a_fails_env Scenario.acme w
             "created vs_abc123" (snd r) "vs_old" Hrun Hget eq_refl).
  reflexivity.
Defined.

(** The id printed by the command is the latest id of the storage after
    the stage. *)
Lemma extracted_vector_id_is_saved_witness :
  Storage.get_latest_vector_store_id
    (vector_ids_dir
       (disk (snd (Pipeline.upload_to_vector_store Scenario.part_a_fails_env Scenario.acme
                     (Scenario.start Scenario.empty_disk)))))
  = Ret (Some "vs_abc123").
Proof.
  pose (w := Scenario.start Scenario.empty_disk).
  pose (r := run_command Scenario.part_a_fails_env
               (upload_command (storage Scenario.acme)) None 3600
               (record [Step 20 10 "Uploading to vector store"] w)).
  assert (Hrun : r = (Ret (0%Z, "created vs_abc123"), snd r)) by (vm_compute; reflexivity).
  assert (Hget : Storage.get_latest_vector_store_id (vector_ids_dir (disk (snd r)))
                 = Ret None) by (vm_compute; reflexivity).
  assert (Hs : Pipeline.search_vector_id "created vs_abc123" = Some "vs_abc123")
    by (vm_compute; reflexivity).
  assert (Hold : forall f,
             In f (Fs.glob "vector_" ".json" (vector_ids_dir (disk (snd r)))) ->
             (mtime f < fs_time Scenario.part_a_fails_env (ticks (snd r)))%Z)
    by (intros f []).
  assert (H : Pipeline.upload_to_vector_store Scenario.part_a_fails_env Scenario.acme w
              = (Ret (Some "vs_abc123"),
                 snd (Pipeline.upload_to_vector_store Scenario.part_a_fails_env
                        Scenario.acme w)))
    by (vm_compute; reflexivity).
  exact (extracted_vector_id_is_saved Scenario.part_a_fails_env Scenario.acme w
           "created vs_abc123" (snd r) "vs_abc123" _ Hrun Hget Hs Hold H).
Defined.


(** ** Part B: how often the command is launched *)

Section EventCounts.

Lemma count_events_app p evs1 evs2 :
  count_events p (evs1 ++ evs2) = count_events p evs1 + count_events p evs2.
Proof. unfold count_events. now rewrite filter_app, length_app. Qed.

Lemma count_events_cons p ev evs :
  count_events p (ev :: evs) = (if p ev then 1 else 0) + count_events p evs.
Proof. unfold count_events. cbn [filter]. now destruct (p ev). Qed.

Lemma count_events_nil p : count_events p [] = 0.
Proof. reflexivity. Qed.

Lemma count_events_none p evs :
  forallb (fun ev => negb (p ev)) evs = true -> count_events p evs = 0.
Proof.
  induction evs as [ | ev evs IH ]; [ reflexivity | ].
  cbn [forallb]. intros H. apply andb_true_iff in H. destruct H as [H1 H2].
  rewrite count_events_cons, (IH H2). apply negb_true_iff in H1. now rewrite H1.
Qed.

Lemma count_events_prints p ls :
  (forall m, p (Print m) = false) -> count_events p (map Print ls) = 0.
Proof.
  intros H. induction ls as [ | l ls IH ]; [ reflexivity | ].
  cbn [map]. now rewrite count_events_cons, H, IH.
Qed.

Variable env : Env.

(** The events of one call of [run_command]: one launch, and besides it
    only information, printed lines, errors and a kill. *)
Lemma run_command_count cmd cwd timeout w :
  exists evs,
    trace (snd (run_command env cmd cwd timeout w)) = (trace w ++ evs)%list
    /\ forall p,
         (forall m, p (Info m) = false) -> (forall m, p (Error m) = false) ->
         (forall m, p (Print m) = false) -> p Kill = false ->
         count_events p evs = if p (Popen cmd) then 1 else 0.
Proof.
  pose proof (run_command_cases env cmd cwd timeout w) as R.
  destruct (exec env (calls w) cmd cwd (disk w)) as [l k].
  cbv zeta in R. rewrite R. clear R.
  assert (G : forall extra,
             (forall p, (forall m, p (Error m) = false) -> p Kill = false ->
                        count_events p extra = 0) ->
             forall ls p,
               (forall m, p (Info m) = false) -> (forall m, p (Error m) = false) ->
               (forall m, p (Print m) = false) -> p Kill = false ->
               count_events p (Info ("Executing: " ++ cmd) :: Popen cmd
                                 :: map Print ls ++ extra)%list
               = if p (Popen cmd) then 1 else 0).
  { intros extra Hx ls p Hi He Hp Hk.
    rewrite !count_events_cons, count_events_app, count_events_prints, Hi, Hx by assumption.
    destruct (p (Popen cmd)); reflexivity. }
  assert (G0 : forall p, (forall m, p (Error m) = false) -> p Kill = false ->
                         count_events p [] = 0) by reflexivity.
  assert (G1 : forall msg p, (forall m, p (Error m) = false) -> p Kill = false ->
                             count_events p [Error msg] = 0).
  { intros msg p He Hk. now rewrite count_events_cons, He. }
  assert (G2 : forall msg p, (forall m, p (Error m) = false) -> p Kill = false ->
                             count_events p [Kill; Error msg] = 0).
  { intros msg p He Hk. now rewrite !count_events_cons, He, Hk. }
  destruct l as [msg | c]; cbn [snd trace].
  - eexists. split; [ reflexivity | ].
    exact (G _ (G1 _) []).
  - destruct (ending c) as [eof_at | | msg].
    + destruct (exits c) as [[x code] | ];
        [ destruct (x <=? eof_at + timeout)%nat | ]; cbn [snd trace].
      * eexists. split; [ reflexivity | ]. intros p Hi He Hp Hk.
        rewrite <- (G [] G0 (kept_lines (lines c)) p Hi He Hp Hk).
        now rewrite app_nil_r.
      * eexists. split; [ reflexivity | ]. exact (G _ (G2 _) _).
      * eexists. split; [ reflexivity | ]. exact (G _ (G2 _) _).
    + cbn [snd trace]. eexists. split; [ reflexivity | ]. intros p Hi He Hp Hk.
      rewrite <- (G [] G0 (kept_lines (lines c)) p Hi He Hp Hk).
      now rewrite app_nil_r.
    + cbn [snd trace]. eexists. split; [ reflexivity | ]. exact (G _ (G1 _) _).
Qed.

Lemma before_attempt_trace attempt w :
  trace (before_attempt attempt w)
  = (trace w ++ (if (0 <? attempt)%nat
                 then [Warning ("Retry " ++ Py.str_nat attempt ++ "/"
                                ++ Py.str_nat Pipeline.max_retries); Sleep 180]
                 else []))%list.
Proof.
  unfold before_attempt. destruct (0 <? attempt)%nat; [ reflexivity | ].
  now rewrite app_nil_r.
Qed.

Lemma part_b_attempt_unfold attempt rest w :
  Pipeline.part_b_attempts env (attempt :: rest) w
  = match run_command env part_b_command None 7200 (before_attempt attempt w) with
    | (Ret (code, out), w1) =>
        if (code =? 0)%Z
        then (Ret Pipeline.Broke, record [Success "Part B minimal draft complete"] w1)
        else if Py.contains "Error code: 500" out && Py.contains "server_error" out
                && (attempt <? Pipeline.max_retries)%nat
        then Pipeline.part_b_attempts env rest
               (record [Warning "OpenAI server error, retrying..."] w1)
        else if (attempt =? Pipeline.max_retries)%nat
        then (Ret (Pipeline.Returned false),
              record [Error ("Part B failed after "
                             ++ Py.str_nat (Pipeline.max_retries + 1) ++ " attempts")] w1)
        else Pipeline.part_b_attempts env rest w1
    | (Raise e, w1) => (Raise e, w1)
    | (Hang, w1) => (Hang, w1)
    end.
Proof.
  cbn [Pipeline.part_b_attempts].
  unfold bind at 1. rewrite when_retry. unfold bind at 1.
  fold part_b_command.
  destruct (run_command env part_b_command None 7200 (before_attempt attempt w))
    as [[[code out] | e | ] w1]; try reflexivity.
  destruct (code =? 0)%Z; [ reflexivity | ].
  destruct (Py.contains "Error code: 500" out && Py.contains "server_error" out
            && (attempt <? Pipeline.max_retries)%nat); [ reflexivity | ].
  destruct (attempt =? Pipeline.max_retries)%nat; reflexivity.
Qed.

(** One turn of the retry loop: one launch, one sleep before it unless it
    is the first attempt, and four ways on. *)
Lemma part_b_attempt_step attempt rest w :
  exists evs w1,
    trace w1 = (trace w ++ evs)%list
    /\ count_events part_b_launch evs = 1
    /\ count_events is_sleep evs = (if (0 <? attempt)%nat then 1 else 0)
    /\ (Pipeline.part_b_attempts env (attempt :: rest) w = (Hang, w1)
        \/ Pipeline.part_b_attempts env (attempt :: rest) w = (Ret Pipeline.Broke, w1)
        \/ (attempt = Pipeline.max_retries
            /\ Pipeline.part_b_attempts env (attempt :: rest) w
               = (Ret (Pipeline.Returned false), w1))
        \/ (attempt <> Pipeline.max_retries
            /\ Pipeline.part_b_attempts env (attempt :: rest) w
               = Pipeline.part_b_attempts env rest w1)).
Proof.
  destruct (run_command_count part_b_command None 7200 (before_attempt attempt w))
    as [evs1 [T1 C1]].
  assert (L1 : count_events part_b_launch evs1 = 1).
  { rewrite C1 by reflexivity. reflexivity. }
  assert (S1 : count_events is_sleep evs1 = 0).
  { rewrite C1 by reflexivity. reflexivity. }
  rewrite before_attempt_trace in T1.
  set (pre := if (0 <? attempt)%nat
              then [Warning ("Retry " ++ Py.str_nat attempt ++ "/"
                             ++ Py.str_nat Pipeline.max_retries); Sleep 180]
              else []) in T1.
  assert (Lp : count_events part_b_launch pre = 0)
    by (subst pre; destruct (0 <? attempt)%nat; reflexivity).
  assert (Sp : count_events is_sleep pre = if (0 <? attempt)%nat then 1 else 0)
    by (subst pre; destruct (0 <? attempt)%nat; reflexivity).
  assert (K : forall extra w1,
             count_events part_b_launch extra = 0 ->
             count_events is_sleep extra = 0 ->
             trace w1 = (trace (snd (run_command env part_b_command None 7200
                                       (before_attempt attempt w))) ++ extra)%list ->
             trace w1 = (trace w ++ (pre ++ evs1 ++ extra))%list
             /\ count_events part_b_launch (pre ++ evs1 ++ extra) = 1
             /\ count_events is_sleep (pre ++ evs1 ++ extra)
                = if (0 <? attempt)%nat then 1 else 0).
  { intros extra w1 Lx Sx T. split; [ | split ].
    - rewrite T, T1, <- !app_assoc. reflexivity.
    - rewrite !count_events_app, Lp, L1, Lx. reflexivity.
    - rewrite !count_events_app, Sp, S1, Sx. lia. }
  rewrite (part_b_attempt_unfold attempt rest w).
  destruct (run_command env part_b_command None 7200 (before_attempt attempt w))
    as [[[code out] | e | ] w1] eqn:R; cbn [snd] in K.
  - destruct (code =? 0)%Z.
    + exists (pre ++ evs1 ++ [Success "Part B minimal draft complete"])%list,
        (record [Success "Part B minimal draft complete"] w1).
      destruct (K [Success "Part B minimal draft complete"]
                  (record [Success "Part B minimal draft complete"] w1))
        as (K1 & K2 & K3); try reflexivity.
      split; [ exact K1 | ]. split; [ exact K2 | ]. split; [ exact K3 | ]. right. left. reflexivity.
    + destruct (Py.contains "Error code: 500" out && Py.contains "server_error" out
                && (attempt <? Pipeline.max_retries)%nat) eqn:Retry.
      * exists (pre ++ evs1 ++ [Warning "OpenAI server error, retrying..."])%list,
          (record [Warning "OpenAI server error, retrying..."] w1).
        destruct (K [Warning "OpenAI server error, retrying..."]
                    (record [Warning "OpenAI server error, retrying..."] w1))
          as (K1 & K2 & K3); try reflexivity.
        split; [ exact K1 | ]. split; [ exact K2 | ]. split; [ exact K3 | ]. right. right. right. split; [ | reflexivity ].
        apply andb_true_iff in Retry. destruct Retry as [_ Lt].
        apply Nat.ltb_lt in Lt. lia.
      * destruct (attempt =? Pipeline.max_retries)%nat eqn:Last.
        -- exists (pre ++ evs1
                   ++ [Error ("Part B failed after "
                              ++ Py.str_nat (Pipeline.max_retries + 1) ++ " attempts")])%list,
             (record [Error ("Part B failed after "
                             ++ Py.str_nat (Pipeline.max_retries + 1) ++ " attempts")] w1).
           destruct (K [Error ("Part B failed after "
                               ++ Py.str_nat (Pipeline.max_retries + 1) ++ " attempts")]
                       (record [Error ("Part B failed after "
                                       ++ Py.str_nat (Pipeline.max_retries + 1)
                                       ++ " attempts")] w1))
             as (K1 & K2 & K3); try reflexivity.
           split; [ exact K1 | ]. split; [ exact K2 | ]. split; [ exact K3 | ]. right. right. left.
           apply Nat.eqb_eq in Last. split; [ exact Last | reflexivity ].
        -- exists (pre ++ evs1 ++ [])%list, w1.
           destruct (K [] w1) as (K1 & K2 & K3);
             [ reflexivity | reflexivity | now rewrite app_nil_r | ].
           split; [ exact K1 | ]. split; [ exact K2 | ]. split; [ exact K3 | ]. right. right. right.
           apply Nat.eqb_neq in Last. split; [ exact Last | reflexivity ].
  - exfalso. apply (run_command_no_raise env part_b_command None 7200
                      (before_attempt attempt w) e). now rewrite R.
  - exists (pre ++ evs1 ++ [])%list, w1.
    destruct (K [] w1) as (K1 & K2 & K3);
      [ reflexivity | reflexivity | now rewrite app_nil_r | ].
    split; [ exact K1 | ]. split; [ exact K2 | ]. split; [ exact K3 | ]. now left.
Qed.

(** The loop over any list of attempts: the launches are a prefix of the
    attempts, with one sleep for each launched attempt that is a retry. *)
Lemma part_b_attempts_counts attempts w :
  exists evs,
    trace (snd (Pipeline.part_b_attempts env attempts w)) = (trace w ++ evs)%list
    /\ count_events part_b_launch evs <= List.length attempts
    /\ (attempts <> [] -> 1 <= count_events part_b_launch evs)
    /\ count_events is_sleep evs
       = retries_among (firstn (count_events part_b_launch evs) attempts)
    /\ match fst (Pipeline.part_b_attempts env attempts w) with
       | Ret Pipeline.Exhausted => ~ In Pipeline.max_retries attempts
       | Ret (Pipeline.Returned b) =>
           b = false
           /\ nth_error attempts (count_events part_b_launch evs - 1)
              = Some Pipeline.max_retries
       | Ret Pipeline.Broke => True
       | Hang => True
       | Raise e => False
       end.
Proof.
  revert w. induction attempts as [ | attempt rest IH ]; intros w.
  - exists []. cbn. rewrite app_nil_r. repeat split; auto. congruence.
  - destruct (part_b_attempt_step attempt rest w) as [evs [w1 (T & L & Sl & Cases)]].
    assert (One : retries_among (firstn 1 (attempt :: rest))
                  = if (0 <? attempt)%nat then 1 else 0).
    { unfold retries_among. cbn. now destruct attempt. }
    destruct Cases as [E | [E | [[Hm E] | [Hm E]]]].
    + exists evs. rewrite E, L, Sl, One. cbn [fst snd List.length]. repeat split; auto; lia.
    + exists evs. rewrite E, L, Sl, One. cbn [fst snd List.length]. repeat split; auto; lia.
    + exists evs. rewrite E, L, Sl, One. cbn [fst snd List.length Nat.sub nth_error].
      repeat split; auto; try lia; try (now rewrite Hm).
    + destruct (IH w1) as [evs' (T' & L' & N' & S' & O')].
      exists (evs ++ evs')%list. rewrite E, !count_events_app, L, Sl.
      split; [ now rewrite T', T, app_assoc | ].
      split; [ cbn [List.length]; lia | ]. split; [ lia | ].
      split.
      * change (1 + count_events part_b_launch evs')
          with (S (count_events part_b_launch evs')).
        cbn [firstn]. unfold retries_among in *. cbn [filter].
        rewrite S'. destruct (0 <? attempt)%nat; reflexivity.
      * destruct (fst (Pipeline.part_b_attempts env rest w1)) as [[ | | b] | e | ]; auto.
        -- intros [H | H]; [ congruence | contradiction ].
        -- destruct O' as [-> O']. split; [ reflexivity | ].
           destruct rest as [ | a rest' ].
           ++ destruct (count_events part_b_launch evs' - 1); discriminate.
           ++ specialize (N' ltac:(discriminate)).
              replace (1 + count_events part_b_launch evs' - 1)
                with (S (count_events part_b_launch evs' - 1)) by lia.
              exact O'.
Qed.

(** X14: the retry loop of [run_part_b], whatever the commands do.  The
    Part B command is launched at least once and at most three times, and
    the loop has slept 180 seconds once for every launch but the first.
    The loop never raises and is never left by running out of attempts:
    it ends in a [break] or in [return False], and [return False] only
    comes after the third launch. *)
Theorem part_b_loop_bounds w :
  exists evs,
    trace (snd (Pipeline.part_b_attempts env (seq 0 (Pipeline.max_retries + 1)) w))
    = (trace w ++ evs)%list
    /\ 1 <= count_events part_b_launch evs <= 3
    /\ count_events is_sleep evs = count_events part_b_launch evs - 1
    /\ (fst (Pipeline.part_b_attempts env (seq 0 (Pipeline.max_retries + 1)) w)
        = Ret Pipeline.Broke
        \/ fst (Pipeline.part_b_attempts env (seq 0 (Pipeline.max_retries + 1)) w)
           = Hang
        \/ (fst (Pipeline.part_b_attempts env (seq 0 (Pipeline.max_retries + 1)) w)
            = Ret (Pipeline.Returned false)
            /\ count_events part_b_launch evs = 3)).
Proof.
  destruct (part_b_attempts_counts (seq 0 (Pipeline.max_retries + 1)) w)
    as [evs (T & L & N & S & O)].
  exists evs. split; [ exact T | ].
  specialize (N ltac:(discriminate)).
  change (seq 0 (Pipeline.max_retries + 1)) with [0; 1; 2] in *.
  cbn [List.length] in L.
  split; [ lia | ].
  split.
  - rewrite S.
    destruct (count_events part_b_launch evs) as [ | [ | [ | [ | k ] ] ] ];
      try lia; reflexivity.
  - destruct (fst (Pipeline.part_b_attempts env [0; 1; 2] w)) as [[ | | b] | e | ].
    + now left.
    + exfalso. apply O. right. right. now left.
    + destruct O as [-> O]. right. right. split; [ reflexivity | ].
      destruct (count_events part_b_launch evs) as [ | [ | [ | [ | k ] ] ] ];
        try lia; discriminate.
    + contradiction.
    + right. now left.
Qed.

End EventCounts.


(** ** A run that succeeds *)

Section SuccessfulRun.

Variable env : Env.
Variable self : CloudPipeline.

Lemma steps_app evs1 evs2 : steps (evs1 ++ evs2) = (steps evs1 ++ steps evs2)%list.
Proof. apply flat_map_app. Qed.

Lemma steps_quiet evs : forallb no_step evs = true -> steps evs = [].
Proof.
  induction evs as [ | ev evs IH ]; [ reflexivity | ].
  cbn [forallb]. intros H. apply andb_true_iff in H. destruct H as [H1 H2].
  destruct ev; try discriminate; exact (IH H2).
Qed.

Lemma extends_steps w w' : extends no_step w w' -> steps (trace w') = steps (trace w).
Proof.
  intros [evs [T F]]. now rewrite T, steps_app, (steps_quiet evs F), app_nil_r.
Qed.

Lemma quiet_steps {A} (m : M A) w :
  emits_only no_step m -> steps (trace (snd (m w))) = steps (trace w).
Proof. intros H. apply extends_steps, H. Qed.

Lemma record_steps evs w : steps (trace (record evs w)) = (steps (trace w) ++ steps evs)%list.
Proof. apply steps_app. Qed.

(** A stage that announces its step and then emits no other step. *)
Lemma step_then_quiet {A} n total msg (m : M A) w :
  emits_only no_step m ->
  steps (trace (snd ((emit (Step n total msg) ;; m) w))) = (steps (trace w) ++ [n])%list.
Proof.
  intros H. unfold bind at 1. rewrite emit_record.
  now rewrite (quiet_steps m _ H), record_steps.
Qed.

Lemma process_event_no_step cmd ev : process_event cmd ev = true -> no_step ev = true.
Proof. destruct ev; (reflexivity || discriminate). Qed.

Lemma run_command_no_step cmd cwd timeout :
  emits_only no_step (run_command env cmd cwd timeout).
Proof. apply run_command_emits, process_event_no_step. Qed.

Lemma preprocess_steps w :
  steps (trace (snd (Pipeline.preprocess_company_folder env w)))
  = (steps (trace w) ++ [10])%list.
Proof.
  unfold Pipeline.preprocess_company_folder. apply step_then_quiet.
  repeat emits_step; auto. apply convert_all_emits; reflexivity.
Qed.

Lemma upload_steps w :
  steps (trace (snd (Pipeline.upload_to_vector_store env self w)))
  = (steps (trace w) ++ [20])%list.
Proof.
  unfold Pipeline.upload_to_vector_store, Pipeline.storage_save_vector_store_id.
  apply step_then_quiet. repeat emits_step; auto. apply run_command_no_step.
Qed.

Lemma mcp_steps v w :
  steps (trace (snd (Pipeline.start_mcp_server env v w))) = (steps (trace w) ++ [30])%list.
Proof.
  unfold Pipeline.start_mcp_server. apply step_then_quiet. repeat emits_step; auto.
Qed.

Lemma quotes_steps w :
  steps (trace (snd (Pipeline.run_quotes_extraction env self w)))
  = (steps (trace w) ++ [40])%list.
Proof.
  unfold Pipeline.run_quotes_extraction. apply step_then_quiet.
  repeat emits_step; auto. apply run_command_no_step.
Qed.

Lemma part_a_steps v c w :
  steps (trace (snd (Pipeline.run_part_a env self v c w))) = (steps (trace w) ++ [50])%list.
Proof.
  unfold Pipeline.run_part_a. apply step_then_quiet.
  repeat emits_step; auto. apply run_command_no_step.
Qed.

Lemma consolidation_steps w :
  steps (trace (snd (Pipeline.run_consolidation env w))) = (steps (trace w) ++ [70])%list.
Proof.
  unfold Pipeline.run_consolidation. apply step_then_quiet.
  repeat emits_step; auto. apply run_command_no_step.
Qed.

Lemma gdrive_steps p w :
  steps (trace (snd (Pipeline.upload_final_report_to_gdrive env p w)))
  = (steps (trace w) ++ [80])%list.
Proof.
  unfold Pipeline.upload_final_report_to_gdrive. apply step_then_quiet.
  repeat emits_step; auto.
  intros w0. rewrite report_progress_spec. apply extends_record.
  induction progress as [ | z rest IH ]; [ reflexivity | exact IH ].
Qed.

Lemma finalize_steps w report w' :
  Pipeline.finalize_report env self w = (Ret (Some report), w') ->
  steps (trace w') = (steps (trace w) ++ [90; 80])%list
  /\ exists latest rest,
       Fs.sort_newest_first (Pipeline.final_candidates (final_dir (disk w)))
       = latest :: rest.
Proof.
  intros H.
  destruct (Fs.sort_newest_first (Pipeline.final_candidates (final_dir (disk w))))
    as [ | latest rest ] eqn:Hsort.
  - exfalso. revert H. unfold Pipeline.finalize_report.
    unfold bind at 1. rewrite emit_record. unfold bind at 1. cbn [get_disk record disk].
    rewrite Hsort. unfold bind. rewrite emit_record. discriminate.
  - split; [ | now exists latest, rest ].
    revert H. unfold Pipeline.finalize_report.
    unfold bind at 1. rewrite emit_record. unfold bind at 1. cbn [get_disk record disk].
    rewrite Hsort. unfold Pipeline.storage_save_final_report.
    unfold bind at 2. cbn [tick]. unfold bind at 2. cbn [get_disk disk ticks].
    unfold Storage.save_final_report at 1.
    unfold bind at 2. cbn [put_disk]. unfold bind at 1. cbn [ret].
    unfold bind at 1. rewrite emit_record. unfold bind at 1. rewrite emit_record.
    unfold bind at 1.
    match goal with
    | |- context [Pipeline.upload_final_report_to_gdrive env ?p ?w0] =>
        pose proof (gdrive_steps p w0) as G;
        destruct (Pipeline.upload_final_report_to_gdrive env p w0) as [[b | e | ] wu]
    end; [ | discriminate | discriminate ].
    cbn [ret]. intros H. injection H as _ <-.
    cbn [snd] in G. rewrite G. unfold steps. cbn [trace record].
    rewrite !flat_map_app. cbn [flat_map app].
    rewrite ?app_nil_r, <- ?app_assoc. reflexivity.
Qed.

Lemma run_from_finalize_success start_time w w' :
  Pipeline.run_from_finalize env self start_time w = (Ret true, w') ->
  exists report w1,
    Pipeline.finalize_report env self w = (Ret (Some report), w1)
    /\ disk w' = disk w1
    /\ steps (trace w') = steps (trace w1)
    /\ In (Success ("PIPELINE COMPLETE: " ++ company_name self)) (trace w').
Proof.
  unfold Pipeline.run_from_finalize. unfold bind at 1.
  destruct (Pipeline.finalize_report env self w) as [[[report | ] | e | ] w1];
    try discriminate.
  intros H. exists report, w1. split; [ reflexivity | ].
  revert H. unfold bind. cbn [tick emit ret disk trace calls ticks].
  intros H. injection H as <-. cbn [disk trace].
  split; [ reflexivity | ]. split.
  - rewrite !steps_app. cbn [steps flat_map app]. now rewrite !app_nil_r.
  - rewrite !in_app_iff. left. left. right. now left.
Qed.

(** The stages a run that returns [True] went through, each with the
    world it started from. *)
Lemma run_body_success w w' :
  Pipeline.run_body env self w = (Ret true, w') ->
  exists w0 w1 v w2 w3 w4 w5 w6 w7 w8 start_time,
    steps (trace w0) = steps (trace w)
    /\ Pipeline.preprocess_company_folder env w0 = (Ret true, w1)
    /\ Pipeline.upload_to_vector_store env self w1 = (Ret v, w2)
    /\ steps (trace w3) = steps (trace w2)
    /\ Pipeline.start_mcp_server env v w3 = (Ret true, w4)
    /\ Pipeline.run_quotes_extraction env self w4 = (Ret true, w5)
    /\ Pipeline.run_part_a env self v (company_name self ++ "_quotes") w5 = (Ret true, w6)
    /\ Pipeline.run_part_b env self w6 = (Ret true, w7)
    /\ Pipeline.run_consolidation env w7 = (Ret true, w8)
    /\ Pipeline.run_from_finalize env self start_time w8 = (Ret true, w').
Proof.
  unfold Pipeline.run_body. fold (Pipeline.run_from_finalize env self).
  unfold bind at 1. rewrite emit_record. unfold bind at 1. rewrite emit_record.
  unfold bind at 1. rewrite emit_record. unfold bind at 1. cbn [tick].
  set (w0 := {| disk := _; trace := _; calls := _; ticks := _ |}).
  unfold bind at 1.
  destruct (Pipeline.preprocess_company_folder env w0) as [[[] | e | ] w1] eqn:E1;
    cbn [negb]; try discriminate.
  unfold bind at 1.
  destruct (Pipeline.upload_to_vector_store env self w1) as [[v | e | ] w2] eqn:E2;
    try discriminate.
  unfold bind at 1.
  pose proof (quiet_steps (when (negb (Pipeline.truthy v))
                             (emit (Warning "Continuing without vector store ID"))) w2)
    as Q.
  destruct (when (negb (Pipeline.truthy v))
              (emit (Warning "Continuing without vector store ID")) w2)
    as [[[] | e | ] w3] eqn:E3; try discriminate.
  unfold bind at 1.
  destruct (Pipeline.start_mcp_server env v w3) as [[[] | e | ] w4] eqn:E4;
    cbn [negb]; try discriminate.
  unfold bind at 1.
  destruct (Pipeline.run_quotes_extraction env self w4) as [[[] | e | ] w5] eqn:E5;
    cbn [negb]; try discriminate.
  unfold bind at 1.
  destruct (Pipeline.run_part_a env self v (company_name self ++ "_quotes") w5)
    as [[[] | e | ] w6] eqn:E6; cbn [negb]; try discriminate.
  unfold bind at 1.
  destruct (Pipeline.run_part_b env self w6) as [[[] | e | ] w7] eqn:E7;
    cbn [negb]; try discriminate.
  unfold bind at 1.
  destruct (Pipeline.run_consolidation env w7) as [[[] | e | ] w8] eqn:E8;
    cbn [negb]; try discriminate.
  intros H.
  exists w0, w1, v, w2, w3, w4, w5, w6, w7, w8, (time_time env (ticks w)).
  repeat split; auto.
  - subst w0. cbn [trace]. rewrite !record_steps. cbn [steps flat_map app].
    now rewrite !app_nil_r.
  - cbn [snd] in Q. apply Q. repeat emits_step; auto.
Qed.

Lemma run_success w w' :
  Pipeline.run env self w = (Ret true, w') -> Pipeline.run_body env self w = (Ret true, w').
Proof.
  unfold Pipeline.run, try_except.
  destruct (Pipeline.run_body env self w) as [[b | e | ] w1]; try discriminate; auto.
Qed.

(** X15: what a run that returns [True] leaves behind.  The final
    directory holds a [FINAL_REPORT_<slug>_<timestamp>.md] whose text is
    that of the newest candidate report in that directory, and the log
    has the closing [PIPELINE COMPLETE] line. *)
Theorem successful_run_leaves_final_report w w' :
  Pipeline.run env self w = (Ret true, w') ->
  exists s latest rest,
    Fs.lookup (artifact_name (storage self) s) (final_dir (disk w'))
    = Some (artifact_file (storage self) s)
    /\ Fs.sort_newest_first (Pipeline.final_candidates (final_dir (disk w')))
       = latest :: rest
    /\ body s = Fs.text_of latest
    /\ In (Success ("PIPELINE COMPLETE: " ++ company_name self)) (trace w').
Proof.
  intros H. apply run_success in H.
  destruct (run_body_success w w' H)
    as (w0 & w1 & v & w2 & w3 & w4 & w5 & w6 & w7 & w8 & start_time
        & _ & _ & _ & _ & _ & _ & _ & _ & _ & F).
  destruct (run_from_finalize_success start_time w8 w' F)
    as (report & w9 & Hfin & Hdisk & _ & Hlog).
  destruct (finalize_steps w8 report w9 Hfin) as [_ [latest [rest Hsort]]].
  destruct (finalize_report_saves env self w8 latest rest Hsort) as [w9' [Hrun Hdir]].
  rewrite Hfin in Hrun. injection Hrun as -> <-.
  pose (s := FinalSave (utcnow env (ticks w8)) (fs_time env (ticks w8))
               (Fs.text_of latest)).
  change (final_dir (disk w9)
          = fst (Storage.save_final_report (storage self) (saved_at s) (stamped s)
                   (body s) (final_dir (disk w8)))) in Hdir.
  exists s, latest, rest.
  rewrite Hdisk, Hdir, save_final_report_writes.
  split; [ | split; [ | split; [ reflexivity | exact Hlog ] ] ].
  - rewrite (lookup_write_other (ready_name (storage self) s)
               (artifact_name (storage self) s) _ _ _
               (artifact_is_not_ready (storage self) s s)).
    apply lookup_write_same.
  - rewrite (final_candidates_write (ready_name (storage self) s) _ _ _
               (ready_name_starts (storage self) s)).
    rewrite (final_candidates_write (artifact_name (storage self) s) _ _ _
               (artifact_name_starts (storage self) s)).
    exact Hsort.
Qed.

End SuccessfulRun.

(** The run of [Scenario.soft_failures_env] returns [True]. *)
Lemma successful_run_leaves_final_report_witness :
  exists s latest rest,
    Fs.lookup (artifact_name (storage Scenario.acme) s)
      (final_dir (disk (snd (Pipeline.run Scenario.soft_failures_env Scenario.acme
                               (Scenario.start Scenario.empty_disk)))))
    = Some (artifact_file (storage Scenario.acme) s)
    /\ Fs.sort_newest_first
         (Pipeline.final_candidates
            (final_dir (disk (snd (Pipeline.run Scenario.soft_failures_env Scenario.acme
                                     (Scenario.start Scenario.empty_disk))))))
       = latest :: rest
    /\ body s = Fs.text_of latest
    /\ In (Success ("PIPELINE COMPLETE: " ++ company_name Scenario.acme))
         (trace (snd (Pipeline.run Scenario.soft_failures_env Scenario.acme
                        (Scenario.start Scenario.empty_disk)))).
Proof.
  apply (successful_run_leaves_final_report Scenario.soft_failures_env Scenario.acme
           (Scenario.start Scenario.empty_disk)).
  vm_compute. reflexivity.
Defined.


(** ** Preprocessing: what it does to the data directory *)

Section PreprocessDisk.

Variable env : Env.

(** The JSON name of a CSV file. *)
Local Abbreviation twin f := (Pipeline.with_suffix ".json" (name f)).

Lemma endswith_csv_json s : Py.endswith ".csv" (s ++ ".json") = false.
Proof. unfold Py.endswith. rewrite reverse_append. reflexivity. Qed.

Lemma with_suffix_not_csv nm :
  Fs.fnmatch "" ".csv" (Pipeline.with_suffix ".json" nm) = false.
Proof.
  unfold Fs.fnmatch, Pipeline.with_suffix.
  destruct (Pipeline.rfind_dot nm 0 None) as [i | ];
    [ destruct ((0 <? i) && (i <? String.length nm - 1))%nat | ];
    now rewrite endswith_csv_json, andb_false_r.
Qed.

Lemma twin_is_not_a_csv nm :
  Fs.fnmatch "" ".csv" nm = true -> Pipeline.with_suffix ".json" nm <> nm.
Proof.
  intros H E. rewrite <- E in H. now rewrite with_suffix_not_csv in H.
Qed.

Lemma set_data_dir_same k : set_data_dir (data_dir k) k = k.
Proof. now destruct k. Qed.

(** The disk after one conversion. *)
Lemma convert_csv_disk f w :
  disk (snd (Pipeline.convert_csv env f w))
  = set_data_dir
      match csv_to_json env f with
      | Converted json =>
          Fs.unlink (name f)
            (Fs.write (twin f) (fs_time env (ticks w)) json (data_dir (disk w)))
      | ConversionFails _ => data_dir (disk w)
      | UnlinkFails json _ =>
          Fs.write (twin f) (fs_time env (ticks w)) json (data_dir (disk w))
      end
      (disk w).
Proof.
  unfold Pipeline.convert_csv. unfold bind at 1. rewrite emit_record.
  unfold try_except.
  destruct (csv_to_json env f) as [json | msg | json msg].
  - reflexivity.
  - cbn [raise]. rewrite emit_record. cbn [snd record disk].
    now rewrite set_data_dir_same.
  - reflexivity.
Qed.

Lemma convert_all_cons f rest w :
  Pipeline.convert_all env (f :: rest) w
  = Pipeline.convert_all env rest (snd (Pipeline.convert_csv env f w)).
Proof.
  cbn [Pipeline.convert_all]. destruct (convert_csv_returns env f w) as [w1 [H _]].
  unfold bind. now rewrite H.
Qed.

Lemma preprocess_world w :
  Pipeline.preprocess_company_folder env w
  = (Ret true,
     snd (Pipeline.convert_all env (Fs.glob "" ".csv" (data_dir (disk w)))
            (record [Step 10 10 "Preprocessing company data"] w))).
Proof.
  unfold Pipeline.preprocess_company_folder. unfold bind at 1. rewrite emit_record.
  unfold bind at 1. cbn [get_disk record disk].
  destruct (convert_all_returns env (Fs.glob "" ".csv" (data_dir (disk w)))
              (record [Step 10 10 "Preprocessing company data"] w)) as [w' [H _]].
  unfold bind. cbn [record] in H. now rewrite H.
Qed.

Lemma data_dir_set d k : data_dir (set_data_dir d k) = d.
Proof. reflexivity. Qed.

(** One conversion leaves every other name alone. *)
Lemma convert_csv_frame f w nm :
  nm <> name f -> nm <> twin f ->
  Fs.lookup nm (data_dir (disk (snd (Pipeline.convert_csv env f w))))
  = Fs.lookup nm (data_dir (disk w)).
Proof.
  intros N1 N2. rewrite convert_csv_disk, data_dir_set.
  destruct (csv_to_json env f) as [json | msg | json msg].
  - rewrite lookup_unlink_other by exact N1. now apply lookup_write_other.
  - reflexivity.
  - now apply lookup_write_other.
Qed.

Lemma convert_all_frame csv_files w nm :
  (forall f, In f csv_files -> nm <> name f /\ nm <> twin f) ->
  Fs.lookup nm (data_dir (disk (snd (Pipeline.convert_all env csv_files w))))
  = Fs.lookup nm (data_dir (disk w)).
Proof.
  revert w. induction csv_files as [ | f rest IH ]; intros w H; [ reflexivity | ].
  rewrite convert_all_cons, IH by (intros g Hg; apply H; now right).
  destruct (H f (or_introl eq_refl)) as [N1 N2]. now apply convert_csv_frame.
Qed.

Lemma convert_all_other_dirs csv_files w :
  let k := disk (snd (Pipeline.convert_all env csv_files w)) in
  vector_ids_dir k = vector_ids_dir (disk w) /\ part_a_dir k = part_a_dir (disk w)
  /\ part_b_dir k = part_b_dir (disk w) /\ final_dir k = final_dir (disk w).
Proof.
  revert w. induction csv_files as [ | f rest IH ]; intros w; [ now repeat split | ].
  cbv zeta in *. rewrite convert_all_cons.
  destruct (IH (snd (Pipeline.convert_csv env f w))) as (-> & -> & -> & ->).
  rewrite convert_csv_disk. now repeat split.
Qed.

(** X17: preprocessing touches only the CSV files of the data directory
    and the JSON files named after them, whatever the conversions do.
    Every other entry of the data directory is afterwards what it was,
    and the other directories of the storage are unchanged. *)
Theorem preprocess_touches_only_csv_and_json w nm :
  (forall f, In f (Fs.glob "" ".csv" (data_dir (disk w))) ->
             nm <> name f /\ nm <> Pipeline.with_suffix ".json" (name f)) ->
  let k := disk (snd (Pipeline.preprocess_company_folder env w)) in
  Fs.lookup nm (data_dir k) = Fs.lookup nm (data_dir (disk w))
  /\ vector_ids_dir k = vector_ids_dir (disk w) /\ part_a_dir k = part_a_dir (disk w)
  /\ part_b_dir k = part_b_dir (disk w) /\ final_dir k = final_dir (disk w).
Proof.
  intros H k. subst k. rewrite preprocess_world. cbn [snd].
  split.
  - now rewrite convert_all_frame.
  - apply (convert_all_other_dirs (Fs.glob "" ".csv" (data_dir (disk w)))
             (record [Step 10 10 "Preprocessing company data"] w)).
Qed.

Lemma in_unlink {A} nm (d : directory A) g :
  In g (Fs.unlink nm d) -> In g d /\ name g <> nm.
Proof.
  unfold Fs.unlink. intros H. apply filter_In in H. destruct H as [H N].
  split; [ exact H | ]. apply negb_true_iff, String.eqb_neq in N. exact N.
Qed.

(** When the conversions succeed, the CSV files still in the directory
    were there before and are not among the converted ones. *)
Lemma convert_all_removes csv_files w g :
  (forall f, In f csv_files -> exists json, csv_to_json env f = Converted json) ->
  In g (data_dir (disk (snd (Pipeline.convert_all env csv_files w)))) ->
  Fs.fnmatch "" ".csv" (name g) = true ->
  In g (data_dir (disk w)) /\ ~ In (name g) (map name csv_files).
Proof.
  revert w. induction csv_files as [ | f rest IH ]; intros w H Hg Hm.
  - split; [ exact Hg | intros [] ].
  - rewrite convert_all_cons in Hg.
    destruct (IH _ (fun f' Hf' => H f' (or_intror Hf')) Hg Hm) as [Hin Hrest].
    rewrite convert_csv_disk, data_dir_set in Hin.
    destruct (H f (or_introl eq_refl)) as [json E]. rewrite E in Hin.
    apply in_unlink in Hin. destruct Hin as [Hin N].
    apply in_write in Hin. destruct Hin as [-> | Hin].
    + cbn [name] in Hm. now rewrite with_suffix_not_csv in Hm.
    + split; [ exact Hin | ]. cbn [map]. intros [E' | E']; [ congruence | contradiction ].
Qed.

Lemma exists_lookup {A} nm (d d' : directory A) :
  Fs.lookup nm d' = Fs.lookup nm d -> Fs.exists_ nm d' = Fs.exists_ nm d.
Proof. unfold Fs.exists_. now intros ->. Qed.

Lemma exists_write {A} nm nm' mt (c : A) d :
  Fs.exists_ nm' d = true -> Fs.exists_ nm' (Fs.write nm mt c d) = true.
Proof.
  intros H. destruct (String.eqb_spec nm' nm) as [-> | N].
  - unfold Fs.exists_. now rewrite lookup_write_same.
  - now rewrite (exists_lookup nm' d _ (lookup_write_other nm nm' mt c d N)).
Qed.

Lemma convert_csv_keeps f w nm :
  nm <> name f ->
  Fs.exists_ nm (data_dir (disk w)) = true ->
  Fs.exists_ nm (data_dir (disk (snd (Pipeline.convert_csv env f w)))) = true.
Proof.
  intros N H. rewrite convert_csv_disk, data_dir_set.
  destruct (csv_to_json env f) as [json | msg | json msg].
  - rewrite (exists_lookup nm _ _ (lookup_unlink_other (name f) nm _ N)).
    now apply exists_write.
  - exact H.
  - now apply exists_write.
Qed.

Lemma convert_all_keeps csv_files w nm :
  (forall f, In f csv_files -> nm <> name f) ->
  Fs.exists_ nm (data_dir (disk w)) = true ->
  Fs.exists_ nm (data_dir (disk (snd (Pipeline.convert_all env csv_files w)))) = true.
Proof.
  revert w. induction csv_files as [ | f rest IH ]; intros w N H; [ exact H | ].
  rewrite convert_all_cons. apply IH; [ intros g Hg; apply N; now right | ].
  apply convert_csv_keeps; [ apply N; now left | exact H ].
Qed.

Lemma convert_all_twins csv_files w f :
  (forall g, In g csv_files -> Fs.fnmatch "" ".csv" (name g) = true) ->
  (forall g, In g csv_files -> exists json, csv_to_json env g = Converted json) ->
  In f csv_files ->
  Fs.exists_ (twin f) (data_dir (disk (snd (Pipeline.convert_all env csv_files w)))) = true.
Proof.
  revert w. induction csv_files as [ | g rest IH ]; intros w Hm H Hf; [ destruct Hf | ].
  rewrite convert_all_cons.
  assert (Hother : forall g', In g' rest -> twin f <> name g').
  { intros g' Hg' E. specialize (Hm g' (or_intror Hg')).
    rewrite <- E in Hm. now rewrite with_suffix_not_csv in Hm. }
  destruct Hf as [-> | Hf].
  - apply convert_all_keeps; [ exact Hother | ].
    rewrite convert_csv_disk, data_dir_set.
    destruct (H f (or_introl eq_refl)) as [json ->].
    rewrite (exists_lookup (twin f) _ _
               (lookup_unlink_other (name f) (twin f) _
                  (twin_is_not_a_csv (name f) (Hm f (or_introl eq_refl))))).
    unfold Fs.exists_. now rewrite lookup_write_same.
  - apply IH; auto.
    + intros g' Hg'. apply Hm. now right.
    + intros g' Hg'. apply H. now right.
Qed.

Lemma rfind_dot_append s1 s2 i last :
  Pipeline.rfind_dot (s1 ++ s2) i last
  = Pipeline.rfind_dot s2 (i + String.length s1) (Pipeline.rfind_dot s1 i last).
Proof.
  revert i last. induction s1 as [ | c s1 IH ]; intros i last; cbn.
  - now rewrite Nat.add_0_r.
  - rewrite IH. f_equal. lia.
Qed.

Lemma substring_append n s1 s2 :
  n = String.length s1 -> String.substring 0 n (s1 ++ s2) = s1.
Proof.
  intros ->. induction s1 as [ | c s1 IH ]; cbn.
  - now destruct s2.
  - now rewrite IH.
Qed.

(** [with_suffix('.json')] on the name of a CSV file with a stem. *)
Lemma with_suffix_csv stem :
  stem <> "" -> Pipeline.with_suffix ".json" (stem ++ ".csv") = stem ++ ".json".
Proof.
  intros N. unfold Pipeline.with_suffix.
  rewrite rfind_dot_append. cbn [Pipeline.rfind_dot Ascii.eqb Bool.eqb Nat.add].
  rewrite length_append. change (String.length ".csv") with 4.
  assert (L : (0 < String.length stem)%nat) by (destruct stem; [ congruence | cbn; lia ]).
  replace ((0 <? String.length stem) && (String.length stem <? String.length stem + 4 - 1))%nat
    with true.
  - now rewrite substring_append.
  - symmetry. apply andb_true_iff. split; apply Nat.ltb_lt; lia.
Qed.

(** X18: when every conversion succeeds, preprocessing replaces each CSV
    file by its JSON file: no entry matching [*.csv] is left in the data
    directory, and for every CSV file that was there the entry named by
    [with_suffix('.json')] exists, which for [stem.csv] is [stem.json]. *)
Theorem preprocess_replaces_every_csv w :
  (forall f, In f (Fs.glob "" ".csv" (data_dir (disk w))) ->
             exists json, csv_to_json env f = Converted json) ->
  let d := data_dir (disk (snd (Pipeline.preprocess_company_folder env w))) in
  Fs.glob "" ".csv" d = []
  /\ (forall f, In f (Fs.glob "" ".csv" (data_dir (disk w))) ->
                Fs.exists_ (Pipeline.with_suffix ".json" (name f)) d = true)
  /\ (forall stem f, In f (Fs.glob "" ".csv" (data_dir (disk w))) ->
                     stem <> "" -> name f = stem ++ ".csv" ->
                     Fs.exists_ (stem ++ ".json") d = true).
Proof.
  intros H d. subst d. rewrite preprocess_world. cbn [snd].
  set (w0 := record [Step 10 10 "Preprocessing company data"] w).
  change (data_dir (disk w)) with (data_dir (disk w0)) in *.
  assert (T : forall f, In f (Fs.glob "" ".csv" (data_dir (disk w0))) ->
                        Fs.exists_ (twin f)
                          (data_dir (disk (snd (Pipeline.convert_all env
                                                  (Fs.glob "" ".csv" (data_dir (disk w0)))
                                                  w0)))) = true).
  { intros f Hf. apply convert_all_twins; auto.
    intros g Hg. now apply in_glob in Hg. }
  split; [ | split; [ exact T | ] ].
  - apply filter_none. intros g Hg.
    destruct (Fs.fnmatch "" ".csv" (name g)) eqn:Hm; [ exfalso | reflexivity ].
    destruct (convert_all_removes _ w0 g H Hg Hm) as [Hin Hnot].
    apply Hnot. apply in_map. apply in_glob. now split.
  - intros stem f Hf N E. rewrite <- (with_suffix_csv stem N), <- E. now apply T.
Qed.

End PreprocessDisk.

(** The note beside two CSV files, one of which does not convert. *)
Lemma preprocess_touches_only_csv_and_json_witness :
  Fs.lookup "notes.txt"
    (data_dir (disk (snd (Pipeline.preprocess_company_folder Scenario.csv_env
                            (Scenario.start Scenario.csv_disk)))))
  = Some (File "notes.txt" 2 "hello").
Proof.
  assert (H : forall f,
             In f (Fs.glob "" ".csv" (data_dir (disk (Scenario.start Scenario.csv_disk)))) ->
             "notes.txt" <> name f
             /\ "notes.txt" <> Pipeline.with_suffix ".json" (name f)).
  { intros f [<- | [<- | []]]; split; intros E; vm_compute in E; discriminate. }
  rewrite (proj1 (preprocess_touches_only_csv_and_json Scenario.csv_env
                    (Scenario.start Scenario.csv_disk) "notes.txt" H)).
  reflexivity.
Defined.

(** Two CSV files that both convert. *)
Lemma preprocess_replaces_every_csv_witness :
  Fs.glob "" ".csv"
    (data_dir (disk (snd (Pipeline.preprocess_company_folder (Scenario.scripted [])
                            (Scenario.start Scenario.csv_disk)))))
  = [].
Proof.
  apply (preprocess_replaces_every_csv (Scenario.scripted [])
           (Scenario.start Scenario.csv_disk)).
  intros f _. exists "[]". reflexivity.
Defined.


(** ** The storage route of the webhook server *)

Section StorageRoute.

Local Abbreviation title_char b c :=
  (if (b : bool) then Storage.lower_char c else Webhook.upper_char c).

Lemma title_char_lower b c :
  is_lower_or_digit c = true ->
  Py.is_alnum (title_char b c) = true
  /\ Storage.is_underscore (title_char b c) = false
  /\ Storage.lower_char (title_char b c) = c.
Proof.
  destruct b; destruct c as [[] [] [] [] [] [] [] []]; vm_compute; intros H;
    try discriminate; repeat split.
Qed.

Lemma title_from_underscore b rest :
  Webhook.title_from b (String "_" rest) = String "_" (Webhook.title_from false rest).
Proof. now destruct b. Qed.

Lemma title_from_space b rest :
  Webhook.title_from b (String " " rest) = String " " (Webhook.title_from false rest).
Proof. now destruct b. Qed.

(** Replacing what is not a letter or digit undoes the blanks of the
    approximate name. *)
Lemma sub_title_replace prev in_run b s :
  underscore_separated is_lower_or_digit false prev s = true ->
  prev = true \/ in_run = false ->
  Storage.sub_non_alnum in_run (Webhook.title_from b (Webhook.replace_underscores s))
  = Webhook.title_from b s.
Proof.
  revert prev in_run b. induction s as [ | c s IH ]; intros prev in_run b H Hf;
    [ reflexivity | ].
  cbn [underscore_separated Webhook.replace_underscores] in *.
  destruct (Storage.is_underscore c) eqn:U.
  - apply andb_true_iff in H. destruct H as [Hp H].
    apply negb_true_iff in Hp. subst prev. destruct Hf as [ | -> ]; [ discriminate | ].
    apply is_underscore_eq in U. subst c.
    rewrite title_from_space, title_from_underscore.
    cbn [Storage.sub_non_alnum]. change (Py.is_alnum " "%char) with false. cbv iota.
    f_equal. apply (IH true true false H). now left.
  - apply andb_true_iff in H. destruct H as [Hc H].
    cbn [Webhook.title_from Storage.sub_non_alnum].
    destruct (title_char_lower b c Hc) as [A _]. rewrite A. f_equal.
    apply (IH false false _ H). now right.
Qed.

Lemma title_separated may_end_open prev b s :
  underscore_separated is_lower_or_digit may_end_open prev s = true ->
  underscore_separated Py.is_alnum may_end_open prev (Webhook.title_from b s) = true.
Proof.
  revert prev b. induction s as [ | c s IH ]; intros prev b H; [ exact H | ].
  cbn [underscore_separated] in H.
  destruct (Storage.is_underscore c) eqn:U.
  - apply is_underscore_eq in U. subst c. rewrite title_from_underscore.
    cbn [underscore_separated]. change (Storage.is_underscore "_"%char) with true.
    cbv iota. apply andb_true_iff in H. destruct H as [-> H]. now rewrite (IH _ _ H).
  - apply andb_true_iff in H. destruct H as [Hc H].
    cbn [Webhook.title_from underscore_separated].
    destruct (title_char_lower b c Hc) as (A & N & _). now rewrite N, A, (IH _ _ H).
Qed.

Lemma lower_title b prev s :
  underscore_separated is_lower_or_digit false prev s = true ->
  Storage.lower (Webhook.title_from b s) = s.
Proof.
  revert prev b. induction s as [ | c s IH ]; intros prev b H; [ reflexivity | ].
  cbn [underscore_separated] in H.
  destruct (Storage.is_underscore c) eqn:U.
  - apply is_underscore_eq in U. subst c. rewrite title_from_underscore.
    apply andb_true_iff in H. destruct H as [_ H].
    cbn [Storage.lower]. now rewrite (IH _ _ H).
  - apply andb_true_iff in H. destruct H as [Hc H].
    cbn [Webhook.title_from Storage.lower].
    destruct (title_char_lower b c Hc) as (_ & _ & L). now rewrite L, (IH _ _ H).
Qed.

Lemma separated_lstrip ok s :
  underscore_separated ok false true s = true ->
  Py.lstrip_with Storage.is_underscore s = s.
Proof.
  destruct s as [ | c s ]; [ reflexivity | ]. cbn.
  destruct (Storage.is_underscore c); [ discriminate | reflexivity ].
Qed.

Lemma separated_rstrip ok prev s :
  underscore_separated ok false prev s = true ->
  rstrip_structural Storage.is_underscore s = s.
Proof.
  revert prev. induction s as [ | c s IH ]; intros prev H; [ reflexivity | ].
  cbn [underscore_separated rstrip_structural] in *.
  destruct (Storage.is_underscore c) eqn:U.
  - apply andb_true_iff in H. destruct H as [_ H]. rewrite (IH true H).
    destruct s; [ discriminate | reflexivity ].
  - apply andb_true_iff in H. destruct H as [_ H]. rewrite (IH false H).
    now rewrite andb_false_r.
Qed.

Lemma slugify_approximate_name s :
  is_slug s = true -> Storage._slugify (Webhook.approximate_company_name s) = s.
Proof.
  unfold is_slug. intros H. apply orb_true_iff in H. destruct H as [E | H].
  - destruct s; [ reflexivity | discriminate ].
  - unfold Storage._slugify, Storage.strip_underscores,
      Webhook.approximate_company_name, Webhook.title.
    rewrite (sub_title_replace true false false s H (or_introl eq_refl)).
    pose proof (title_separated false true false s H) as T.
    rewrite (separated_lstrip _ _ T), rstrip_with_structural, (separated_rstrip _ _ _ T).
    exact (lower_title false true s H).
Qed.

(** X19: the storage route finds the company's directories.  The route
    turns the slug of its URL into a name ([_] to blank, then title case)
    and opens a storage on that name; for the slug of any company the
    storage so opened has that same slug, and so the same output root. *)
Theorem storage_route_round_trip name is_cloud :
  let st := Storage.init name is_cloud in
  company_slug (Webhook.storage_of_route (company_slug st) is_cloud) = company_slug st
  /\ Storage.outputs_root (Webhook.storage_of_route (company_slug st) is_cloud)
     = Storage.outputs_root st.
Proof.
  intros st.
  assert (H : company_slug (Webhook.storage_of_route (company_slug st) is_cloud)
              = company_slug st).
  { apply slugify_approximate_name. apply slugify_is_slug. }
  split; [ exact H | ].
  unfold Storage.outputs_root. rewrite H. reflexivity.
Qed.

End StorageRoute.


(** ** Google Drive ids *)

Section GoogleIds.

Lemma prefix_marker_run p m s :
  String.prefix m s = true ->
  String.prefix (m ++ Py.take_while p (Py.drop (String.length m) s)) s = true.
Proof.
  intros P. pose proof (prefix_split _ _ P) as E.
  transitivity
    (String.prefix (m ++ Py.take_while p (Py.drop (String.length m) s))
       (m ++ Py.drop (String.length m) s)).
  - now rewrite <- E.
  - rewrite prefix_append_same. apply take_while_prefix.
Qed.

Lemma prefix_marker_char p m s c :
  String.prefix m s = true ->
  Py.take_while p (Py.drop (String.length m) s) = "" ->
  p c = true ->
  String.prefix (m ++ String c "") s = false.
Proof.
  intros P N Hc. pose proof (prefix_split _ _ P) as E.
  transitivity (String.prefix (m ++ String c "") (m ++ Py.drop (String.length m) s)).
  - now rewrite <- E.
  - rewrite prefix_append_same. now apply (take_while_empty p).
Qed.

Lemma is_empty_true s : Py.is_empty s = true -> s = "".
Proof. destruct s; [ reflexivity | discriminate ]. Qed.

Lemma match_here_sound markers s group :
  Webhook.match_here markers s = Some group ->
  Py.is_empty group = false
  /\ string_forall Webhook.is_id_char group = true
  /\ exists marker, In marker markers /\ String.prefix (marker ++ group) s = true.
Proof.
  induction markers as [ | m others IH ]; [ discriminate | ].
  cbn [Webhook.match_here].
  destruct (Py.startswith m s) eqn:P; cbn [andb].
  - destruct (Py.is_empty (Py.take_while Webhook.is_id_char (Py.drop (String.length m) s)))
      eqn:N; cbn [negb].
    + intros H. destruct (IH H) as (A & B & m' & Hin & Hp).
      split; [ exact A | ]. split; [ exact B | ]. exists m'. split; [ now right | exact Hp ].
    + intros H. injection H as <-. split; [ exact N | ].
      split; [ apply take_while_forall | ]. exists m. split; [ now left | ].
      now apply prefix_marker_run.
  - intros H. destruct (IH H) as (A & B & m' & Hin & Hp).
    split; [ exact A | ]. split; [ exact B | ]. exists m'. split; [ now right | exact Hp ].
Qed.

Lemma match_here_complete markers s marker c :
  Webhook.match_here markers s = None ->
  In marker markers ->
  Webhook.is_id_char c = true ->
  String.prefix (marker ++ String c "") s = false.
Proof.
  induction markers as [ | m others IH ]; [ intros _ [] | ].
  cbn [Webhook.match_here].
  destruct (Py.startswith m s) eqn:P; cbn [andb].
  - destruct (Py.is_empty (Py.take_while Webhook.is_id_char (Py.drop (String.length m) s)))
      eqn:N; cbn [negb]; [ | discriminate ].
    intros H [<- | Hin] Hc; [ | now apply IH ].
    apply (prefix_marker_char Webhook.is_id_char); auto. now apply is_empty_true.
  - intros H [<- | Hin] Hc; [ | now apply IH ].
    destruct (String.prefix (m ++ String c "") s) eqn:F; [ | reflexivity ].
    apply prefix_append_l in F. unfold Py.startswith in P. congruence.
Qed.

Lemma search_group_sound markers s group :
  Webhook.search_group markers s = Some group ->
  Py.is_empty group = false
  /\ string_forall Webhook.is_id_char group = true
  /\ exists marker, In marker markers /\ Py.contains (marker ++ group) s = true.
Proof.
  induction s as [ | a s IH ]; [ discriminate | ].
  cbn [Webhook.search_group].
  destruct (Webhook.match_here markers (String a s)) as [g | ] eqn:M.
  - intros H. injection H as <-.
    destruct (match_here_sound _ _ _ M) as (A & B & m & Hin & Hp).
    split; [ exact A | ]. split; [ exact B | ]. exists m. split; [ exact Hin | ].
    now apply contains_prefix.
  - intros H. destruct (IH H) as (A & B & m & Hin & Hc).
    split; [ exact A | ]. split; [ exact B | ]. exists m. split; [ exact Hin | ].
    now apply contains_cons.
Qed.

Lemma contains_nothing marker c : Py.contains (marker ++ String c "") "" = false.
Proof. destruct marker; reflexivity. Qed.

Lemma search_group_complete markers s marker c :
  Webhook.search_group markers s = None ->
  In marker markers ->
  Webhook.is_id_char c = true ->
  Py.contains (marker ++ String c "") s = false.
Proof.
  intros H Hin Hc. induction s as [ | a s IH ]; [ apply contains_nothing | ].
  cbn [Webhook.search_group] in H.
  destruct (Webhook.match_here markers (String a s)) as [g | ] eqn:M; [ discriminate | ].
  cbn [Py.contains]. rewrite (match_here_complete _ _ marker c M Hin Hc). now apply IH.
Qed.

(** X20: what [extract_google_id] of the webhook server returns.  The
    result is made of characters of [a-zA-Z0-9_-] only; when it is not
    empty it stands in the link right after one of the markers
    [/folders/], [/file/d/], [?id=] and [&id=]; it is empty only when no
    marker is followed by such a character anywhere in the link.  The
    copy of the function in the download script returns the same id or
    nothing. *)
Theorem extract_google_id_sound url :
  string_forall Webhook.is_id_char (Webhook.extract_google_id url) = true
  /\ (Py.is_empty (Webhook.extract_google_id url) = false ->
      exists marker,
        In marker google_id_markers
        /\ Py.contains (marker ++ Webhook.extract_google_id url) url = true)
  /\ (Py.is_empty (Webhook.extract_google_id url) = true ->
      forall marker c,
        In marker google_id_markers -> Webhook.is_id_char c = true ->
        Py.contains (marker ++ String c "") url = false)
  /\ (DownloadGdrive.extract_google_id url = Webhook.extract_google_id url
      \/ DownloadGdrive.extract_google_id url = "").
Proof.
  unfold Webhook.extract_google_id, DownloadGdrive.extract_google_id, google_id_markers.
  destruct (Py.is_empty url) eqn:E.
  - apply is_empty_true in E. subst url.
    split; [ reflexivity | ]. split; [ discriminate | ].
    split; [ intros _ marker c _ _; apply contains_nothing | now left ].
  - assert (Found : forall markers group,
               Webhook.search_group markers url = Some group ->
               (forall m, In m markers -> In m ["/folders/"; "/file/d/"; "?id="; "&id="]) ->
               string_forall Webhook.is_id_char group = true
               /\ (Py.is_empty group = false ->
                   exists marker,
                     In marker ["/folders/"; "/file/d/"; "?id="; "&id="]
                     /\ Py.contains (marker ++ group) url = true)
               /\ (Py.is_empty group = true ->
                   forall marker c,
                     In marker ["/folders/"; "/file/d/"; "?id="; "&id="] ->
                     Webhook.is_id_char c = true ->
                     Py.contains (marker ++ String c "") url = false)).
    { intros markers group S Sub.
      destruct (search_group_sound _ _ _ S) as (A & B & m & Hin & Hc).
      split; [ exact B | ]. split; [ | congruence ].
      intros _. exists m. split; [ now apply Sub | exact Hc ]. }
    destruct (Webhook.search_group ["/folders/"] url) as [g1 | ] eqn:S1.
    + destruct (Found _ _ S1) as (A & B & C); [ intros m [<- | []]; cbn; auto | ].
      split; [ exact A | ]. split; [ exact B | ]. split; [ exact C | now left ].
    + destruct (Webhook.search_group ["/file/d/"] url) as [g2 | ] eqn:S2.
      * destruct (Found _ _ S2) as (A & B & C); [ intros m [<- | []]; cbn; auto | ].
        split; [ exact A | ]. split; [ exact B | ]. split; [ exact C | now left ].
      * destruct (Webhook.search_group ["?id="; "&id="] url) as [g3 | ] eqn:S3.
        -- destruct (Found _ _ S3) as (A & B & C);
             [ intros m [<- | [<- | []]]; cbn; auto | ].
           split; [ exact A | ]. split; [ exact B | ]. split; [ exact C | now right ].
        -- split; [ reflexivity | ]. split; [ discriminate | ]. split; [ | now left ].
           intros _ marker c Hin Hc.
           destruct Hin as [<- | [<- | [<- | [<- | []]]]].
           ++ apply (search_group_complete _ _ _ _ S1); [ now left | exact Hc ].
           ++ apply (search_group_complete _ _ _ _ S2); [ now left | exact Hc ].
           ++ apply (search_group_complete _ _ _ _ S3); [ now left | exact Hc ].
           ++ apply (search_group_complete _ _ _ _ S3); [ right; now left | exact Hc ].
Qed.

End GoogleIds.

(** ** A vector file that does not parse *)

Section CorruptVectorFile.

Variable env : Env.
Variable self : CloudPipeline.

Lemma run_body_opened w :
  Pipeline.run_body env self w
  = bind (Pipeline.preprocess_company_folder env)
      (fun ok => if negb ok then ret false
                 else Pipeline.run_from_upload env self (time_time env (ticks w)))
      (snd (run_opening self w)).
Proof. reflexivity. Qed.

(** X21: the vector-store stage is no soft failure when the storage is
    corrupt, and [run] does not turn the failure into [False].  When the
    upload command exits with 0 and the newest [vector_*.json] of the
    storage does not parse, the exception of [json.load] leaves
    [upload_to_vector_store]; the [except] block of [run] then fails in its
    own logging call, so [run] raises [KeyError] instead of returning: it
    ends in the world the upload command left, with nothing logged about
    the failure and no later stage started. *)
Theorem corrupt_vector_file_makes_run_raise w out w2 newest rest :
  run_command env (upload_command (storage self)) None 3600
    (record [Step 20 10 "Uploading to vector store"]
       (snd (Pipeline.preprocess_company_folder env (snd (run_opening self w)))))
  = (Ret (0%Z, out), w2) ->
  Fs.sort_newest_first (Fs.glob "vector_" ".json" (vector_ids_dir (disk w2)))
  = newest :: rest ->
  content newest = Malformed ->
  Pipeline.upload_to_vector_store env self
    (snd (Pipeline.preprocess_company_folder env (snd (run_opening self w))))
  = (Raise (Exception "Expecting value: line 1 column 1 (char 0)"), w2)
  /\ Pipeline.run env self w
     = (Raise (Exception (Pipeline.dquote
                          ++ "Attempt to overwrite 'exc_info' in LogRecord"
                          ++ Pipeline.dquote)), w2).
Proof.
  intros Hrun Hsort Hbad.
  assert (U : Pipeline.upload_to_vector_store env self
                (snd (Pipeline.preprocess_company_folder env (snd (run_opening self w))))
              = (Raise (Exception "Expecting value: line 1 column 1 (char 0)"), w2)).
  { rewrite (upload_to_vector_store_cases env self _ 0%Z out w2 Hrun).
    cbn [Z.eqb negb]. unfold Storage.get_latest_vector_store_id.
    now rewrite Hsort, Hbad. }
  split; [ exact U | ].
  unfold Pipeline.run, try_except. rewrite run_body_opened.
  unfold bind at 1. rewrite preprocess_world.
  rewrite preprocess_world in U. cbn [snd] in U.
  cbn [negb]. unfold Pipeline.run_from_upload. unfold bind at 1.
  rewrite U. reflexivity.
Qed.

End CorruptVectorFile.

(** Every command succeeds; the storage holds one vector file, which does
    not parse. *)
Lemma corrupt_vector_file_makes_run_raise_witness :
  Pipeline.run (Scenario.scripted []) Scenario.acme
    (Scenario.start
       (set_vector_ids_dir [File "vector_20250313_101500.json" 5 Malformed]
          Scenario.empty_disk))
  = (Raise (Exception (Pipeline.dquote
                       ++ "Attempt to overwrite 'exc_info' in LogRecord"
                       ++ Pipeline.dquote)),
     snd (run_command (Scenario.scripted []) (upload_command (storage Scenario.acme))
            None 3600
            (record [Step 20 10 "Uploading to vector store"]
               (snd (Pipeline.preprocess_company_folder (Scenario.scripted [])
                       (snd (run_opening Scenario.acme
                               (Scenario.start
                                  (set_vector_ids_dir
                                     [File "vector_20250313_101500.json" 5 Malformed]
                                     Scenario.empty_disk))))))))).
Proof.
  apply (corrupt_vector_file_makes_run_raise (Scenario.scripted []) Scenario.acme _ ""
           _ (File "vector_20250313_101500.json" 5 Malformed) []).
  - vm_compute. reflexivity.
  - vm_compute. reflexivity.
  - reflexivity.
Defined.


(** ** The order of the stages in every run *)

Section StageOrder.

Variable env : Env.
Variable self : CloudPipeline.

(** A stage followed by the rest of the run, which is entered only when
    the stage returned [True]. *)
Lemma announces_after (stage next : M bool) f1 f2 :
  (forall w, exists l rest,
      steps (trace (snd (stage w))) = (steps (trace w) ++ l)%list
      /\ f1 = (l ++ rest)%list
      /\ (fst (stage w) = Ret true -> rest = [])) ->
  announces next f2 ->
  f2 <> [] ->
  announces (bind stage (fun ok => if negb ok then ret false else next)) (f1 ++ f2).
Proof.
  intros Hs Hn Hne w. destruct (Hs w) as (l & rest & A & E & T).
  assert (Stop : (rest ++ f2)%list = [] -> False).
  { intros H. apply app_eq_nil in H. now destruct H. }
  unfold bind. destruct (stage w) as [[[] | e | ] w1]; cbn [fst snd negb] in *.
  - rewrite (T eq_refl), app_nil_r in E. subst f1.
    destruct (Hn w1) as (l' & rest' & A' & E' & T').
    exists (l ++ l')%list, rest'. split; [ now rewrite A', A, app_assoc | ].
    split; [ now rewrite E', app_assoc | exact T' ].
  - exists l, (rest ++ f2)%list. split; [ exact A | ].
    split; [ now rewrite E, app_assoc | ].
    split; [ discriminate | intros H; destruct (Stop H) ].
  - exists l, (rest ++ f2)%list. split; [ exact A | ].
    split; [ now rewrite E, app_assoc | ].
    split; [ discriminate | intros H; destruct (Stop H) ].
  - exists l, (rest ++ f2)%list. split; [ exact A | ].
    split; [ now rewrite E, app_assoc | ].
    split; [ discriminate | intros H; destruct (Stop H) ].
Qed.

(** A stage that announces the same steps whatever becomes of it. *)
Lemma fixed_steps (stage : M bool) l0 :
  (forall w, steps (trace (snd (stage w))) = (steps (trace w) ++ l0)%list) ->
  forall w, exists l rest,
    steps (trace (snd (stage w))) = (steps (trace w) ++ l)%list
    /\ l0 = (l ++ rest)%list
    /\ (fst (stage w) = Ret true -> rest = []).
Proof.
  intros H w. exists l0, []. split; [ apply H | ]. split; [ now rewrite app_nil_r | auto ].
Qed.

Lemma progress_intro {A} (m : M A) (good : outcome A -> Prop) full w :
  (forall r w',
      m w = (r, w') ->
      exists l rest,
        steps (trace w') = (steps (trace w) ++ l)%list
        /\ full = (l ++ rest)%list
        /\ (good r -> rest = [])) ->
  exists l rest,
    steps (trace (snd (m w))) = (steps (trace w) ++ l)%list
    /\ full = (l ++ rest)%list
    /\ (good (fst (m w)) -> rest = []).
Proof. intros H. destruct (m w) as [r w'] eqn:R. exact (H r w' eq_refl). Qed.

Lemma announces_intro (m : M bool) full :
  (forall w r w',
      m w = (r, w') ->
      exists l rest,
        steps (trace w') = (steps (trace w) ++ l)%list
        /\ full = (l ++ rest)%list
        /\ (r = Ret true <-> rest = [])) ->
  announces m full.
Proof. intros H w. destruct (m w) as [r w'] eqn:R. exact (H w r w' R). Qed.

Lemma use_cases_progress w :
  exists l rest,
    steps (trace (snd (Pipeline.part_b_use_cases env self w))) = (steps (trace w) ++ l)%list
    /\ [65; 67] = (l ++ rest)%list
    /\ (fst (Pipeline.part_b_use_cases env self w) = Ret true -> rest = []).
Proof.
  apply (progress_intro _ (fun r => r = Ret true)). intros r w'.
  unfold Pipeline.part_b_use_cases. unfold bind at 1. rewrite emit_record.
  unfold bind at 1.
  pose proof (quiet_steps _ (record [Step 65 10 "Processing use cases"] w)
                (run_command_no_step env "python3 -u part_b/usecases_apicalls.py" None 3600))
    as Q.
  destruct (run_command env "python3 -u part_b/usecases_apicalls.py" None 3600
              (record [Step 65 10 "Processing use cases"] w))
    as [[[code out] | e | ] w1]; cbn [snd] in Q; rewrite record_steps in Q.
  - destruct (negb (code =? 0)%Z).
    + unfold bind. rewrite emit_record. unfold ret. intros R. injection R as <- <-.
      exists [65], [67]. split; [ | split; [ reflexivity | discriminate ] ].
      now rewrite record_steps, Q, app_nil_r.
    + intros R. exists [65; 67], []. split; [ | split; [ reflexivity | auto ] ].
      match type of R with
      | (emit (Step 67 ?t ?msg) ;; ?m) w1 = _ =>
          pose proof (step_then_quiet 67 t msg m w1) as P
      end.
      rewrite R in P. cbn [snd] in P. rewrite P, Q, <- app_assoc; [ reflexivity | ].
      repeat emits_step; auto. apply run_command_no_step.
  - intros R. injection R as <- <-. exists [65], [67].
    split; [ exact Q | split; [ reflexivity | discriminate ] ].
  - intros R. injection R as <- <-. exists [65], [67].
    split; [ exact Q | split; [ reflexivity | discriminate ] ].
Qed.

Lemma part_b_progress w :
  exists l rest,
    steps (trace (snd (Pipeline.run_part_b env self w))) = (steps (trace w) ++ l)%list
    /\ [60; 65; 67] = (l ++ rest)%list
    /\ (fst (Pipeline.run_part_b env self w) = Ret true -> rest = []).
Proof.
  apply (progress_intro _ (fun r => r = Ret true)). intros r w'.
  unfold Pipeline.run_part_b. unfold bind at 1. rewrite emit_record.
  unfold bind at 1.
  pose proof (quiet_steps _ (record [Step 60 10 "Running Part B analysis"] w)
                (part_b_attempts_emits env no_step (seq 0 (Pipeline.max_retries + 1))
                   (process_event_no_step part_b_command)
                   (fun _ => eq_refl) (fun _ => eq_refl) eq_refl)) as Q.
  destruct (part_b_attempts_counts env (seq 0 (Pipeline.max_retries + 1))
              (record [Step 60 10 "Running Part B analysis"] w))
    as [evs (_ & _ & _ & _ & O)].
  assert (Go : forall w1,
             steps (trace w1) = (steps (trace w) ++ [60])%list ->
             Pipeline.part_b_use_cases env self w1 = (r, w') ->
             exists l rest,
               steps (trace w') = (steps (trace w) ++ l)%list
               /\ [60; 65; 67] = (l ++ rest)%list
               /\ (r = Ret true -> rest = [])).
  { intros w1 Q1 R. destruct (use_cases_progress w1) as (l & rest & A & E & T).
    rewrite R in A, T. cbn [fst snd] in A, T.
    exists (60 :: l), rest. split; [ | split; [ cbn; now rewrite <- E | exact T ] ].
    rewrite A, Q1, <- app_assoc. reflexivity. }
  destruct (Pipeline.part_b_attempts env (seq 0 (Pipeline.max_retries + 1))
              (record [Step 60 10 "Running Part B analysis"] w))
    as [[ [ | | b] | e | ] w1]; cbn [fst snd] in *; rewrite record_steps in Q.
  - now apply Go.
  - now apply Go.
  - destruct O as [-> _]. unfold ret. intros R. injection R as <- <-.
    exists [60], [65; 67]. split; [ exact Q | split; [ reflexivity | discriminate ] ].
  - contradiction.
  - intros R. injection R as <- <-. exists [60], [65; 67].
    split; [ exact Q | split; [ reflexivity | discriminate ] ].
Qed.

Lemma finalize_without_candidates w :
  Fs.sort_newest_first (Pipeline.final_candidates (final_dir (disk w))) = [] ->
  Pipeline.finalize_report env self w
  = (Ret None, record [Error "No final report found"]
                 (record [Step 90 10 "Finalizing report"] w)).
Proof.
  intros Hsort. unfold Pipeline.finalize_report.
  unfold bind at 1. rewrite emit_record. unfold bind at 1. cbn [get_disk record disk].
  rewrite Hsort. unfold bind. rewrite emit_record. reflexivity.
Qed.

Lemma run_from_finalize_after start_time w report w1 :
  Pipeline.finalize_report env self w = (Ret (Some report), w1) ->
  fst (Pipeline.run_from_finalize env self start_time w) = Ret true
  /\ steps (trace (snd (Pipeline.run_from_finalize env self start_time w)))
     = steps (trace w1).
Proof.
  intros H.
  destruct (Pipeline.run_from_finalize env self start_time w) as [r w'] eqn:R.
  revert R. unfold Pipeline.run_from_finalize. unfold bind at 1. rewrite H.
  unfold bind, ret. cbn [tick emit disk trace calls ticks].
  intros R. injection R as <- <-. cbn [fst snd trace].
  split; [ reflexivity | ].
  unfold steps. rewrite !flat_map_app. cbn [flat_map app]. now rewrite !app_nil_r.
Qed.

Lemma run_from_finalize_stops start_time w :
  Fs.sort_newest_first (Pipeline.final_candidates (final_dir (disk w))) = [] ->
  Pipeline.run_from_finalize env self start_time w
  = (Ret false, record [Error "No final report found"]
                  (record [Step 90 10 "Finalizing report"] w)).
Proof.
  intros Hsort. unfold Pipeline.run_from_finalize. unfold bind at 1.
  now rewrite (finalize_without_candidates w Hsort).
Qed.

Lemma run_from_finalize_progress start_time :
  announces (Pipeline.run_from_finalize env self start_time) [90; 80].
Proof.
  intros w.
  destruct (Fs.sort_newest_first (Pipeline.final_candidates (final_dir (disk w))))
    as [ | latest rest ] eqn:Hsort.
  - exists [90], [80]. rewrite (run_from_finalize_stops start_time w Hsort).
    cbn [fst snd].
    split; [ | split; [ reflexivity | split; discriminate ] ].
    rewrite !record_steps. cbn [steps flat_map app]. now rewrite app_nil_r.
  - destruct (finalize_report_saves env self w latest rest Hsort) as [w1 [Hfin _]].
    destruct (run_from_finalize_after start_time w _ w1 Hfin) as [R S1].
    destruct (finalize_steps env self w _ w1 Hfin) as [S2 _].
    exists [90; 80], []. split; [ now rewrite S1, S2 | ].
    split; [ reflexivity | split; auto ].
Qed.

Lemma run_from_part_b_progress start_time :
  announces (Pipeline.run_from_part_b env self start_time) [60; 65; 67; 70; 90; 80].
Proof.
  unfold Pipeline.run_from_part_b.
  apply (announces_after _ _ [60; 65; 67] [70; 90; 80]);
    [ exact part_b_progress | | discriminate ].
  apply (announces_after _ _ [70] [90; 80]);
    [ apply fixed_steps, consolidation_steps | | discriminate ].
  apply run_from_finalize_progress.
Qed.

Lemma run_from_part_a_progress start_time v :
  announces (Pipeline.run_from_part_a env self start_time v)
    [50; 60; 65; 67; 70; 90; 80].
Proof.
  unfold Pipeline.run_from_part_a.
  apply (announces_after _ _ [50] [60; 65; 67; 70; 90; 80]);
    [ apply fixed_steps, part_a_steps | | discriminate ].
  apply run_from_part_b_progress.
Qed.

Lemma run_from_mcp_progress start_time v :
  announces (Pipeline.run_from_mcp env self start_time v)
    [30; 40; 50; 60; 65; 67; 70; 90; 80].
Proof.
  unfold Pipeline.run_from_mcp.
  apply (announces_after _ _ [30] [40; 50; 60; 65; 67; 70; 90; 80]);
    [ apply fixed_steps, mcp_steps | | discriminate ].
  apply (announces_after _ _ [40] [50; 60; 65; 67; 70; 90; 80]);
    [ apply fixed_steps, quotes_steps | | discriminate ].
  apply run_from_part_a_progress.
Qed.

Lemma run_from_upload_progress start_time :
  announces (Pipeline.run_from_upload env self start_time)
    [20; 30; 40; 50; 60; 65; 67; 70; 90; 80].
Proof.
  apply announces_intro. intros w r w'.
  unfold Pipeline.run_from_upload. unfold bind at 1.
  pose proof (upload_steps env self w) as U.
  destruct (Pipeline.upload_to_vector_store env self w) as [[v | e | ] w1];
    cbn [snd] in U.
  - unfold bind at 1.
    pose proof (quiet_steps (when (negb (Pipeline.truthy v))
                               (emit (Warning "Continuing without vector store ID"))) w1)
      as Q.
    destruct (when (negb (Pipeline.truthy v))
                (emit (Warning "Continuing without vector store ID")) w1)
      as [[[] | e | ] w2]; cbn [snd] in Q;
      specialize (Q ltac:(repeat emits_step; auto)); rewrite U in Q.
    + intros R.
      destruct (run_from_mcp_progress start_time v w2) as (l & rest & A & E & T).
      rewrite R in A, T. cbn [fst snd] in A, T.
      exists (20 :: l), rest. split; [ | split; [ cbn; now rewrite <- E | exact T ] ].
      rewrite A, Q, <- app_assoc. reflexivity.
    + intros R. injection R as <- <-. exists [20], [30; 40; 50; 60; 65; 67; 70; 90; 80].
      split; [ exact Q | split; [ reflexivity | split; discriminate ] ].
    + intros R. injection R as <- <-. exists [20], [30; 40; 50; 60; 65; 67; 70; 90; 80].
      split; [ exact Q | split; [ reflexivity | split; discriminate ] ].
  - intros R. injection R as <- <-. exists [20], [30; 40; 50; 60; 65; 67; 70; 90; 80].
    split; [ exact U | split; [ reflexivity | split; discriminate ] ].
  - intros R. injection R as <- <-. exists [20], [30; 40; 50; 60; 65; 67; 70; 90; 80].
    split; [ exact U | split; [ reflexivity | split; discriminate ] ].
Qed.

Lemma run_body_progress : announces (Pipeline.run_body env self) run_steps.
Proof.
  intros w. rewrite run_body_opened.
  destruct (announces_after (Pipeline.preprocess_company_folder env)
              (Pipeline.run_from_upload env self (time_time env (ticks w)))
              [10] [20; 30; 40; 50; 60; 65; 67; 70; 90; 80]
              (fixed_steps _ _ (preprocess_steps env))
              (run_from_upload_progress _) ltac:(discriminate)
              (snd (run_opening self w))) as (l & rest & A & E & T).
  exists l, rest. split; [ | split; [ exact E | exact T ] ].
  rewrite A. f_equal. apply quiet_steps.
  unfold run_opening. repeat emits_step; auto.
Qed.

(** X16: the order of the stages, in every run.  Whatever the commands,
    the clock and the Drive client do, the step events [run] logs are an
    initial part of 1, 2, 3, 4, 5, 6, 6.5, 6.7, 7, 9, 8: no stage is
    announced twice, skipped or taken out of order, and the Drive upload
    (step 8) comes after the finalization (step 9) that calls it.  [run]
    returns [True] exactly when it has announced them all. *)
Theorem run_announces_stages_in_order w :
  exists l rest,
    steps (trace (snd (Pipeline.run env self w))) = (steps (trace w) ++ l)%list
    /\ run_steps = (l ++ rest)%list
    /\ (fst (Pipeline.run env self w) = Ret true <-> rest = []).
Proof.
  destruct (run_body_progress w) as (l & rest & A & E & T).
  exists l, rest. unfold Pipeline.run, try_except.
  destruct (Pipeline.run_body env self w) as [[b | e | ] w1]; cbn [fst snd] in *.
  - split; [ exact A | split; [ exact E | exact T ] ].
  - unfold bind, Pipeline.logger_error_exc_info, raise. cbn [fst snd].
    split; [ exact A | split; [ exact E | ] ].
    split; [ discriminate | ]. intros H. apply T in H. discriminate.
  - split; [ exact A | split; [ exact E | exact T ] ].
Qed.

End StageOrder.
